(** * Ground-station orchestration core: shared state store, line decoders,
      process supervisor

    A shallow embedding of the Python sources

      - [backend/state.py]              (class [SharedState])
      - [backend/parsers.py]            (classes [GroundParser], [AirParser], [RelayParser])
      - [backend/supervisor.py]         (class [ProcessSupervisor])
      - [backend/main.py]               (endpoint [start_ramp])

    Conventions of the embedding.

    - A Python [str] is a [string] holding the UTF-8 encoding of the text;
      operations that count characters ([msg[:200]]) count code points, that is
      bytes that are not UTF-8 continuation bytes.
    - A Python [int] is a [Z].  A Python [float] is idealised as the exact
      rational [Q] it denotes; every float result is kept reduced ([Qred]), so
      that equal numbers are equal terms.  Rounding of binary64 arithmetic is
      outside the model.
    - A [dict] is a [gmap string value]; a [deque(maxlen=n)] is a list, oldest
      entry first, with the eviction written out in [deque_append].
    - [async] methods run to completion without interleaving; exceptions, and
      awaits that never resume, are results of the monad [M].  Everything the
      code obtains from its surroundings (clock, operating system, drone
      controller, broadcast hook) is read from an [Env] record or from the
      [World] component of the state. *)

From Stdlib Require Import Ascii String QArith Qround Qabs Qreals Reals Psatz.
From stdpp Require Import gmap strings list fin_maps pretty sorting.

Close Scope Q_scope.
Close Scope R_scope.
Set Default Proof Using "Type".
#[local] Set Warnings "-register-all".

(* ===================================================================== *)
(** * Part I.  The embedding                                              *)
(* ===================================================================== *)

(** ** Python strings *)

Module PyStr.

(** UTF-8 continuation bytes are [10xxxxxx]. *)
Definition is_cont (a : ascii) : bool :=
  let n := N_of_ascii a in ((128 <=? n) && (n <? 192))%N.

(** [len(s)]: number of code points. *)
Fixpoint py_len (s : string) : nat :=
  match s with
  | EmptyString => 0
  | String a s' => if is_cont a then py_len s' else S (py_len s')
  end.

(** [s[:n]] for [n >= 0]: the first [n] code points. *)
Fixpoint py_prefix (n : nat) (s : string) : string :=
  match s with
  | EmptyString => EmptyString
  | String a s' =>
      if is_cont a then String a (py_prefix n s')
      else match n with
           | O => EmptyString
           | S n' => String a (py_prefix n' s')
           end
  end.

Definition is_digit (a : ascii) : bool :=
  let n := N_of_ascii a in ((48 <=? n) && (n <=? 57))%N.

Definition digit_val (a : ascii) : Z := (Z.of_N (N_of_ascii a) - 48)%Z.

(** Value of a run of decimal digits, most significant first. *)
Fixpoint digits_val (acc : Z) (s : string) : Z :=
  match s with
  | EmptyString => acc
  | String a s' => digits_val (10 * acc + digit_val a)%Z s'
  end.

Fixpoint all_chars (p : ascii -> bool) (s : string) : bool :=
  match s with
  | EmptyString => true
  | String a s' => p a && all_chars p s'
  end.

Definition nonempty (s : string) : bool :=
  match s with EmptyString => false | _ => true end.

(** [int(s)] on the texts the decoders hand to it: an optional minus sign
    followed by one or more decimal digits.  [None] stands for
    [ValueError]. *)
Definition py_int (s : string) : option Z :=
  match s with
  | String "-" d =>
      if nonempty d && all_chars is_digit d then Some (- digits_val 0 d)%Z else None
  | _ =>
      if nonempty s && all_chars is_digit s then Some (digits_val 0 s) else None
  end.

(** Splits a numeral at its first dot. *)
Fixpoint split_dot (s : string) : string * option string :=
  match s with
  | EmptyString => (EmptyString, None)
  | String "." s' => (EmptyString, Some s')
  | String a s' => let '(i, f) := split_dot s' in (String a i, f)
  end.

Definition unsigned_float (s : string) : option Q :=
  let '(i, f) := split_dot s in
  let f' := default EmptyString f in
  if all_chars is_digit i && all_chars is_digit f'
     && (nonempty i || nonempty f')
  then Some (Qred (digits_val 0 (i +:+ f')
                     # Z.to_pos (10 ^ Z.of_nat (String.length f'))))
  else None.

(** [float(s)] on the alphabet of the decoders' captures (digits, dot,
    minus): an optional minus sign, then digits with at most one dot and at
    least one digit.  [None] stands for [ValueError]. *)
Definition py_float (s : string) : option Q :=
  match s with
  | String "-" d => Qopp <$> unsigned_float d
  | _ => unsigned_float s
  end.

(** ASCII white space, as [str.strip()] and [\s] see it. *)
Definition is_space (a : ascii) : bool :=
  let n := N_of_ascii a in
  (((9 <=? n) && (n <=? 13)) || ((28 <=? n) && (n <=? 32)))%N.

Fixpoint lstrip (s : string) : string :=
  match s with
  | String a s' => if is_space a then lstrip s' else s
  | EmptyString => EmptyString
  end.

Definition str_rev (s : string) : string :=
  string_of_list_ascii (rev (list_ascii_of_string s)).

(** [s.strip()] *)
Definition py_strip (s : string) : string := str_rev (lstrip (str_rev (lstrip s))).

(** [s.split('\n')] *)
Fixpoint split_lines (cur : string) (s : string) : list string :=
  match s with
  | EmptyString => [str_rev cur]
  | String a s' =>
      if bool_decide (a = "010"%char) then str_rev cur :: split_lines EmptyString s'
      else split_lines (String a cur) s'
  end.

End PyStr.
Export PyStr.

(** ** Python values, exceptions, results *)

(** The values that occur in the telemetry dictionary and in request
    parameters. *)
Inductive value :=
| VNone
| VBool (b : bool)
| VInt (z : Z)
| VFloat (q : Q)
| VStr (s : string)
| VDict (d : gmap string value).

Abbreviation dict := (gmap string value).

(** The exception classes the modelled code raises or catches; all of them
    derive from [Exception].  The argument is the text [str(e)] yields. *)
Inductive exn :=
| ValueError (msg : string)
| TypeError (msg : string)
| RuntimeError (msg : string)
| ProcessLookupError (msg : string)
| FileNotFoundError (msg : string)
| TimeoutExpired (msg : string)
| OSError (msg : string)
| KeyError (msg : string)
| AttributeError (msg : string)
| HTTPException (status_code : Z) (detail : string).

Definition exn_str (e : exn) : string :=
  match e with
  | ValueError m | TypeError m | RuntimeError m | ProcessLookupError m
  | FileNotFoundError m | TimeoutExpired m | OSError m | KeyError m
  | AttributeError m => m
  | HTTPException c d => pretty c +:+ ": " +:+ d
  end.

(** Outcome of running a piece of code: a value, an exception, or an await
    that is never resumed. *)
Inductive Res (A : Type) :=
| Ok (a : A)
| Raise (e : exn)
| Stuck.
Arguments Ok {A} a.
Arguments Raise {A} e.
Arguments Stuck {A}.

(** ** Bounded ring buffers: [collections.deque(maxlen=n)] *)

(** [d.append(x)]: the new entry goes to the right end; when the length
    exceeds [maxlen] entries are discarded from the left end. *)
Definition deque_append {A} (maxlen : nat) (x : A) (d : list A) : list A :=
  let d' := d ++ [x] in drop (length d' - maxlen) d'.

(** Appending a run of entries one by one. *)
Definition deque_extend {A} (maxlen : nat) (xs : list A) (d : list A) : list A :=
  foldl (fun acc x => deque_append maxlen x acc) d xs.

(** [lst[i:]] for a Python index [i] (negative indices count from the end,
    out-of-range indices are clamped). *)
Definition slice_from {A} (i : Z) (l : list A) : list A :=
  let n := Z.of_nat (length l) in
  let start := if (i <? 0)%Z then Z.max 0 (n + i) else Z.min i n in
  drop (Z.to_nat start) l.

(** ** The shared state store ([backend/state.py]) *)

(** An event dictionary [{"ts", "level", "src", "code", "msg"}]. *)
Record Event := mkEvent {
  ev_ts : Z;
  ev_level : string;
  ev_src : string;
  ev_code : string;
  ev_msg : string;
}.

(** The dictionary [{"type": ..., "event": ...}] handed to the broadcast
    hook. *)
Record Payload := mkPayload {
  p_type : string;
  p_event : Event;
}.

(** A broadcast hook is a callable; calling it returns or raises. *)
Definition hook := Payload -> option exn.

Definition RTT_MAXLEN : nat := 100.
Definition EVENTS_MAXLEN : nat := 500.
Definition ERRORS_MAXLEN : nat := 50.
Definition MSG_MAXLEN : nat := 200.

Record SharedState := mkSharedState {
  ws_broadcast : option hook;
  status : string;
  process_pids : gmap string (option Z);
  session_id : option string;
  scenario : string;
  ramp_params : option dict;
  session_start_time : Q;
  telemetry : dict;
  rtt_samples : list Q;
  events : list Event;
  errors : list Event;
  last_telemetry_ts : Q;
  last_heartbeat_ts : Q;
  lock_held : bool;
}.

(** The [default_factory] of the [telemetry] field. *)
Definition default_telemetry : dict :=
  list_to_map [
    ("commanded_pct", VInt 0); ("commanded_w", VFloat 0); ("received_mw", VFloat 0);
    ("efficiency_pct", VFloat 0); ("link_quality_pct", VInt 0); ("rtt_ms", VFloat 0);
    ("granted", VBool false); ("deny_reason", VNone);
    ("grants_total", VInt 0); ("denies_total", VInt 0); ("seq", VInt 0);
    ("voltage_mv", VInt 0); ("current_ma", VInt 0);
    ("soc_pct", VFloat 0); ("temp_cdeg", VInt 0); ("distance_m", VFloat 0);
    ("roll_deg", VFloat 0); ("pitch_deg", VFloat 0);
    ("yaw_deg", VFloat 0); ("gps_lat_deg", VNone); ("gps_lon_deg", VNone);
    ("gps_alt_m", VNone); ("gps_rel_alt_m", VNone); ("home_lat_deg", VNone);
    ("home_lon_deg", VNone);
    ("panel_target_azimuth_deg", VFloat 0); ("panel_target_elevation_deg", VFloat 0);
    ("panel_gimbal_azimuth_deg", VFloat 0); ("panel_gimbal_elevation_deg", VFloat 0);
    ("panel_relative_azimuth_deg", VFloat 0); ("panel_misalignment_deg", VFloat 0);
    ("panel_efficiency_factor", VFloat 1); ("relay_udp_to_ser_total", VInt 0);
    ("relay_ser_to_udp_total", VInt 0);
    ("laser_connected", VBool false);
    ("laser_avg_power_w", VFloat 0);
    ("laser_peak_power_w", VFloat 0);
    ("laser_case_temperature_c", VFloat 0);
    ("laser_board_temperature_c", VFloat 0);
    ("laser_setpoint_pct", VFloat 0);
    ("laser_status_flags", VDict ∅);
    ("laser_status_word", VInt 0);
    ("laser_device_id", VStr "Unknown");
    ("laser_firmware_revision", VStr "Unknown");
    ("laser_emission_on", VBool false);
    ("laser_power_supply_on", VBool false);
    ("laser_alarm_critical", VBool false);
    ("laser_alarm_overheat", VBool false);
    ("laser_error", VNone);
    ("laser_output_power_w", VFloat 0);
    ("laser_temperature_c", VFloat 0)
  ].

(** The dictionary literal [start_session] assigns to [self.telemetry]. *)
Definition session_telemetry : dict :=
  list_to_map [
    ("commanded_pct", VInt 0); ("commanded_w", VFloat 0); ("received_mw", VFloat 0);
    ("efficiency_pct", VFloat 0); ("link_quality_pct", VInt 0); ("rtt_ms", VFloat 0);
    ("granted", VBool false); ("deny_reason", VNone);
    ("grants_total", VInt 0); ("denies_total", VInt 0); ("seq", VInt 0);
    ("voltage_mv", VInt 0); ("current_ma", VInt 0);
    ("soc_pct", VFloat 0); ("temp_cdeg", VInt 0); ("distance_m", VFloat 0);
    ("roll_deg", VFloat 0); ("pitch_deg", VFloat 0);
    ("yaw_deg", VFloat 0); ("relay_udp_to_ser_total", VInt 0);
    ("relay_ser_to_udp_total", VInt 0);
    ("laser_connected", VBool false); ("laser_avg_power_w", VFloat 0);
    ("laser_peak_power_w", VFloat 0);
    ("laser_commanded_w", VFloat 0); ("laser_case_temperature_c", VFloat 0);
    ("laser_board_temperature_c", VFloat 0);
    ("laser_setpoint_pct", VFloat 0); ("laser_status_flags", VDict ∅);
    ("laser_status_word", VInt 0);
    ("laser_device_id", VStr "Unknown"); ("laser_firmware_revision", VStr "Unknown");
    ("laser_emission_on", VBool false); ("laser_power_supply_on", VBool false);
    ("laser_alarm_critical", VBool false); ("laser_alarm_overheat", VBool false);
    ("laser_error", VNone); ("laser_output_power_w", VFloat 0);
    ("laser_temperature_c", VFloat 0)
  ].

(** [SharedState()]: the store as the dataclass constructs it. *)
Definition initial_state : SharedState := {|
  ws_broadcast := None;
  status := "DISCONNECTED";
  process_pids := list_to_map [("ground", None); ("air", None); ("relay", None)];
  session_id := None;
  scenario := "Unknown";
  ramp_params := None;
  session_start_time := 0;
  telemetry := default_telemetry;
  rtt_samples := [];
  events := [];
  errors := [];
  last_telemetry_ts := 0;
  last_heartbeat_ts := 0;
  lock_held := false;
|}.

(** ** The surroundings of the program *)

Inductive signal := SIGTERM | SIGKILL.

(** Calls the supervisor makes to the drone controller ([PX4Controller]). *)
Inductive px4_call := Px4Connect | Px4Land | Px4OffboardStop.

#[global] Instance px4_call_eq_dec : EqDecision px4_call.
Proof. solve_decision. Defined.

(** An operating-system process as the supervisor can observe it.
    [pr_term_delay] is its reaction to a terminate signal: [None] when it
    ignores the signal, [Some n] when its exit is observed [n] polls later.
    [pr_dying] is the countdown once such a signal has been delivered. *)
Record os_proc := mkProc {
  pr_alive : bool;
  pr_exit_code : Z;
  pr_output : list string;
  pr_term_delay : option nat;
  pr_dying : option nat;
}.

(** What [subprocess.run(["pgrep", "-f", pattern], ...)] does. *)
Inductive pgrep_outcome :=
| PgRaises (e : exn)
| PgResult (returncode : Z) (stdout : string).

(** Read-only oracle for everything the code asks of its surroundings. *)
Record Env := mkEnv {
  time_at : nat -> Q;                       (* [time.time()] at the n-th reading *)
  utcnow_at : nat -> string;                (* formatted [datetime.utcnow()] *)
  getpid : Z;                               (* [os.getpid()] *)
  pgrep : string -> pgrep_outcome;
  os_kill_outcome : Z -> option exn;        (* [os.kill(pid, SIGTERM)] *)
  killpg_outcome : Z -> signal -> option exn;
  which_socat : bool;                       (* [shutil.which(SOCAT_BIN)] *)
  popen_outcome : string -> option exn;     (* [subprocess.Popen] for a role *)
  spawned : string -> os_proc;              (* behaviour of the process it starts *)
  px4_outcome : px4_call -> nat -> option exn;
  gather_returns : bool;                    (* see [stop_all] *)
}.

(** The mutable part of the surroundings. *)
Record World := mkWorld {
  ticks : nat;                              (* clock readings so far *)
  os_procs : gmap Z os_proc;
  next_pid : Z;
  px4_calls : list px4_call;                (* newest last *)
  hook_calls : list (bool * Payload);       (* lock state at the call, payload *)
  sleeps : list Q;                          (* [asyncio.sleep] durations *)
}.

(** ** Supervisor state ([backend/supervisor.py]) *)

Record Popen := mkPopen { pid : Z }.

Record ProcessSupervisor := mkSupervisor {
  processes : gmap string (option Popen);
  _monitor_tasks : list string;             (* one task per monitored role *)
  sup_session_id : option string;
  _shutting_down : bool;
  (* throttling state of [parsers["air"]] and [parsers["relay"]] *)
  last_grant_event_time : Q;
  last_event_time : Q;
}.

(** [ProcessSupervisor()] *)
Definition initial_supervisor : ProcessSupervisor := {|
  processes := list_to_map [("ground", None); ("air", None); ("relay", None); ("socat", None)];
  _monitor_tasks := [];
  sup_session_id := None;
  _shutting_down := false;
  last_grant_event_time := 0;
  last_event_time := 0;
|}.

Record RampStartRequest := mkRequest {
  min_power_pct : Z;
  max_power_pct : Z;
  step_pct : Z;
  dwell_time_s : Q;
  max_power_w : Q;
  req_scenario : string;
}.

(** [ramp_params.dict()] *)
Definition request_dict (r : RampStartRequest) : dict :=
  list_to_map [
    ("min_power_pct", VInt (min_power_pct r)); ("max_power_pct", VInt (max_power_pct r));
    ("step_pct", VInt (step_pct r)); ("dwell_time_s", VFloat (dwell_time_s r));
    ("max_power_w", VFloat (max_power_w r)); ("scenario", VStr (req_scenario r))
  ].

(** The whole system: surroundings, store singleton, supervisor singleton. *)
Record Sys := mkSys {
  world : World;
  state : SharedState;
  supervisor : ProcessSupervisor;
}.

(** ** The monad of effects *)

Definition M (A : Type) : Type := Sys -> Res A * Sys.

Definition ret {A} (a : A) : M A := fun s => (Ok a, s).

Definition bind {A B} (m : M A) (k : A -> M B) : M B :=
  fun s => match m s with
           | (Ok a, s') => k a s'
           | (Raise e, s') => (Raise e, s')
           | (Stuck, s') => (Stuck, s')
           end.

Definition raise {A} (e : exn) : M A := fun s => (Raise e, s).

(** [try: m  except Exception as e: h e] *)
Definition try_except {A} (m : M A) (h : exn -> M A) : M A :=
  fun s => match m s with
           | (Raise e, s') => h e s'
           | r => r
           end.

(** [try: m  finally: f].  An await that never resumes runs no handler. *)
Definition try_finally {A} (m : M A) (f : M unit) : M A :=
  fun s => match m s with
           | (Stuck, s') => (Stuck, s')
           | (r, s') =>
               match f s' with
               | (Ok _, s'') => (r, s'')
               | (Raise e, s'') => (Raise e, s'')
               | (Stuck, s'') => (Stuck, s'')
               end
           end.

Definition gets {A} (f : Sys -> A) : M A := fun s => (Ok (f s), s).
Definition modify (f : Sys -> Sys) : M unit := fun s => (Ok tt, f s).

Declare Scope py_scope.
Delimit Scope py_scope with py.
Notation "x <- m ;; k" := (bind m (fun x => k))
  (at level 100, m at next level, right associativity) : py_scope.
Notation "m ;; k" := (bind m (fun _ => k))
  (at level 100, right associativity) : py_scope.
Open Scope py_scope.

Fixpoint for_each {A} (l : list A) (body : A -> M unit) : M unit :=
  match l with
  | [] => ret tt
  | x :: l' => body x ;; for_each l' body
  end.

Definition when (b : bool) (m : M unit) : M unit := if b then m else ret tt.

(** Field updates. *)
Definition upd_state (f : SharedState -> SharedState) : M unit :=
  modify (fun s => mkSys (world s) (f (state s)) (supervisor s)).
Definition upd_world (f : World -> World) : M unit :=
  modify (fun s => mkSys (f (world s)) (state s) (supervisor s)).
Definition upd_sup (f : ProcessSupervisor -> ProcessSupervisor) : M unit :=
  modify (fun s => mkSys (world s) (state s) (f (supervisor s))).

(** Assignments to the attributes of the store. *)
Definition set_ws_broadcast (v : option hook) (st : SharedState) : SharedState :=
  mkSharedState v (status st) (process_pids st) (session_id st) (scenario st)
    (ramp_params st) (session_start_time st) (telemetry st) (rtt_samples st)
    (events st) (errors st) (last_telemetry_ts st) (last_heartbeat_ts st) (lock_held st).
Definition set_status_field (v : string) (st : SharedState) : SharedState :=
  mkSharedState (ws_broadcast st) v (process_pids st) (session_id st) (scenario st)
    (ramp_params st) (session_start_time st) (telemetry st) (rtt_samples st)
    (events st) (errors st) (last_telemetry_ts st) (last_heartbeat_ts st) (lock_held st).
Definition set_process_pids (v : gmap string (option Z)) (st : SharedState) : SharedState :=
  mkSharedState (ws_broadcast st) (status st) v (session_id st) (scenario st)
    (ramp_params st) (session_start_time st) (telemetry st) (rtt_samples st)
    (events st) (errors st) (last_telemetry_ts st) (last_heartbeat_ts st) (lock_held st).
Definition set_session (i : option string) (sc : string) (p : option dict) (t : Q)
    (st : SharedState) : SharedState :=
  mkSharedState (ws_broadcast st) (status st) (process_pids st) i sc p t
    (telemetry st) (rtt_samples st)
    (events st) (errors st) (last_telemetry_ts st) (last_heartbeat_ts st) (lock_held st).
Definition set_telemetry (v : dict) (st : SharedState) : SharedState :=
  mkSharedState (ws_broadcast st) (status st) (process_pids st) (session_id st) (scenario st)
    (ramp_params st) (session_start_time st) v (rtt_samples st)
    (events st) (errors st) (last_telemetry_ts st) (last_heartbeat_ts st) (lock_held st).
Definition set_rtt_samples (v : list Q) (st : SharedState) : SharedState :=
  mkSharedState (ws_broadcast st) (status st) (process_pids st) (session_id st) (scenario st)
    (ramp_params st) (session_start_time st) (telemetry st) v
    (events st) (errors st) (last_telemetry_ts st) (last_heartbeat_ts st) (lock_held st).
Definition set_events (v : list Event) (st : SharedState) : SharedState :=
  mkSharedState (ws_broadcast st) (status st) (process_pids st) (session_id st) (scenario st)
    (ramp_params st) (session_start_time st) (telemetry st) (rtt_samples st)
    v (errors st) (last_telemetry_ts st) (last_heartbeat_ts st) (lock_held st).
Definition set_errors (v : list Event) (st : SharedState) : SharedState :=
  mkSharedState (ws_broadcast st) (status st) (process_pids st) (session_id st) (scenario st)
    (ramp_params st) (session_start_time st) (telemetry st) (rtt_samples st)
    (events st) v (last_telemetry_ts st) (last_heartbeat_ts st) (lock_held st).
Definition set_last_telemetry_ts (v : Q) (st : SharedState) : SharedState :=
  mkSharedState (ws_broadcast st) (status st) (process_pids st) (session_id st) (scenario st)
    (ramp_params st) (session_start_time st) (telemetry st) (rtt_samples st)
    (events st) (errors st) v (last_heartbeat_ts st) (lock_held st).
Definition set_lock_held (v : bool) (st : SharedState) : SharedState :=
  mkSharedState (ws_broadcast st) (status st) (process_pids st) (session_id st) (scenario st)
    (ramp_params st) (session_start_time st) (telemetry st) (rtt_samples st)
    (events st) (errors st) (last_telemetry_ts st) (last_heartbeat_ts st) v.

(** Numeric reading of a value in a comparison or an array ([bool] is a
    subclass of [int]); [None] where Python raises [TypeError]. *)
Definition value_num (v : value) : option Q :=
  match v with
  | VInt z => Some (inject_Z z)
  | VFloat q => Some q
  | VBool b => Some (if b then 1 else 0)%Q
  | VNone | VStr _ | VDict _ => None
  end.

(** [x < y] on floats. *)
Definition Qltb (x y : Q) : bool := negb (Qle_bool y x).

(** [int(x)] of a float truncates towards zero. *)
Definition int_of_float (q : Q) : Z := Z.quot (Qnum q) (Zpos (Qden q)).

(** *** [numpy.percentile(samples, q)]

    [numpy] is a third-party library; this is its documented default method
    (["linear"]): on the sorted array the virtual index is [q/100 * (n-1)],
    its neighbours are the floor and the floor plus one, both clipped to the
    array, and the result interpolates linearly between them. *)

Definition Qleb_rel (x y : Q) : Prop := Is_true (Qle_bool x y).

Definition clip_index (n : nat) (i : Z) : nat :=
  Z.to_nat (Z.max 0 (Z.min i (Z.of_nat n - 1))).

Definition np_percentile (a : list Q) (q : Q) : Q :=
  let arr := merge_sort Qleb_rel a in
  let n := length arr in
  let virtual_index := (q / 100 * (inject_Z (Z.of_nat n) - 1))%Q in
  let previous := Qfloor virtual_index in
  let gamma := (virtual_index - inject_Z previous)%Q in
  let lo := nth (clip_index n previous) arr 0%Q in
  let hi := nth (clip_index n (previous + 1)) arr 0%Q in
  Qred (lo + (hi - lo) * gamma)%Q.

(** ** Regular expressions ([re]) *)

(** The fragment of Python's pattern language the decoders use.  Every
    repetition in the source applies to a single character class, so [Star]
    and [Plus] take the class.  Classes are restricted to their ASCII
    members. *)
Module Re.

Inductive regex :=
| Lit (s : string)                 (* literal text *)
| One (cls : ascii -> bool)        (* one character of a class *)
| Star (cls : ascii -> bool)       (* [c*], greedy *)
| Plus (cls : ascii -> bool)       (* [c+], greedy *)
| Opt (r : regex)                  (* [(?:r)?], greedy *)
| Seq (r1 r2 : regex)
| Alt (r1 r2 : regex)              (* [r1|r2], left first *)
| Group (name : string) (r : regex).  (* [(?P<name>r)] *)

Abbreviation captures := (gmap string string).

(** [\d], [\s], [\w], [[\d.]], [[-\d.]] *)
Definition d : ascii -> bool := is_digit.
Definition s : ascii -> bool := is_space.
Definition w (a : ascii) : bool :=
  let n := N_of_ascii a in
  (is_digit a || ((65 <=? n) && (n <=? 90)) || ((97 <=? n) && (n <=? 122))
   || (n =? 95))%N.
Definition d_dot (a : ascii) : bool := is_digit a || bool_decide (a = "."%char).
Definition sign_d_dot (a : ascii) : bool :=
  bool_decide (a = "-"%char) || is_digit a || bool_decide (a = "."%char).

Fixpoint seq (rs : list regex) : regex :=
  match rs with
  | [] => Lit ""
  | [r] => r
  | r :: rs' => Seq r (seq rs')
  end.

Fixpoint strip_prefix (p t : string) : option string :=
  match p, t with
  | EmptyString, _ => Some t
  | String a p', String b t' => if bool_decide (a = b) then strip_prefix p' t' else None
  | String _ _, EmptyString => None
  end.

Fixpoint str_take (n : nat) (t : string) : string :=
  match n, t with
  | S n', String a t' => String a (str_take n' t')
  | _, _ => EmptyString
  end.

(** Greedy repetition of a class with backtracking: the longest run is
    tried first, then shorter ones. *)
Fixpoint star_k {R} (cls : ascii -> bool) (t : string) (k : string -> option R)
    : option R :=
  match t with
  | String a t' =>
      if cls a then
        match star_k cls t' k with
        | Some x => Some x
        | None => k t
        end
      else k t
  | EmptyString => k t
  end.

(** Backtracking matcher in continuation-passing style: [exec r t caps k]
    matches [r] at the start of [t] and hands the rest of the text and the
    captures to [k]; when [k] fails the next alternative is tried. *)
Fixpoint exec {R} (r : regex) (t : string) (caps : captures)
    (k : string -> captures -> option R) : option R :=
  match r with
  | Lit l =>
      match strip_prefix l t with
      | Some rest => k rest caps
      | None => None
      end
  | One cls =>
      match t with
      | String a t' => if cls a then k t' caps else None
      | EmptyString => None
      end
  | Star cls => star_k cls t (fun rest => k rest caps)
  | Plus cls =>
      match t with
      | String a t' => if cls a then star_k cls t' (fun rest => k rest caps) else None
      | EmptyString => None
      end
  | Opt r' =>
      match exec r' t caps k with
      | Some x => Some x
      | None => k t caps
      end
  | Seq r1 r2 => exec r1 t caps (fun t1 c1 => exec r2 t1 c1 k)
  | Alt r1 r2 =>
      match exec r1 t caps k with
      | Some x => Some x
      | None => exec r2 t caps k
      end
  | Group name r' =>
      exec r' t caps (fun rest c =>
        k rest (<[name := str_take (String.length t - String.length rest) t]> c))
  end.

(** [pattern.search(line)]: the leftmost match; the result is the match
    object's named groups (a group that did not take part is absent). *)
Fixpoint search (r : regex) (t : string) : option captures :=
  match exec r t ∅ (fun _ c => Some c) with
  | Some c => Some c
  | None =>
      match t with
      | String _ t' => search r t'
      | EmptyString => None
      end
  end.

End Re.

Section Store.

Context (env : Env).

(** *** Primitive effects *)

(** [time.time()] *)
Definition time_time : M Q :=
  t <- gets (fun s => time_at env (ticks (world s))) ;;
  upd_world (fun w => mkWorld (S (ticks w)) (os_procs w) (next_pid w)
                              (px4_calls w) (hook_calls w) (sleeps w)) ;;
  ret t.

(** [await asyncio.sleep(d)] *)
Definition sleep (d : Q) : M unit :=
  upd_world (fun w => mkWorld (ticks w) (os_procs w) (next_pid w)
                              (px4_calls w) (hook_calls w) (sleeps w ++ [d])).

(** [print(...)]: the server's own console is not part of the model. *)
Definition print (_ : string) : M unit := ret tt.

(** Calling the broadcast hook. *)
Definition call_hook (h : hook) (p : Payload) : M unit :=
  held <- gets (fun s => lock_held (state s)) ;;
  upd_world (fun w => mkWorld (ticks w) (os_procs w) (next_pid w)
                              (px4_calls w) (hook_calls w ++ [(held, p)]) (sleeps w)) ;;
  match h p with
  | None => ret tt
  | Some e => raise e
  end.

(** [async with lock: body].  The lock is not re-entrant: acquiring it
    while it is held never resumes. *)
Definition acquire : M unit :=
  fun s => if lock_held (state s) then (Stuck, s)
           else upd_state (set_lock_held true) s.
Definition release : M unit := upd_state (set_lock_held false).
Definition with_lock {A} (body : M A) : M A :=
  acquire ;; try_finally body release.

(** *** [SharedState.update_telemetry] *)
Definition update_telemetry (data : dict) : M unit :=
  with_lock (
    upd_state (fun st => set_telemetry (data ∪ telemetry st) st) ;;
    t <- time_time ;;
    upd_state (set_last_telemetry_ts t) ;;
    match data !! "rtt_ms" with
    | None => ret tt
    | Some v =>
        match value_num v with
        | None => raise (TypeError "'>' not supported")
        | Some x =>
            when (Qltb 0 x)
                 (upd_state (fun st =>
                    set_rtt_samples (deque_append RTT_MAXLEN x (rtt_samples st)) st))
        end
    end).

(** *** [SharedState.update_laser_telemetry] *)

(** [d.get(key, default)] *)
Definition dict_get (d0 : dict) (key : string) (dflt : value) : value :=
  default dflt (d0 !! key).

Definition update_laser_telemetry (laser_data : dict) : M unit :=
  with_lock (
    match dict_get laser_data "status_flags" (VDict ∅) with
    | VDict status_flags =>
        let new : dict := list_to_map [
          ("laser_connected", dict_get laser_data "connected" (VBool false));
          ("laser_avg_power_w", dict_get laser_data "avg_power_w" (VFloat 0));
          ("laser_peak_power_w", dict_get laser_data "peak_power_w" (VFloat 0));
          ("laser_commanded_w", dict_get laser_data "commanded_w" (VFloat 0));
          ("laser_case_temperature_c", dict_get laser_data "case_temperature_c" (VFloat 0));
          ("laser_board_temperature_c", dict_get laser_data "board_temperature_c" (VFloat 0));
          ("laser_setpoint_pct", dict_get laser_data "setpoint_pct" (VFloat 0));
          ("laser_status_flags", VDict status_flags);
          ("laser_status_word", dict_get laser_data "status_word" (VInt 0));
          ("laser_device_id", dict_get laser_data "device_id" (VStr "Unknown"));
          ("laser_firmware_revision", dict_get laser_data "firmware_revision" (VStr "Unknown"));
          ("laser_emission_on", dict_get status_flags "emission_on" (VBool false));
          ("laser_power_supply_on", dict_get status_flags "power_supply_on" (VBool false));
          ("laser_alarm_critical", dict_get status_flags "alarm_critical" (VBool false));
          ("laser_alarm_overheat", dict_get status_flags "alarm_overheat" (VBool false));
          ("laser_error", dict_get laser_data "error" VNone);
          ("laser_output_power_w", dict_get laser_data "avg_power_w" (VFloat 0));
          ("laser_temperature_c", dict_get laser_data "case_temperature_c" (VFloat 0))] in
        upd_state (fun st => set_telemetry (new ∪ telemetry st) st)
    | _ => raise (AttributeError "object has no attribute 'get'")
    end).

(** *** [SharedState.start_session] *)
Definition start_session (sid : string) (sc : string) (params : dict) : M unit :=
  with_lock (
    t <- time_time ;;
    upd_state (set_session (Some sid) sc (Some params) t) ;;
    upd_state (set_telemetry session_telemetry) ;;
    upd_state (set_events []) ;;
    upd_state (set_rtt_samples []) ;;
    upd_state (set_errors [])).

(** *** [SharedState.get_telemetry_snapshot] *)
Definition get_telemetry_snapshot : M dict :=
  with_lock (gets (fun s => telemetry (state s))).

(** *** [SharedState.add_event] *)
Definition level_is_error (level : string) : bool :=
  bool_decide (level ∈ ["ERROR"; "WARN"]).

Definition add_event (level src code msg : string) : M unit :=
  event <- with_lock (
    t <- time_time ;;
    let event := mkEvent (int_of_float (t * 1000)%Q) level src code
                         (py_prefix MSG_MAXLEN msg) in
    upd_state (fun st => set_events (deque_append EVENTS_MAXLEN event (events st)) st) ;;
    when (level_is_error level)
         (upd_state (fun st =>
            set_errors (deque_append ERRORS_MAXLEN event (errors st)) st)) ;;
    ret event) ;;
  h <- gets (fun s => ws_broadcast (state s)) ;;
  match h with
  | None => ret tt
  | Some f =>
      try_except (call_hook f (mkPayload "event" event))
                 (fun e => print ("[State] Failed to broadcast event: " +:+ exn_str e))
  end.

(** *** [SharedState.get_recent_events] *)
Definition get_recent_events (count : Z) : M (list Event) :=
  with_lock (gets (fun s => slice_from (- count) (events (state s)))).

(** *** [SharedState.set_status] *)
Definition set_status (new_status : string) : M unit :=
  old_status <- with_lock (
    old <- gets (fun s => status (state s)) ;;
    upd_state (set_status_field new_status) ;;
    ret old) ;;
  add_event "INFO" "server" "STATUS_CHANGE"
    ("Status changed from " +:+ old_status +:+ " to " +:+ new_status).

(** *** [SharedState.set_process_pid] *)
Definition set_process_pid (process_name : string) (p : option Z) : M unit :=
  with_lock (
    upd_state (fun st => set_process_pids (<[process_name := p]> (process_pids st)) st)).

(** *** [SharedState.calculate_rtt_percentiles] *)
Definition calculate_rtt_percentiles : M (Q * Q) :=
  samples <- gets (fun s => rtt_samples (state s)) ;;
  if (length samples <? 10)%nat then ret (0%Q, 0%Q)
  else
    let p95 := np_percentile samples 95 in
    let p99 := np_percentile samples 99 in
    ret (p95, p99).

End Store.

(** ** The line decoders ([backend/parsers.py]) *)

(** [int(match.group(name))] and [float(match.group(name))]. *)
Definition int_group (m : Re.captures) (name : string) : M Z :=
  match m !! name with
  | None => raise (TypeError "int() argument must be a string, not 'NoneType'")
  | Some t =>
      match py_int t with
      | Some z => ret z
      | None => raise (ValueError ("invalid literal for int() with base 10: '" +:+ t +:+ "'"))
      end
  end.

Definition float_group (m : Re.captures) (name : string) : M Q :=
  match m !! name with
  | None => raise (TypeError "float() argument must be a string, not 'NoneType'")
  | Some t =>
      match py_float t with
      | Some q => ret q
      | None => raise (ValueError ("could not convert string to float: '" +:+ t +:+ "'"))
      end
  end.

(** [(roll**2 + pitch**2)**0.5 > 12.0] on exact numbers: the square root of
    a non-negative number exceeds 12 exactly when the number exceeds 144
    (lemma [exceeds_cone_sqrt]). *)
Definition attitude_error_sq (roll pitch : Q) : Q := (roll * roll + pitch * pitch)%Q.
Definition exceeds_cone (roll pitch : Q) : bool :=
  Qltb (12 * 12) (attitude_error_sq roll pitch).

Module GroundParser.
Import Re.

Definition telemetry_pattern : regex := seq [
  Lit "["; Star s; Group "pct" (Plus d); Lit "%]";
  Plus s; Lit "Cmd:"; Star s; Group "cmd_w" (Plus d_dot); Lit "W";
  Plus s; Lit "|"; Plus s; Lit "Rcv:"; Star s; Group "rcv_mw" (Plus d_dot); Lit "mW";
  Plus s; Lit "|"; Plus s; Lit "Eff:"; Star s; Group "eff" (Plus d_dot); Lit "%";
  Plus s; Lit "|"; Plus s; Lit "LQ:"; Star s; Group "lq" (Plus d); Lit "%";
  Plus s; Lit "|"; Plus s; Lit "RTT:"; Star s; Group "rtt" (Plus d_dot); Lit "ms";
  Plus s; Lit "|"; Plus s; Lit "G/D:"; Star s; Group "grants" (Plus d); Lit "/";
    Group "denies" (Plus d);
  Opt (seq [Plus s; Lit "("; Group "grant_rate" (Plus d_dot); Lit "%)"]);
  Opt (seq [Plus s; Lit "|"; Plus s; Lit "d="; Group "dist" (Plus d_dot); Lit "m"]);
  Opt (seq [Plus s; Lit "r="; Group "roll" (Plus sign_d_dot); Lit "°"]);
  Opt (seq [Plus s; Lit "p="; Group "pitch" (Plus sign_d_dot); Lit "°"])
].

Definition deny_pattern : regex := seq [
  Lit "DENY received:"; Plus s;
  Lit "seq="; Group "seq" (Plus d); Plus s;
  Lit "reason="; Group "reason" (Plus w)
].

Definition ramp_level_pattern : regex := seq [
  Lit "[RAMP]"; Plus s; Lit "Level"; Plus s; Group "current" (Plus d); Lit "/";
  Group "total" (Plus d); Lit ":"; Plus s; Group "pct" (Plus d); Lit "%"
].

Definition battery_pattern : regex := seq [
  Lit "BAT:"; Group "voltage" (Plus d); Lit "mV"; Plus s;
  Group "current" (Seq (Opt (Lit "-")) (Plus d)); Lit "mA"; Plus s;
  Group "temp" (Plus d); Lit "cdeg"
].

(** The optional entries of the telemetry dictionary: a key is written
    only when its group took part in the match. *)
Definition optional_entry (m : captures) (group key : string) (data : dict) : M dict :=
  match m !! group with
  | Some (String _ _) => x <- float_group m group ;; ret (<[key := VFloat x]> data)
  | _ => ret data
  end.

Section WithEnv.
Context (env : Env).

Definition parse_line (line : string) : M unit :=
  match search telemetry_pattern line with
  | Some m =>
      pct <- int_group m "pct" ;;
      cmd_w <- float_group m "cmd_w" ;;
      rcv_mw <- float_group m "rcv_mw" ;;
      eff <- float_group m "eff" ;;
      lq <- int_group m "lq" ;;
      rtt <- float_group m "rtt" ;;
      grants <- int_group m "grants" ;;
      denies <- int_group m "denies" ;;
      let data : dict := list_to_map [
        ("commanded_pct", VInt pct);
        ("commanded_w", VFloat cmd_w);
        ("received_mw", VFloat rcv_mw);
        ("efficiency_pct", VFloat eff);
        ("link_quality_pct", VInt lq);
        ("rtt_ms", VFloat rtt);
        ("grants_total", VInt grants);
        ("denies_total", VInt denies)] in
      data <- optional_entry m "dist" "distance_m" data ;;
      data <- optional_entry m "roll" "roll_deg" data ;;
      data <- optional_entry m "pitch" "pitch_deg" data ;;
      update_telemetry env data ;;
      let total := (grants + denies)%Z in
      when (0 <? total)%Z
        (let grant_rate := Qred ((inject_Z grants / inject_Z total) * 100)%Q in
         update_telemetry env {["grant_rate_pct" := VFloat grant_rate]})
  | None =>
  match search deny_pattern line with
  | Some m =>
      let seq := default "" (m !! "seq") in
      let reason := default "" (m !! "reason") in
      add_event env "WARN" "ground" "DENY_RECEIVED" ("Seq " +:+ seq +:+ ": " +:+ reason)
  | None =>
  match search ramp_level_pattern line with
  | Some m =>
      current <- int_group m "current" ;;
      total <- int_group m "total" ;;
      pct <- int_group m "pct" ;;
      update_telemetry env (list_to_map [
        ("ramp_level_current", VInt current);
        ("ramp_level_total", VInt total);
        ("ramp_level_str", VStr (pretty current +:+ "/" +:+ pretty total))])
  | None =>
  match search battery_pattern line with
  | Some m =>
      voltage <- int_group m "voltage" ;;
      current <- int_group m "current" ;;
      temp <- int_group m "temp" ;;
      print "[Parser] Battery matched" ;;
      update_telemetry env (list_to_map [
        ("voltage_mv", VInt voltage);
        ("current_ma", VInt current);
        ("temp_cdeg", VInt temp)])
  | None => ret tt
  end end end end.

End WithEnv.
End GroundParser.

Definition set_last_grant_event_time (t : Q) (p : ProcessSupervisor) : ProcessSupervisor :=
  mkSupervisor (processes p) (_monitor_tasks p) (sup_session_id p) (_shutting_down p)
    t (last_event_time p).
Definition set_last_event_time (t : Q) (p : ProcessSupervisor) : ProcessSupervisor :=
  mkSupervisor (processes p) (_monitor_tasks p) (sup_session_id p) (_shutting_down p)
    (last_grant_event_time p) t.

Module AirParser.
Import Re.

Definition grant_pattern : regex := seq [
  Lit "✓ GRANT"; Plus s;
  Lit "seq="; Group "seq" (Plus d); Plus s; Lit "|"; Plus s;
  Lit "Cmd:"; Group "cmd_w" (Plus d_dot); Lit "W"; Plus s; Lit "|"; Plus s;
  Lit "Rcv:"; Group "rcv_mw" (Plus d_dot); Lit "mW"; Plus s; Lit "|"; Plus s;
  Lit "Eff:"; Group "eff" (Plus d_dot); Lit "%"; Plus s; Lit "|"; Plus s;
  Lit "d="; Group "dist" (Plus d_dot); Lit "m"; Plus s; Lit "|"; Plus s;
  Lit "r="; Group "roll" (Plus sign_d_dot); Lit "°"; Plus s;
  Lit "p="; Group "pitch" (Plus sign_d_dot); Lit "°"
].

Definition grant_event_throttle_seconds : Q := 5.

Definition deny_pattern : regex := seq [
  Lit "✗ DENY"; Plus s;
  Lit "seq="; Group "seq" (Plus d); Plus s; Lit "|"; Plus s;
  Group "reason" (Plus w); Plus s; Lit "|"; Plus s;
  Lit "r="; Group "roll" (Plus sign_d_dot); Lit "°"; Plus s;
  Lit "p="; Group "pitch" (Plus sign_d_dot); Lit "°";
  Opt (seq [Plus s; Lit "|"; Plus s; Lit "att_err="; Group "att_err" (Plus d_dot); Lit "°"])
].

Definition px4_gate_pattern : regex := seq [
  Lit "PX4 gate:"; Plus s;
  Lit "hb="; Group "hb" (One d); Plus s;
  Lit "armed="; Group "armed" (One d); Plus s;
  Lit "ekf="; Group "ekf" (One d); Plus s;
  Lit "cone="; Group "cone" (One d)
].

Definition px4_alt_pattern : regex := seq [
  Lit "[air]"; Plus s; Lit "PX4"; Plus s; Lit "ALT"; Plus s;
  Lit "rel="; Group "rel" (Plus sign_d_dot); Lit "m"
].

Definition px4_bat_pattern : regex := seq [
  Lit "[air]"; Plus s; Lit "PX4"; Plus s; Lit "BAT"; Plus s;
  Lit "V="; Group "v" (Plus d); Lit "mV"; Plus s;
  Lit "I="; Group "i" (Seq (Opt (Lit "-")) (Plus d)); Lit "mA"; Plus s;
  Lit "rem="; Group "rem" (Seq (Opt (Lit "-")) (Plus d)); Lit "%"
].

Definition home_set_pattern : regex := seq [
  Lit "[air]"; Plus s; Lit "Home"; Plus s; Lit "set:"; Plus s;
  Group "lat" (Plus sign_d_dot); Lit ","; Plus s; Group "lon" (Plus sign_d_dot)
].

Section WithEnv.
Context (env : Env).

Definition parse_line (line : string) : M unit :=
  match search grant_pattern line with
  | Some m =>
      let seq := default "" (m !! "seq") in
      dist <- float_group m "dist" ;;
      roll <- float_group m "roll" ;;
      pitch <- float_group m "pitch" ;;
      seq_n <- int_group m "seq" ;;
      let data : dict := list_to_map [
        ("granted", VBool true);
        ("deny_reason", VNone);
        ("distance_m", VFloat dist);
        ("roll_deg", VFloat roll);
        ("pitch_deg", VFloat pitch);
        ("seq", VInt seq_n)] in
      update_telemetry env data ;;
      roll <- float_group m "roll" ;;
      pitch <- float_group m "pitch" ;;
      update_telemetry env {["cone_violation" := VBool (exceeds_cone roll pitch)]} ;;
      current_time <- time_time env ;;
      last <- gets (fun y => last_grant_event_time (supervisor y)) ;;
      let time_since_last_event := (current_time - last)%Q in
      when (Qle_bool grant_event_throttle_seconds time_since_last_event)
        (upd_sup (set_last_grant_event_time current_time) ;;
         add_event env "INFO" "air" "GRANT"
           ("Seq " +:+ seq +:+ ": " +:+ default "" (m !! "cmd_w") +:+ "W @ "
            +:+ default "" (m !! "dist") +:+ "m"))
  | None =>
  match search deny_pattern line with
  | Some m =>
      let seq := default "" (m !! "seq") in
      let reason := default "" (m !! "reason") in
      roll <- float_group m "roll" ;;
      pitch <- float_group m "pitch" ;;
      seq_n <- int_group m "seq" ;;
      let data : dict := list_to_map [
        ("granted", VBool false);
        ("deny_reason", VStr reason);
        ("roll_deg", VFloat roll);
        ("pitch_deg", VFloat pitch);
        ("seq", VInt seq_n)] in
      update_telemetry env data ;;
      match m !! "att_err" with
      | Some (String _ _) =>
          attitude_error <- float_group m "att_err" ;;
          update_telemetry env {["cone_violation" := VBool (Qltb 12 attitude_error)]}
      | _ => ret tt
      end ;;
      let msg := "Seq " +:+ seq +:+ ": " +:+ reason in
      let msg :=
        match m !! "att_err" with
        | Some (String a t) => msg +:+ " (attitude " +:+ String a t +:+ "° > cone)"
        | _ => msg
        end in
      add_event env "WARN" "air" reason msg
  | None =>
  match search px4_alt_pattern line with
  | Some m =>
      rel <- float_group m "rel" ;;
      update_telemetry env {["rel_alt_m" := VFloat rel]}
  | None =>
  match search px4_bat_pattern line with
  | Some m =>
      vbatt <- int_group m "v" ;;
      ibatt <- int_group m "i" ;;
      rem <- int_group m "rem" ;;
      update_telemetry env (list_to_map [
        ("voltage_mv", VInt vbatt);
        ("current_ma", VInt ibatt);
        ("battery_remaining_pct", if (rem <? 0)%Z then VNone else VInt rem)])
  | None =>
  match search home_set_pattern line with
  | Some m =>
      home_lat <- float_group m "lat" ;;
      home_lon <- float_group m "lon" ;;
      update_telemetry env (list_to_map [
        ("home_lat_deg", VFloat home_lat);
        ("home_lon_deg", VFloat home_lon)]) ;;
      print "[Parser] Ground station home set"
  | None =>
  match search px4_gate_pattern line with
  | Some m =>
      when (bool_decide (m !! "cone" = Some "0"))
        (add_event env "WARN" "air" "PX4_CONE_VIOLATION" "Attitude outside ±12° cone")
  | None => ret tt
  end end end end end end.

End WithEnv.
End AirParser.

Module RelayParser.
Import Re.

Definition counter_pattern : regex := seq [
  Group "direction" (Alt (Lit "UDP->SER") (Lit "SER->UDP")); Lit ":"; Plus s;
  Lit "queue="; Group "queue" (Plus d); Plus s;
  Lit "total="; Group "total" (Plus d); Plus s;
  Lit "last="; Group "msg_type" (Plus w)
].

Definition drop_pattern : regex := seq [
  Lit "Dropped packet:"; Plus s; Group "msg_type" (Plus w)
].

Definition event_throttle_seconds : Q := 5.

Section WithEnv.
Context (env : Env).

Definition parse_line (line : string) : M unit :=
  match search counter_pattern line with
  | Some m =>
      let direction := default "" (m !! "direction") in
      queue <- int_group m "queue" ;;
      total <- int_group m "total" ;;
      let msg_type := default "" (m !! "msg_type") in
      let key_prefix :=
        if bool_decide (direction = "UDP->SER") then "relay_udp_to_ser"
        else "relay_ser_to_udp" in
      update_telemetry env (list_to_map [
        (key_prefix +:+ "_total", VInt total);
        (key_prefix +:+ "_queue", VInt queue);
        (key_prefix +:+ "_last_msg", VStr msg_type)]) ;;
      current_time <- time_time env ;;
      last <- gets (fun y => last_event_time (supervisor y)) ;;
      let time_since_last_event := (current_time - last)%Q in
      when (Qle_bool event_throttle_seconds time_since_last_event)
        (upd_sup (set_last_event_time current_time) ;;
         add_event env "INFO" "relay" msg_type
           ("[mav_relay] " +:+ direction +:+ ": queue=" +:+ pretty queue +:+ " total="
            +:+ pretty total +:+ " last=" +:+ msg_type)) ;;
      when (20 <? queue)%Z
        (add_event env "WARN" "relay" "HIGH_QUEUE_DEPTH"
           (direction +:+ " queue depth: " +:+ pretty queue))
  | None =>
  match search drop_pattern line with
  | Some m =>
      let msg_type := default "" (m !! "msg_type") in
      add_event env "INFO" "relay" "PACKET_DROPPED"
        ("Dropped: " +:+ msg_type +:+ " (drill simulation)")
  | None => ret tt
  end end.

End WithEnv.
End RelayParser.

(** ** The process supervisor ([backend/supervisor.py]) *)

Definition set_processes (v : gmap string (option Popen)) (p : ProcessSupervisor)
    : ProcessSupervisor :=
  mkSupervisor v (_monitor_tasks p) (sup_session_id p) (_shutting_down p)
    (last_grant_event_time p) (last_event_time p).
Definition set_monitor_tasks (v : list string) (p : ProcessSupervisor) : ProcessSupervisor :=
  mkSupervisor (processes p) v (sup_session_id p) (_shutting_down p)
    (last_grant_event_time p) (last_event_time p).
Definition set_sup_session_id (v : option string) (p : ProcessSupervisor) : ProcessSupervisor :=
  mkSupervisor (processes p) (_monitor_tasks p) v (_shutting_down p)
    (last_grant_event_time p) (last_event_time p).
Definition set_shutting_down (v : bool) (p : ProcessSupervisor) : ProcessSupervisor :=
  mkSupervisor (processes p) (_monitor_tasks p) (sup_session_id p) v
    (last_grant_event_time p) (last_event_time p).

Definition set_os_procs (v : gmap Z os_proc) (w : World) : World :=
  mkWorld (ticks w) v (next_pid w) (px4_calls w) (hook_calls w) (sleeps w).

(** A process that is no longer there. *)
Definition reaped : os_proc := mkProc false 0 [] None None.

Definition os_lookup (w : World) (p : Z) : os_proc := default reaped (os_procs w !! p).

(** Delivery of a signal to a process (its group, in the source). *)
Definition deliver (sig : signal) (pr : os_proc) : os_proc :=
  match sig with
  | SIGKILL =>
      if pr_alive pr then mkProc false (-9) (pr_output pr) (pr_term_delay pr) None else pr
  | SIGTERM =>
      if pr_alive pr then
        match pr_dying pr with
        | Some _ => pr
        | None => mkProc true (pr_exit_code pr) (pr_output pr) (pr_term_delay pr)
                         (pr_term_delay pr)
        end
      else pr
  end.

Definition MAX_POWER_W : Q := 500.

Module Supervisor.

Section WithEnv.
Context (env : Env).

(** *** Operating-system primitives *)

(** [proc.poll()] *)
Definition poll (p : Popen) : M (option Z) :=
  pr <- gets (fun y => os_lookup (world y) (pid p)) ;;
  if pr_alive pr then
    match pr_dying pr with
    | Some O =>
        upd_world (fun w => set_os_procs
          (<[pid p := mkProc false (-15) (pr_output pr) (pr_term_delay pr) None]>
             (os_procs w)) w) ;;
        ret (Some (-15)%Z)
    | Some (S n) =>
        upd_world (fun w => set_os_procs
          (<[pid p := mkProc true (pr_exit_code pr) (pr_output pr) (pr_term_delay pr)
                             (Some n)]> (os_procs w)) w) ;;
        ret None
    | None => ret None
    end
  else ret (Some (pr_exit_code pr)).

(** [os.killpg(os.getpgid(proc.pid), sig)] *)
Definition killpg (p : Popen) (sig : signal) : M unit :=
  match killpg_outcome env (pid p) sig with
  | Some e => raise e
  | None =>
      upd_world (fun w => set_os_procs
        (<[pid p := deliver sig (os_lookup w (pid p))]> (os_procs w)) w)
  end.

(** [os.kill(pid, signal.SIGTERM)] *)
Definition os_kill (p : Z) : M unit :=
  match os_kill_outcome env p with
  | Some e => raise e
  | None =>
      upd_world (fun w =>
        match os_procs w !! p with
        | Some pr => set_os_procs (<[p := deliver SIGTERM pr]> (os_procs w)) w
        | None => w
        end)
  end.

(** [subprocess.Popen([...], preexec_fn=os.setsid)] for a role.  The
    environment variables handed to the child are not part of the
    model. *)
Definition popen (role : string) : M Popen :=
  match popen_outcome env role with
  | Some e => raise e
  | None =>
      np <- gets (fun y => next_pid (world y)) ;;
      upd_world (fun w => mkWorld (ticks w) (<[np := spawned env role]> (os_procs w))
                                  (np + 1)%Z (px4_calls w) (hook_calls w) (sleeps w)) ;;
      ret (mkPopen np)
  end.

(** A call to the drone controller. *)
Definition px4 (c : px4_call) : M unit :=
  n <- gets (fun y => length (px4_calls (world y))) ;;
  upd_world (fun w => mkWorld (ticks w) (os_procs w) (next_pid w)
                              (px4_calls w ++ [c]) (hook_calls w) (sleeps w)) ;;
  match px4_outcome env c n with
  | Some e => raise e
  | None => ret tt
  end.

Definition px4_connect : M unit := px4 Px4Connect.
Definition px4_offboard_stop : M unit := px4 Px4OffboardStop.
Definition px4_land : M unit := px4 Px4Land.

(** [self.processes[name]] and [self.processes[name] = v] *)
Definition get_process (name : string) : M (option Popen) :=
  gets (fun y => default None (processes (supervisor y) !! name)).
Definition set_process (name : string) (v : option Popen) : M unit :=
  upd_sup (fun p => set_processes (<[name := v]> (processes p)) p).

(** *** [_cleanup_old_processes] *)

Definition process_patterns : list string :=
  ["mav_relay.py"; "permit_air_power_ramp.py"; "permit_ground_power_ramp.py"].

(** The two inner [except] clauses. *)
Definition cleanup_except (e : exn) : M unit :=
  match e with
  | ProcessLookupError _ | ValueError _ => ret tt
  | _ => print "[supervisor] Failed to kill PID"
  end.

(** The loop over the PIDs [pgrep] printed; the result is [killed_any]. *)
Fixpoint cleanup_pids (pattern : string) (pids : list string) (killed_any : bool)
    : M bool :=
  match pids with
  | [] => ret killed_any
  | pid_str :: rest =>
      killed_any <-
        (if nonempty pid_str then
           try_except
             (match py_int pid_str with
              | None => raise (ValueError "invalid literal for int()")
              | Some p =>
                  if bool_decide (p ≠ getpid env) then
                    print "[supervisor] Cleaning up old process" ;;
                    os_kill p ;;
                    try_except
                      (add_event env "INFO" "supervisor" "CLEANUP"
                         ("Killed stale process: " +:+ pattern +:+ " (PID "
                          +:+ pretty p +:+ ")"))
                      cleanup_except ;;
                    ret true
                  else ret killed_any
              end)
             (fun e => cleanup_except e ;; ret killed_any)
         else ret killed_any) ;;
      cleanup_pids pattern rest killed_any
  end.

(** The loop over the patterns, with its [break]. *)
Fixpoint cleanup_patterns (patterns : list string) (killed_any : bool) : M bool :=
  match patterns with
  | [] => ret killed_any
  | pattern :: rest =>
      match pgrep env pattern with
      | PgRaises (TimeoutExpired _) =>
          print "[supervisor] Timeout checking" ;; cleanup_patterns rest killed_any
      | PgRaises (FileNotFoundError _) =>
          print "[supervisor] Warning: pgrep not available" ;; ret killed_any
      | PgRaises _ =>
          print "[supervisor] Cleanup error" ;; cleanup_patterns rest killed_any
      | PgResult returncode stdout =>
          if bool_decide (returncode = 0%Z) && nonempty (py_strip stdout) then
            killed_any <- cleanup_pids pattern (split_lines "" (py_strip stdout))
                                       killed_any ;;
            cleanup_patterns rest killed_any
          else cleanup_patterns rest killed_any
      end
  end.

Definition _cleanup_old_processes : M unit :=
  killed_any <- cleanup_patterns process_patterns false ;;
  if killed_any : bool then
    sleep 1.5 ;; print "[supervisor] Old processes cleaned up, ports released"
  else print "[supervisor] No stale processes found".

(** *** [is_running] *)

Definition role_running (name : string) : M bool :=
  proc <- get_process name ;;
  match proc with
  | None => ret false
  | Some p => c <- poll p ;; ret (bool_decide (c = None))
  end.

(** [any(... for name in ("ground", "air", "relay"))] stops at the first
    role that is running. *)
Definition is_running : M bool :=
  g <- role_running "ground" ;;
  if g : bool then ret true else
  a <- role_running "air" ;;
  if a : bool then ret true else
  role_running "relay".

(** *** The virtual link bridge *)

(** [for _ in range(n): if proc.poll() is not None: break; sleep(0.1)] *)
Fixpoint poll_until_exit (n : nat) (p : Popen) : M unit :=
  match n with
  | O => ret tt
  | S n' =>
      c <- poll p ;;
      match c with
      | Some _ => ret tt
      | None => sleep 0.1 ;; poll_until_exit n' p
      end
  end.

Definition _start_virtual_elrs_link : M unit :=
  proc <- get_process "socat" ;;
  running <- match proc with
             | None => ret false
             | Some p => c <- poll p ;; ret (bool_decide (c = None))
             end ;;
  if running : bool then ret tt else
  if negb (which_socat env) then
    add_event env "ERROR" "server" "SOCAT_NOT_FOUND"
      "socat not found. Install with: brew install socat" ;;
    raise (RuntimeError "socat not found")
  else
    p <- popen "socat" ;;
    set_process "socat" (Some p) ;;
    add_event env "INFO" "server" "SOCAT_START"
      ("socat PTY bridge started (PID " +:+ pretty (pid p) +:+ ")").

Definition _stop_virtual_elrs_link : M unit :=
  proc <- get_process "socat" ;;
  match proc with
  | None => ret tt
  | Some p =>
      try_finally
        (c <- poll p ;;
         match c with
         | None =>
             killpg p SIGTERM ;;
             poll_until_exit 50 p ;;
             c' <- poll p ;;
             when (bool_decide (c' = None)) (killpg p SIGKILL)
         | Some _ => ret tt
         end ;;
         add_event env "INFO" "server" "SOCAT_STOP" "socat PTY bridge stopped")
        (set_process "socat" None)
  end.

(** *** [_stop_process] *)

(** The bounded wait after the terminate signal; [true] when the process
    was seen to exit (the [return] inside the loop). *)
Fixpoint wait_graceful (n : nat) (name : string) (p : Popen) : M bool :=
  match n with
  | O => ret false
  | S n' =>
      c <- poll p ;;
      match c with
      | Some _ =>
          add_event env "INFO" name "PROCESS_STOP" (name +:+ " stopped gracefully") ;;
          set_process name None ;;
          ret true
      | None => sleep 0.1 ;; wait_graceful n' name p
      end
  end.

Definition _stop_process (name : string) : M unit :=
  proc <- get_process name ;;
  match proc with
  | None => ret tt
  | Some p =>
      c <- poll p ;;
      match c with
      | Some _ => set_process name None
      | None =>
          try_finally
            (try_except
               (killpg p SIGTERM ;;
                stopped <- wait_graceful 50 name p ;;
                if stopped : bool then ret tt else
                killpg p SIGKILL ;;
                add_event env "WARN" name "PROCESS_KILL"
                  (name +:+ " force killed (did not respond to SIGTERM)"))
               (fun e =>
                  match e with
                  | ProcessLookupError _ => ret tt
                  | _ => add_event env "ERROR" "server" "STOP_ERROR"
                           ("Error stopping " +:+ name +:+ ": " +:+ exn_str e)
                  end))
            (set_process name None ;;
             set_process_pid name None)
      end
  end.

Definition stop_relay : M unit := _stop_process "relay".
Definition stop_air : M unit := _stop_process "air".
Definition stop_ground : M unit := _stop_process "ground".

(** *** [stop_all]

    [caller] names the monitor task [stop_all] is awaited from, if any.
    After cancelling the monitor tasks the method awaits all of them; when
    the awaiting task is itself in the list, whether that await ever hands
    control back is left to the scheduler ([gather_returns]). *)
Definition await_monitor_tasks (caller : option string) : M unit :=
  tasks <- gets (fun y => _monitor_tasks (supervisor y)) ;;
  match caller with
  | Some name =>
      if bool_decide (name ∈ tasks) && negb (gather_returns env)
      then (fun y => (Stuck, y))
      else ret tt
  | None => ret tt
  end.

Definition stop_all (caller : option string) : M unit :=
  upd_sup (set_shutting_down true) ;;
  set_status env "STOPPING" ;;
  try_except
    (px4_offboard_stop ;;
     add_event env "INFO" "supervisor" "PX4_OFFBOARD_STOP" "PX4 offboard mode stopped" ;;
     print "[supervisor] PX4 offboard stopped")
    (fun e =>
       print "[supervisor] Failed to stop offboard" ;;
       add_event env "WARN" "supervisor" "PX4_OFFBOARD_STOP_FAIL"
         ("Failed to stop offboard: " +:+ exn_str e)) ;;
  stop_ground ;;
  stop_air ;;
  stop_relay ;;
  _stop_virtual_elrs_link ;;
  await_monitor_tasks caller ;;
  upd_sup (set_monitor_tasks []) ;;
  sleep 0.5 ;;
  (* [pkill] of stray role processes: best effort, outcome ignored *)
  set_status env "READY" ;;
  upd_sup (set_shutting_down false).

(** *** Starting the role processes *)

(** The common part of [start_relay], [start_air] and [start_ground]. *)
Definition start_role (name label : string) : M unit :=
  proc <- get_process name ;;
  when (bool_decide (proc ≠ None)) (_stop_process name) ;;
  p <- popen name ;;
  set_process name (Some p) ;;
  set_process_pid name (Some (pid p)) ;;
  add_event env "INFO" name "PROCESS_START"
    (label +:+ " started (PID " +:+ pretty (pid p) +:+ ")") ;;
  (* [asyncio.create_task(self._monitor_process(name))] *)
  upd_sup (fun q => set_monitor_tasks (_monitor_tasks q ++ [name]) q).

Definition start_relay : M unit := start_role "relay" "MAV Relay".
Definition start_air : M unit := start_role "air" "Air node".
Definition start_ground (params : RampStartRequest) : M unit :=
  start_role "ground" "Ground station".

(** *** [_monitor_process] *)

(** [self.parsers[name].parse_line(line)] *)
Definition parse_line (name line : string) : M unit :=
  if bool_decide (name = "ground") then GroundParser.parse_line env line
  else if bool_decide (name = "air") then AirParser.parse_line env line
  else RelayParser.parse_line env line.




(** *** [start_all] *)

(** Steps 2 to 4: outside the [try] block. *)
Definition start_prelude (ramp_params : RampStartRequest) : M unit :=
  _cleanup_old_processes ;;
  sid <- gets (fun y => utcnow_at env (ticks (world y))) ;;
  upd_sup (set_sup_session_id (Some sid)) ;;
  start_session env sid (req_scenario ramp_params) (request_dict ramp_params) ;;
  set_status env "CONNECTING".

(** The body of the [try] block. *)
Definition start_steps (ramp_params : RampStartRequest) : M string :=
  add_event env "INFO" "supervisor" "PX4_CONNECTING" "Connecting to PX4..." ;;
  try_except
    (px4_connect ;;
     add_event env "INFO" "supervisor" "PX4_CONNECTED" "PX4 connected, telemetry streaming")
    (fun e => add_event env "WARN" "supervisor" "PX4_CONNECT_FAIL"
                ("PX4 connection failed: " +:+ exn_str e)) ;;
  _start_virtual_elrs_link ;;
  start_relay ;;
  sleep 2 ;;
  start_air ;;
  sleep 2 ;;
  start_ground ramp_params ;;
  sleep 1 ;;
  set_status env "RAMPING" ;;
  sid <- gets (fun y => default "" (sup_session_id (supervisor y))) ;;
  ret sid.

(** The [except Exception] clause. *)
Definition start_rollback (e : exn) : M string :=
  add_event env "ERROR" "server" "START_FAIL"
    ("Experiment start failed: " +:+ exn_str e) ;;
  stop_all None ;;
  raise (RuntimeError ("Failed to start experiment: " +:+ exn_str e)).

Definition start_all (ramp_params : RampStartRequest) : M string :=
  start_prelude ramp_params ;;
  try_except (start_steps ramp_params) start_rollback.

(** *** [start_ramp] ([backend/main.py], [POST /ramp/start]) *)
Definition start_ramp (req : RampStartRequest) : M string :=
  running <- is_running ;;
  if running : bool then raise (HTTPException 400 "Ramp already in progress.") else
  if Qltb MAX_POWER_W (max_power_w req) then
    raise (HTTPException 400 "Exceeds hardware limit (500.0W)")
  else
    try_except
      (start_all req)
      (fun e =>
         add_event env "ERROR" "server" "START_FAILED"
           ("Failed to start ramp: " +:+ exn_str e) ;;
         raise (HTTPException 500 (exn_str e))).

End WithEnv.
End Supervisor.

(** ** Further operations of the store, the laser decoder, the request
    models and the stop endpoint *)

(** ** More of the store ([backend/state.py]) *)

Section StoreMore.
Context (env : Env).

(** *** [SharedState.get_session_duration] *)
Definition get_session_duration : M Q :=
  with_lock (
    t0 <- gets (fun s => session_start_time (state s)) ;;
    if Qeq_bool t0 0 then ret 0%Q
    else
      t <- time_time env ;;
      ret (t - t0)%Q).
End StoreMore.

(** ** The laser status decoder ([laser_decoder.py]) *)

Module LaserStatusDecoder.

(** [bool((status_int >> n) & 1)] on Python's unbounded integers. *)
Definition bit (status_int : Z) (n : Z) : value :=
VBool (bool_decide (Z.land (Z.shiftr status_int n) 1 ≠ 0%Z)).

(** [decode_status_word] *)
Definition decode_status_word (status_int : Z) : dict :=
list_to_map [
  ("cmd_buffer_overflow", bit status_int 0);
  ("alarm_overheat", bit status_int 1);
  ("alarm_back_reflection", bit status_int 3);
  ("pulse_too_long", bit status_int 5);
  ("pulse_too_short", bit status_int 9);
  ("high_pulse_energy", bit status_int 17);
  ("power_supply_failure", bit status_int 19);
  ("duty_cycle_too_high", bit status_int 23);
  ("alarm_temp_low", bit status_int 24);
  ("power_supply_alarm", bit status_int 25);
  ("guide_laser_alarm", bit status_int 28);
  ("alarm_critical", bit status_int 29);
  ("fiber_interlock", bit status_int 30);
  ("high_average_power", bit status_int 31);
  ("emission_on", bit status_int 2);
  ("ext_power_control", bit status_int 4);
  ("guide_laser_on", bit status_int 8);
  ("pulse_mode", bit status_int 10);
  ("power_supply_on", bit status_int 11);
  ("modulation_mode", bit status_int 12);
  ("gate_mode", bit status_int 16);
  ("ext_emission_control", bit status_int 18);
  ("waveform_mode", bit status_int 22);
  ("ext_guide_control", bit status_int 27);
  ("humidity_too_high", bit status_int 7)
].

End LaserStatusDecoder.

(** ** Request models ([backend/models.py])

    The numeric fields are taken after pydantic's type coercion: integers
    as [Z], floats as exact rationals.  A rejected request is pydantic's
    [ValidationError], a [ValueError]. *)

Module Models.


(** [Field(ge=..., le=...)] *)
Definition in_range_Z (lo hi x : Z) : bool := (lo <=? x)%Z && (x <=? hi)%Z.
Definition in_range_Q (lo hi x : Q) : bool := Qle_bool lo x && Qle_bool x hi.



(** [RampStartRequest.validate_scenario] *)
Definition valid_scenarios : list string := ["Hover"; "Hold"; "Circle"; "Square"; "Figure8"].

(** [RampStartRequest.check_power_range], run after the field checks. *)
Definition check_power_range (r : RampStartRequest) : Res RampStartRequest :=
if (max_power_pct r <=? min_power_pct r)%Z
then Raise (ValueError "max_power_pct must be greater than min_power_pct")
else Ok r.

(** Construction of a [RampStartRequest]. *)
Definition ramp_start_request (min_pct max_pct step : Z) (dwell max_w : Q) (scenario : string)
  : Res RampStartRequest :=
if in_range_Z 1 100 min_pct && in_range_Z 1 100 max_pct && in_range_Z 1 100 step
   && in_range_Q 1 60 dwell && Qle_bool 0 max_w
   && bool_decide (scenario ∈ valid_scenarios)
then check_power_range (mkRequest min_pct max_pct step dwell max_w scenario)
else Raise (ValueError "validation error for RampStartRequest").

End Models.

Section Endpoints.
Context (env : Env).

(** [POST /ramp/stop] ([backend/main.py]).  [drone] is the truth value of
  [supervisor.px4 and supervisor.px4._drone], which the handler reads off
  the drone controller object; [with contextlib.suppress(Exception)]
  swallows whatever the landing request or the sleep raises. *)
Definition stop_ramp (drone : bool) : M string :=
running <- Supervisor.is_running ;;
if negb running then raise (HTTPException 400 "No ramp running") else
try_except
  (when drone
     (try_except (Supervisor.px4_land env ;; sleep 3) (fun _ => ret tt)) ;;
   Supervisor.stop_all env None ;;
   ret "stopped")
  (fun e =>
     add_event env "ERROR" "server" "STOP_FAILED"
       ("Failed to stop ramp: " +:+ exn_str e) ;;
     raise (HTTPException 500 (exn_str e))).
End Endpoints.

(* ===================================================================== *)
(** * Part II.  Vocabulary of the specifications                          *)
(* ===================================================================== *)

(** ** Reasoning about monadic code *)

(** [wp m s Q]: running [m] from [s] ends in a result and a state that
    satisfy [Q]. *)
Definition wp {A} (m : M A) (s : Sys) (Q : Res A -> Sys -> Prop) : Prop :=
  Q (m s).1 (m s).2.

(** The store's lock is free: no operation is inside its critical section. *)
Definition lockfree (s : Sys) : Prop := lock_held (state s) = false.

(** ** The store *)

(** The clock reading the next [time.time()] returns. *)
Definition now (env : Env) (s : Sys) : Q := time_at env (ticks (world s)).

(** The event [add_event] builds. *)
Definition event_of (env : Env) (s : Sys) (level src code msg : string) : Event :=
  mkEvent (int_of_float (now env s * 1000)%Q) level src code (py_prefix MSG_MAXLEN msg).

(** The state [add_event] leaves behind. *)
Definition after_add_event (env : Env) (level src code msg : string) (s : Sys) : Sys :=
  let ev := event_of env s level src code msg in
  let st := state s in
  let w := world s in
  mkSys
    (mkWorld (S (ticks w)) (os_procs w) (next_pid w) (px4_calls w)
       (hook_calls w ++ match ws_broadcast st with
                        | Some _ => [(false, mkPayload "event" ev)]
                        | None => []
                        end)
       (sleeps w))
    (set_errors (if level_is_error level
                 then deque_append ERRORS_MAXLEN ev (errors st) else errors st)
       (set_events (deque_append EVENTS_MAXLEN ev (events st)) st))
    (supervisor s).

(** The state [set_status] leaves behind. *)
Definition after_set_status (env : Env) (new_status : string) (s : Sys) : Sys :=
  after_add_event env "INFO" "server" "STATUS_CHANGE"
    ("Status changed from " +:+ status (state s) +:+ " to " +:+ new_status)
    (mkSys (world s) (set_status_field new_status (state s)) (supervisor s)).

(** The state [set_process_pid] leaves behind. *)
Definition after_set_process_pid (name : string) (p : option Z) (s : Sys) : Sys :=
  mkSys (world s) (set_process_pids (<[name := p]> (process_pids (state s))) (state s))
        (supervisor s).

(** The state [update_telemetry] leaves behind when it does not raise. *)
Definition after_update_telemetry (env : Env) (data : dict) (s : Sys) : Sys :=
  let st := state s in
  let w := world s in
  mkSys
    (mkWorld (S (ticks w)) (os_procs w) (next_pid w) (px4_calls w) (hook_calls w) (sleeps w))
    (set_rtt_samples
       (match data !! "rtt_ms" ≫= value_num with
        | Some x => if Qltb 0 x then deque_append RTT_MAXLEN x (rtt_samples st)
                    else rtt_samples st
        | None => rtt_samples st
        end)
       (set_last_telemetry_ts (now env s) (set_telemetry (data ∪ telemetry st) st)))
    (supervisor s).

(** Calls of the store's public operations. *)
Inductive store_call :=
| CallUpdateTelemetry (data : dict)
| CallUpdateLaserTelemetry (laser_data : dict)
| CallStartSession (sid sc : string) (params : dict)
| CallGetTelemetrySnapshot
| CallAddEvent (level src code msg : string)
| CallGetRecentEvents (count : Z)
| CallSetStatus (new_status : string)
| CallSetProcessPid (name : string) (p : option Z)
| CallCalculateRttPercentiles.

Definition run_call (env : Env) (c : store_call) (s : Sys) : Sys :=
  match c with
  | CallUpdateTelemetry data => (update_telemetry env data s).2
  | CallUpdateLaserTelemetry data => (update_laser_telemetry data s).2
  | CallStartSession sid sc params => (start_session env sid sc params s).2
  | CallGetTelemetrySnapshot => (get_telemetry_snapshot s).2
  | CallAddEvent level src code msg => (add_event env level src code msg s).2
  | CallGetRecentEvents count => (get_recent_events count s).2
  | CallSetStatus new_status => (set_status env new_status s).2
  | CallSetProcessPid name p => (set_process_pid name p s).2
  | CallCalculateRttPercentiles => (calculate_rtt_percentiles s).2
  end.

(** States of the store that calls of its operations can reach, whatever
    the surroundings and the supervisor do in between. *)
Inductive reachable (env : Env) : Sys -> Prop :=
| reach_init w sp h :
    reachable env (mkSys w (set_ws_broadcast h initial_state) sp)
| reach_call s c :
    reachable env s -> reachable env (run_call env c s)
| reach_surroundings s w sp :
    reachable env s -> reachable env (mkSys w (state s) sp).

Definition buffers_bounded (s : Sys) : Prop :=
  length (events (state s)) ≤ 500
  ∧ length (errors (state s)) ≤ 50
  ∧ length (rtt_samples (state s)) ≤ 100.

Definition store_inv (s : Sys) : Prop := lockfree s ∧ buffers_bounded s.

(** One append to a ring buffer of capacity [maxlen]: with room left the
    entry goes to the end; on a full buffer exactly the oldest entry goes and
    the others keep their order. *)
Definition ring_step {A} (maxlen : nat) (x : A) (before after : list A) : Prop :=
  (length before < maxlen -> after = before ++ [x])
  ∧ (length before = maxlen -> after = drop 1 before ++ [x]).

(** The events a run of [add_event] calls builds, in call order. *)
Fixpoint logged (env : Env) (s : Sys) (calls : list (string * string * string * string))
    : list Event :=
  match calls with
  | [] => []
  | (level, src, code, msg) :: rest =>
      event_of env s level src code msg
        :: logged env (after_add_event env level src code msg s) rest
  end.

Definition add_events (env : Env) (calls : list (string * string * string * string))
    : M unit :=
  for_each calls (fun '(level, src, code, msg) => add_event env level src code msg).

(** Keys of the constructor's telemetry dictionary that [start_session]
    leaves out. *)
Definition keys_dropped_by_start_session : gset string :=
  list_to_set [
    "gps_lat_deg"; "gps_lon_deg"; "gps_alt_m"; "gps_rel_alt_m";
    "home_lat_deg"; "home_lon_deg";
    "panel_target_azimuth_deg"; "panel_target_elevation_deg";
    "panel_gimbal_azimuth_deg"; "panel_gimbal_elevation_deg";
    "panel_relative_azimuth_deg"; "panel_misalignment_deg";
    "panel_efficiency_factor"].

(** Follows the spec's words: the percentile "by linear interpolation between
    closest ranks".  On the values in ascending order [v_1 <= ... <= v_N] the
    [p]-th percentile has the fractional rank [x = p/100 * (N - 1) + 1] and
    the value [v_k + (x - k) * (v_(k+1) - v_k)] with [k] the integer part of
    [x]. *)
Definition rank_value (sorted : list Q) (k : Z) : Q :=
  nth (Z.to_nat (k - 1)) sorted 0%Q.

Definition percentile_between_closest_ranks (sorted : list Q) (p : Q) : Q :=
  let N := inject_Z (Z.of_nat (length sorted)) in
  let x := (p / 100 * (N - 1) + 1)%Q in
  let k := Qfloor x in
  (rank_value sorted k
   + (x - inject_Z k) * (rank_value sorted (k + 1) - rank_value sorted k))%Q.

(** ** The decoders *)

Module ReSpec.
Import Re.



End ReSpec.





(** ** Sample inputs *)

Definition demo_world : World := mkWorld 0 ∅ 100 [] [] [].
Definition demo_sys : Sys := mkSys demo_world initial_state initial_supervisor.

Definition demo_env : Env := {|
  time_at := fun n => (inject_Z (Z.of_nat n) + 1000)%Q;
  utcnow_at := fun _ => "20250101_000000";
  getpid := 1;
  pgrep := fun _ => PgResult 1 "";
  os_kill_outcome := fun _ => None;
  killpg_outcome := fun _ _ => None;
  which_socat := true;
  popen_outcome := fun _ => None;
  spawned := fun _ => mkProc true 0 [] (Some 2%nat) None;
  px4_outcome := fun _ _ => None;
  gather_returns := true;
|}.

(** A hook that always raises. *)
Definition failing_hook : hook := fun _ => Some (RuntimeError "no running event loop").

Definition with_hook (h : option hook) (s : Sys) : Sys :=
  mkSys (world s) (set_ws_broadcast h (state s)) (supervisor s).






(** ** The supervisor *)

(** The process table entry of a role. *)
Definition slot (s : Sys) (name : string) : option Popen :=
  default None (processes (supervisor s) !! name).

(** Number of landing requests sent to the drone controller so far. *)
Definition land_attempts (s : Sys) : nat :=
  length (filter (fun c => c = Px4Land) (px4_calls (world s))).

(** [s'] comes from [s] by appending at most [k] events, with the lock free
    again and no landing request sent. *)
Record effect (k : nat) (s s' : Sys) : Prop := mkEffect {
  eff_lock : lockfree s';
  eff_events :
    ∃ new, length new ≤ k
           ∧ events (state s') = deque_extend EVENTS_MAXLEN new (events (state s));
  eff_errors :
    ∃ new, length new ≤ k
           ∧ errors (state s') = deque_extend ERRORS_MAXLEN new (errors (state s));
  eff_lands : land_attempts s' = land_attempts s;
}.

(** ... and moreover status, shutting-down flag and task list are kept. *)
Definition quiet (k : nat) (s s' : Sys) : Prop :=
  effect k s s'
  ∧ status (state s') = status (state s)
  ∧ _shutting_down (supervisor s') = _shutting_down (supervisor s)
  ∧ _monitor_tasks (supervisor s') = _monitor_tasks (supervisor s).

(** Every process table entry but the one of [name] is kept. *)
Definition slots_but (name : string) (s s' : Sys) : Prop :=
  ∀ n, n ≠ name -> slot s' n = slot s n.

Definition roles_cleared (s : Sys) : Prop :=
  slot s "ground" = None ∧ slot s "air" = None ∧ slot s "relay" = None.

(** A step that touches neither the store, nor the supervisor, nor the
    calls to the drone controller. *)
Definition world_step (s s' : Sys) : Prop :=
  state s' = state s ∧ supervisor s' = supervisor s
  ∧ px4_calls (world s') = px4_calls (world s).

(** Signalling a process group never fails. *)
Definition killpg_never_raises (env : Env) : Prop :=
  ∀ p sig, killpg_outcome env p sig = None.

(** The await on the monitor tasks inside [stop_all] hands control back. *)
Definition await_returns (env : Env) (caller : option string) (s : Sys) : Prop :=
  match caller with
  | Some name => name ∈ _monitor_tasks (supervisor s) -> gather_returns env = true
  | None => True
  end.

(** [stop_all] is under way from [s0]: at most [k] events later, with the
    shutting-down flag set and status STOPPING. *)
Definition stopping (k : nat) (s0 s : Sys) : Prop :=
  effect k s0 s
  ∧ _monitor_tasks (supervisor s) = _monitor_tasks (supervisor s0)
  ∧ _shutting_down (supervisor s) = true
  ∧ status (state s) = "STOPPING".

(** Run with the lock free, [m] returns or raises, and leaves the lock free. *)
Definition safe {A} (m : M A) : Prop :=
  ∀ s, lockfree s -> wp m s (fun r s' => r ≠ Stuck ∧ lockfree s').

(** ... and moreover [m] does not raise. *)
Definition total {A} (m : M A) : Prop :=
  ∀ s, lockfree s -> wp m s (fun r s' => (∃ a, r = Ok a) ∧ lockfree s').

(** The answer of [POST /ramp/start] while a run is active. *)
Definition already_running : exn := HTTPException 400 "Ramp already in progress.".

(** The process recorded for [name] has not exited: its [poll()] gives
    [None]. *)
Definition role_alive (s : Sys) (name : string) : bool :=
  match slot s name with
  | Some p =>
      let pr := os_lookup (world s) (pid p) in
      pr_alive pr && negb (bool_decide (pr_dying pr = Some 0%nat))
  | None => false
  end.

(** A run is active: some role process has not exited. *)
Definition run_active (s : Sys) : bool :=
  role_alive s "ground" || role_alive s "air" || role_alive s "relay".

Definition demo_request : RampStartRequest := mkRequest 10 100 10 5 400 "Hover".

(** The system after a first, successful [POST /ramp/start]. *)
Definition started_sys : Sys := (Supervisor.start_ramp demo_env demo_request demo_sys).2.

(** Surroundings in which the air node cannot be spawned. *)
Definition noair_env : Env := {|
  time_at := time_at demo_env;
  utcnow_at := utcnow_at demo_env;
  getpid := getpid demo_env;
  pgrep := pgrep demo_env;
  os_kill_outcome := os_kill_outcome demo_env;
  killpg_outcome := killpg_outcome demo_env;
  which_socat := which_socat demo_env;
  popen_outcome := fun role =>
    if bool_decide (role = "air") then Some (FileNotFoundError "python3") else None;
  spawned := spawned demo_env;
  px4_outcome := px4_outcome demo_env;
  gather_returns := gather_returns demo_env;
|}.

(** The operating-system process [q] has exited. *)
Definition dead (s : Sys) (q : Z) : Prop := pr_alive (os_lookup (world s) q) = false.

(** [m] revives no process. *)
Definition keeps_dead {A} (m : M A) : Prop := ∀ s q, dead s q -> dead (m s).2 q.

(** [s'] comes from [s] by appending at most [k] events, with the lock free
    again. *)
Definition grows (k : nat) (s s' : Sys) : Prop :=
  lockfree s'
  ∧ (∃ new, length new ≤ k
            ∧ events (state s') = deque_extend EVENTS_MAXLEN new (events (state s)))
  ∧ (∃ new, length new ≤ k
            ∧ errors (state s') = deque_extend ERRORS_MAXLEN new (errors (state s))).














(** Between [s] and [s'] nothing happened to the supervisor, to the status,
    to the calls made to the drone controller, or to which processes are
    alive and with what exit code. *)
Definition undisturbed (s s' : Sys) : Prop :=
  supervisor s' = supervisor s
  ∧ status (state s') = status (state s)
  ∧ px4_calls (world s') = px4_calls (world s)
  ∧ ∀ q, pr_alive (os_lookup (world s') q) = pr_alive (os_lookup (world s) q)
         ∧ pr_exit_code (os_lookup (world s') q) = pr_exit_code (os_lookup (world s) q).

(** [m] only reads output and writes telemetry and events. *)
Definition calm {A} (m : M A) : Prop := ∀ s, undisturbed s (m s).2.




(** ** Vocabulary of the further properties *)


(** The log entry [set_status] writes for a change from [old] to [new]. *)
Definition status_entry (e : Event) (old new : string) : Prop :=
  ev_level e = "INFO" ∧ ev_src e = "server" ∧ ev_code e = "STATUS_CHANGE"
  ∧ ev_msg e = py_prefix MSG_MAXLEN ("Status changed from " +:+ old +:+ " to " +:+ new).

(** The changes a run of [set_status] calls goes through, from [old] on. *)
Fixpoint transitions (old : string) (news : list string) : list (string * string) :=
  match news with
  | [] => []
  | new :: rest => (old, new) :: transitions new rest
  end.

(** A clock that never runs backwards. *)
Definition monotone_clock (env : Env) : Prop :=
  ∀ n m, n ≤ m -> (time_at env n <= time_at env m)%Q.

(** A reading sample: a dictionary as the ground decoder merges it. *)
Definition sample_reading : dict :=
  {[ "commanded_w" := VFloat 225; "rtt_ms" := VFloat (69 # 2) ]}.

(** A dictionary whose round-trip time is missing a value. *)
Definition broken_reading : dict :=
  {[ "commanded_w" := VFloat 225; "rtt_ms" := VNone ]}.

(** Which bit of the status word each flag of the decoder shows. *)
Definition flag_bits : list (string * Z) :=
  [("cmd_buffer_overflow", 0); ("alarm_overheat", 1); ("alarm_back_reflection", 3);
   ("pulse_too_long", 5); ("pulse_too_short", 9); ("high_pulse_energy", 17);
   ("power_supply_failure", 19); ("duty_cycle_too_high", 23); ("alarm_temp_low", 24);
   ("power_supply_alarm", 25); ("guide_laser_alarm", 28); ("alarm_critical", 29);
   ("fiber_interlock", 30); ("high_average_power", 31); ("emission_on", 2);
   ("ext_power_control", 4); ("guide_laser_on", 8); ("pulse_mode", 10);
   ("power_supply_on", 11); ("modulation_mode", 12); ("gate_mode", 16);
   ("ext_emission_control", 18); ("waveform_mode", 22); ("ext_guide_control", 27);
   ("humidity_too_high", 7)]%Z.

(** The bits of the status word no flag shows. *)
Definition unused_bits : list Z := [6; 13; 14; 15; 20; 21; 26]%Z.

(** The dictionary [get_laser_telemetry] builds around a status word. *)
Definition laser_reading (w : Z) : dict :=
  {[ "status_flags" := VDict (LaserStatusDecoder.decode_status_word w);
     "status_word" := VInt w;
     "connected" := VBool true ]}.


(** The answer of [POST /ramp/start] to a power limit above the hardware's. *)
Definition over_limit : exn := HTTPException 400 "Exceeds hardware limit (500.0W)".

(** A request for more power than the hardware gives. *)
Definition greedy_request : RampStartRequest := mkRequest 10 100 10 5 501 "Hover".

(** [e] carries the given level, source, code and message (cut to the
    store's message length). *)
Definition event_is (e : Event) (level src code msg : string) : Prop :=
  ev_level e = level ∧ ev_src e = src ∧ ev_code e = code
  ∧ ev_msg e = py_prefix MSG_MAXLEN msg.







(** [m] relates every state to the one it leaves by [R]. *)
Definition keeps {A} (R : Sys -> Sys -> Prop) (m : M A) : Prop := ∀ s, R s (m s).2.

(** Between [s] and [s'] nothing was spawned, registered or asked of the
    drone controller. *)
Definition table_kept (s s' : Sys) : Prop :=
  processes (supervisor s') = processes (supervisor s)
  ∧ _monitor_tasks (supervisor s') = _monitor_tasks (supervisor s)
  ∧ _shutting_down (supervisor s') = _shutting_down (supervisor s)
  ∧ next_pid (world s') = next_pid (world s)
  ∧ px4_calls (world s') = px4_calls (world s)
  ∧ process_pids (state s') = process_pids (state s).

(** ... and moreover no process was touched and the session is the same. *)
Definition paused (s s' : Sys) : Prop :=
  table_kept s s'
  ∧ lockfree s'
  ∧ os_procs (world s') = os_procs (world s)
  ∧ sup_session_id (supervisor s') = sup_session_id (supervisor s)
  ∧ session_id (state s') = session_id (state s).








(** The answer of [POST /ramp/stop] when no run is active. *)
Definition not_running : exn := HTTPException 400 "No ramp running".

(** Between [s] and [s'] the status is kept and the server's own process
    was not signalled. *)
Definition self_kept (env : Env) (s s' : Sys) : Prop :=
  status (state s') = status (state s)
  ∧ os_procs (world s') !! getpid env = os_procs (world s) !! getpid env.

(** [pgrep] finds no process for any pattern. *)
Definition nothing_stale (env : Env) : Prop :=
  ∀ pattern, ∃ rc out, pgrep env pattern = PgResult rc out ∧ rc ≠ 0%Z.

(** Surroundings in which [pgrep] reports the server itself and one stale
    relay. *)
Definition stale_env : Env := {|
  time_at := time_at demo_env;
  utcnow_at := utcnow_at demo_env;
  getpid := 7;
  pgrep := fun pattern =>
    if bool_decide (pattern = "mav_relay.py")
    then PgResult 0 ("7" +:+ String "010"%char ("41" +:+ String "010"%char ""))
    else PgResult 1 "";
  os_kill_outcome := fun _ => None;
  killpg_outcome := killpg_outcome demo_env;
  which_socat := true;
  popen_outcome := fun _ => None;
  spawned := spawned demo_env;
  px4_outcome := px4_outcome demo_env;
  gather_returns := gather_returns demo_env;
|}.

Definition stale_sys : Sys :=
  mkSys (mkWorld 0 (<[7%Z := mkProc true 0 [] (Some 0) None]>
                      (<[41%Z := mkProc true 0 [] (Some 0) None]> ∅)) 100 [] [] [])
        initial_state initial_supervisor.


(** What [_start_virtual_elrs_link] raises when the bridge program is not
    installed. *)
Definition socat_missing : exn := RuntimeError "socat not found".

(** Surroundings without the bridge program. *)
Definition nosocat_env : Env := {|
  time_at := time_at demo_env;
  utcnow_at := utcnow_at demo_env;
  getpid := getpid demo_env;
  pgrep := pgrep demo_env;
  os_kill_outcome := os_kill_outcome demo_env;
  killpg_outcome := killpg_outcome demo_env;
  which_socat := false;
  popen_outcome := popen_outcome demo_env;
  spawned := spawned demo_env;
  px4_outcome := px4_outcome demo_env;
  gather_returns := gather_returns demo_env;
|}.

(* ===================================================================== *)
(** * Part III.  Properties                                               *)
(* ===================================================================== *)

(** ** Ring buffers *)

Section Deque.
Context {A : Type}.
Implicit Types (d : list A) (x : A) (n : nat).

Lemma deque_append_length n x d :
  length (deque_append n x d) = min (S (length d)) n.
Proof.
  unfold deque_append. rewrite length_drop, length_app. cbn [length]. lia.
Qed.

Lemma deque_append_bounded n x d : length (deque_append n x d) ≤ n.
Proof. rewrite deque_append_length. lia. Qed.

Lemma deque_append_room n x d :
  length d < n -> deque_append n x d = d ++ [x].
Proof.
  intros H. unfold deque_append. rewrite length_app. cbn [length].
  replace (length d + 1 - n) with 0 by lia. reflexivity.
Qed.

Lemma deque_append_full n x d :
  0 < n -> length d = n -> deque_append n x d = drop 1 d ++ [x].
Proof.
  intros Hn H. unfold deque_append. rewrite length_app. cbn [length].
  replace (length d + 1 - n) with 1 by lia.
  destruct d as [|y d]; simpl in *; [lia|]. by rewrite drop_0.
Qed.

Lemma deque_append_last n x d : 0 < n -> last (deque_append n x d) = Some x.
Proof.
  intros Hn. unfold deque_append. rewrite length_app. cbn [length].
  rewrite drop_app_le by lia. apply last_snoc.
Qed.

Lemma ring_step_append n x d : 0 < n -> ring_step n x d (deque_append n x d).
Proof.
  intros Hn. split; intros H.
  - by apply deque_append_room.
  - by apply deque_append_full.
Qed.

(** After any run of appends the buffer holds the most recent entries, in
    the order they were appended. *)
Lemma deque_extend_suffix n xs d :
  length d ≤ n ->
  deque_extend n xs d = drop (length (d ++ xs) - n) (d ++ xs).
Proof.
  revert d. induction xs as [|x xs IH]; intros d Hd; simpl.
  - rewrite app_nil_r. replace (length d - n) with 0 by lia. reflexivity.
  - rewrite IH by apply deque_append_bounded.
    unfold deque_append.
    set (k := length (d ++ [x]) - n).
    assert (Hk : k ≤ length (d ++ [x])) by (subst k; lia).
    replace (d ++ x :: xs) with ((d ++ [x]) ++ xs) by (by rewrite <- (assoc_L (++))).
    rewrite <- (drop_app_le (d ++ [x]) xs k Hk).
    rewrite drop_drop. f_equal.
    rewrite length_drop. subst k.
    rewrite !length_app in *. cbn [length] in *. lia.
Qed.

Lemma slice_from_suffix (count : Z) d :
  (1 ≤ count)%Z ->
  ∃ older, d = older ++ slice_from (- count) d
           ∧ Z.of_nat (length (slice_from (- count) d))
             = Z.min count (Z.of_nat (length d)).
Proof.
  intros Hc. unfold slice_from.
  destruct (Z.ltb_spec (- count) 0); [|lia].
  set (k := Z.to_nat _).
  exists (take k d). split; [by rewrite take_drop|].
  rewrite length_drop. subst k. lia.
Qed.

Lemma slice_from_zero d : slice_from (- 0) d = d.
Proof. unfold slice_from. simpl. by rewrite Z.min_l by lia. Qed.
End Deque.

(** ** Rules for [wp] *)

Section Wp.
Context {A B : Type}.

Lemma wp_ret (a : A) s Q : Q (Ok a) s -> wp (ret a) s Q.
Proof. done. Qed.

Lemma wp_raise e s (Q : Res A -> Sys -> Prop) : Q (Raise e) s -> wp (raise e) s Q.
Proof. done. Qed.

Lemma wp_gets (f : Sys -> A) s Q : Q (Ok (f s)) s -> wp (gets f) s Q.
Proof. done. Qed.

Lemma wp_bind (m : M A) (k : A -> M B) s Q :
  wp m s (fun r s' =>
    match r with
    | Ok a => wp (k a) s' Q
    | Raise e => Q (Raise e) s'
    | Stuck => Q Stuck s'
    end) ->
  wp (bind m k) s Q.
Proof. unfold wp, bind. by destruct (m s) as [[a|e|] s']. Qed.

Lemma wp_mono (m : M A) s (Q Q' : Res A -> Sys -> Prop) :
  wp m s Q -> (∀ r s', Q r s' -> Q' r s') -> wp m s Q'.
Proof. unfold wp. auto. Qed.

Lemma wp_try_except (m : M A) h s Q :
  wp m s (fun r s' =>
    match r with
    | Raise e => wp (h e) s' Q
    | _ => Q r s'
    end) ->
  wp (try_except m h) s Q.
Proof. unfold wp, try_except. by destruct (m s) as [[a|e|] s']. Qed.

Lemma wp_try_finally (m : M A) f s Q :
  wp m s (fun r s' =>
    match r with
    | Stuck => Q Stuck s'
    | _ => wp f s' (fun r2 s'' =>
             match r2 with
             | Ok _ => Q r s''
             | Raise e => Q (Raise e) s''
             | Stuck => Q Stuck s''
             end)
    end) ->
  wp (try_finally m f) s Q.
Proof.
  unfold wp, try_finally. destruct (m s) as [[a|e|] s']; simpl; [| |done].
  all: by destruct (f s') as [[[]|e2|] s''].
Qed.
End Wp.

Lemma wp_modify f s Q : Q (Ok tt) (f s) -> wp (modify f) s Q.
Proof. done. Qed.

Lemma wp_when (b : bool) m s Q :
  (b = true -> wp m s Q) -> (b = false -> Q (Ok tt) s) -> wp (when b m) s Q.
Proof. intros H1 H2. destruct b; [by apply H1|by apply H2]. Qed.

(** Unfolds the monad and the field assignments. *)
Ltac run_m :=
  cbv beta iota zeta delta
    [bind ret raise gets modify upd_state upd_world upd_sup try_except try_finally
     when with_lock acquire release time_time sleep print call_hook
     set_status_field set_process_pids set_session set_telemetry set_rtt_samples
     set_events set_errors set_last_telemetry_ts set_lock_held
     set_processes set_monitor_tasks set_sup_session_id set_shutting_down
     set_last_grant_event_time set_last_event_time set_os_procs
     world state supervisor
     ws_broadcast status process_pids session_id scenario ramp_params
     session_start_time telemetry rtt_samples events errors last_telemetry_ts
     last_heartbeat_ts lock_held
     ticks os_procs next_pid px4_calls hook_calls sleeps
     processes _monitor_tasks sup_session_id _shutting_down last_grant_event_time
     last_event_time fst snd].

(** ** The store operations, run from a state whose lock is free *)

Section StoreFacts.
Context (env : Env).

Lemma add_event_run level src code msg s :
  lockfree s ->
  add_event env level src code msg s = (Ok tt, after_add_event env level src code msg s).
Proof.
  unfold lockfree. destruct s as [w st sp].
  destruct st as [wsb ? ? ? ? ? ? ? ? ? ? ? ? ?], w. simpl. intros ->.
  unfold add_event, after_add_event, event_of, now. run_m.
  destruct (level_is_error level); run_m.
  all: destruct wsb as [h|]; run_m; [|by rewrite app_nil_r].
  all: match goal with |- context [match ?x with Some _ => _ | None => _ end] =>
              destruct x end; done.
Qed.

Lemma after_add_event_lockfree level src code msg s :
  lockfree s -> lockfree (after_add_event env level src code msg s).
Proof. unfold lockfree. by destruct s as [w [] sp]. Qed.

Lemma set_status_run new_status s :
  lockfree s ->
  set_status env new_status s = (Ok tt, after_set_status env new_status s).
Proof.
  intros H. unfold set_status, after_set_status.
  unfold bind at 1.
  assert (Hl : with_lock (old <- gets (fun s => status (state s)) ;;
                          upd_state (set_status_field new_status) ;; ret old) s
               = (Ok (status (state s)),
                  mkSys (world s) (set_status_field new_status (state s)) (supervisor s))).
  { unfold lockfree in H. destruct s as [w st sp]. destruct st. simpl in *. subst.
    reflexivity. }
  rewrite Hl. apply add_event_run.
  unfold lockfree in *. destruct s as [w st sp]. destruct st. simpl in *. done.
Qed.

Lemma after_set_status_lockfree new_status s :
  lockfree s -> lockfree (after_set_status env new_status s).
Proof. unfold lockfree. by destruct s as [w [] sp]. Qed.

Lemma set_process_pid_run name p s :
  lockfree s ->
  set_process_pid name p s = (Ok tt, after_set_process_pid name p s).
Proof.
  unfold lockfree. destruct s as [w st sp]. destruct st. simpl. intros ->. reflexivity.
Qed.

Lemma get_recent_events_run count s :
  lockfree s ->
  get_recent_events count s = (Ok (slice_from (- count) (events (state s))), s).
Proof.
  unfold lockfree. destruct s as [w st sp]. destruct st. simpl. intros ->. reflexivity.
Qed.

Lemma start_session_run sid sc params s :
  lockfree s ->
  start_session env sid sc params s =
    (Ok tt,
     mkSys (mkWorld (S (ticks (world s))) (os_procs (world s)) (next_pid (world s))
                    (px4_calls (world s)) (hook_calls (world s)) (sleeps (world s)))
           (set_errors [] (set_rtt_samples [] (set_events []
              (set_telemetry session_telemetry
                 (set_session (Some sid) sc (Some params) (now env s) (state s))))))
           (supervisor s)).
Proof.
  unfold lockfree, now. destruct s as [w st sp]. destruct st, w. simpl. intros ->.
  reflexivity.
Qed.

Lemma update_telemetry_run data s :
  lockfree s ->
  (∀ v, data !! "rtt_ms" = Some v -> is_Some (value_num v)) ->
  update_telemetry env data s = (Ok tt, after_update_telemetry env data s).
Proof.
  unfold lockfree, after_update_telemetry, now.
  destruct s as [w st sp]. destruct st, w. simpl. intros -> Hv.
  unfold update_telemetry. run_m.
  destruct (data !! "rtt_ms") as [v|] eqn:E; run_m; [|done].
  destruct (Hv v eq_refl) as [x Hx]. simpl. rewrite Hx. run_m.
  by destruct (Qltb 0 x).
Qed.

Lemma after_update_telemetry_lockfree data s :
  lockfree s -> lockfree (after_update_telemetry env data s).
Proof. unfold lockfree. by destruct s as [w [] sp]. Qed.

Lemma telemetry_after_update data s :
  telemetry (state (after_update_telemetry env data s)) = data ∪ telemetry (state s).
Proof. reflexivity. Qed.

(** [update_telemetry] in general: it may raise, but never leaves the lock
    held, and touches the sample buffer by at most one append. *)
Lemma update_telemetry_cases data s :
  lockfree s ->
  let s' := (update_telemetry env data s).2 in
  lockfree s'
  ∧ events (state s') = events (state s)
  ∧ errors (state s') = errors (state s)
  ∧ telemetry (state s') = data ∪ telemetry (state s)
  ∧ (rtt_samples (state s') = rtt_samples (state s)
     ∨ ∃ v x, data !! "rtt_ms" = Some v ∧ value_num v = Some x ∧ Qltb 0 x = true
              ∧ rtt_samples (state s') = deque_append 100 x (rtt_samples (state s))).
Proof.
  unfold lockfree. destruct s as [w st sp]. destruct st, w. simpl. intros ->.
  unfold update_telemetry. run_m.
  destruct (data !! "rtt_ms") as [v|] eqn:Hv; run_m; [|by auto 10].
  destruct (value_num v) as [x|] eqn:Hx; run_m; [|by auto 10].
  destruct (Qltb 0 x) eqn:Hp; run_m; [|by auto 10].
  repeat split; try done. right. by exists v, x.
Qed.

Lemma run_call_inv c s : store_inv s -> store_inv (run_call env c s).
Proof.
  intros [Hl (He & Hr & Ht)]. destruct c; simpl.
  - destruct (update_telemetry_cases data s Hl) as (Hl' & E1 & E2 & _ & E3).
    split; [done|]. unfold buffers_bounded. rewrite E1, E2.
    split; [done|]. split; [done|].
    destruct E3 as [->|(v & x & _ & _ & _ & ->)]; [done|].
    apply deque_append_bounded.
  - revert Hl He Hr Ht. unfold store_inv, buffers_bounded, lockfree.
    destruct s as [w st sp]. destruct st. simpl. intros -> ???.
    unfold update_laser_telemetry. run_m.
    destruct (dict_get laser_data "status_flags" (VDict ∅)); run_m; done.
  - revert Hl. unfold store_inv, buffers_bounded, lockfree.
    destruct s as [w st sp]. destruct st. simpl. intros ->.
    unfold start_session. run_m. simpl. repeat split; lia.
  - revert Hl He Hr Ht. unfold store_inv, buffers_bounded, lockfree.
    destruct s as [w st sp]. destruct st. simpl. by intros -> ???.
  - rewrite add_event_run by done. split; [by apply after_add_event_lockfree|].
    unfold after_add_event, buffers_bounded. simpl.
    split; [apply deque_append_bounded|]. split; [|done].
    destruct (level_is_error level); [apply deque_append_bounded|done].
  - by rewrite get_recent_events_run.
  - rewrite set_status_run by done.
    split; [by apply after_set_status_lockfree|].
    unfold after_set_status, after_add_event, buffers_bounded. simpl.
    split; [apply deque_append_bounded|]. done.
  - rewrite set_process_pid_run by done. split; [|done].
    unfold lockfree in *. by destruct s as [w [] sp].
  - unfold calculate_rtt_percentiles. run_m.
    by destruct (_ <? _)%nat.
Qed.

Lemma reachable_inv s : reachable env s -> store_inv s.
Proof.
  induction 1 as [w sp h|s c _ IH|s w sp _ IH].
  - split; [done|]. unfold buffers_bounded. simpl. lia.
  - by apply run_call_inv.
  - exact IH.
Qed.

Lemma add_events_run calls s :
  lockfree s ->
  ∃ s', add_events env calls s = (Ok tt, s')
        ∧ lockfree s'
        ∧ events (state s') = deque_extend 500 (logged env s calls) (events (state s))
        ∧ errors (state s') =
            deque_extend 50 (filter (fun ev => level_is_error (ev_level ev) = true)
                                    (logged env s calls))
                         (errors (state s)).
Proof.
  revert s. induction calls as [|[[[level src] code] msg] calls IH]; intros s Hl.
  - by exists s.
  - destruct (IH (after_add_event env level src code msg s)) as (s' & Hrun & Hl' & He & Hr).
    { by apply after_add_event_lockfree. }
    exists s'. split.
    { unfold add_events in *. cbn [for_each]. unfold bind at 1.
      rewrite add_event_run by done. exact Hrun. }
    split; [done|]. cbn [logged]. split.
    + rewrite He. reflexivity.
    + rewrite Hr. rewrite filter_cons. cbn [ev_level event_of].
      unfold after_add_event. cbn [state errors set_errors].
      destruct (decide (level_is_error level = true)) as [E|E].
      * rewrite E. reflexivity.
      * apply not_true_is_false in E. rewrite E. reflexivity.
Qed.

End StoreFacts.

Lemma py_prefix_split n msg : ∃ rest, msg = py_prefix n msg +:+ rest.
Proof.
  revert n. induction msg as [|a msg IH]; intros n; simpl.
  - by exists "".
  - destruct (is_cont a).
    + destruct (IH n) as [rest Hr]. exists rest.
      change (String a msg = String a (py_prefix n msg +:+ rest)). by f_equal.
    + destruct n as [|n].
      * by exists (String a msg).
      * destruct (IH n) as [rest Hr]. exists rest.
        change (String a msg = String a (py_prefix n msg +:+ rest)). by f_equal.
Qed.

Lemma py_prefix_len n msg : py_len (py_prefix n msg) = min n (py_len msg).
Proof.
  revert n. induction msg as [|a msg IH]; intros n; simpl.
  - lia.
  - destruct (is_cont a) eqn:E; simpl; rewrite ?E.
    + apply IH.
    + destruct n as [|n]; simpl; rewrite ?E; [done|]. rewrite IH. lia.
Qed.

Lemma level_is_error_iff level :
  level_is_error level = true ↔ level = "WARN" ∨ level = "ERROR".
Proof.
  unfold level_is_error. rewrite bool_decide_eq_true.
  rewrite !elem_of_cons, elem_of_nil. tauto.
Qed.

(** *** Claim C3 *)

(** C3.  [start_session] replaces the session record by the new id, scenario
    and parameters and empties the three buffers; the telemetry dictionary it
    installs is [session_telemetry], which is NOT the dictionary the store is
    constructed with: thirteen keys of the constructor's dictionary (the GPS,
    home-position and panel keys) are absent afterwards, and one key
    ([laser_commanded_w]) is new.  On the keys both have, the values agree. *)
Theorem start_session_resets (env : Env) (s : Sys) (sid sc : string) (params : dict) :
  lockfree s ->
  let r := start_session env sid sc params s in
  r.1 = Ok tt
  ∧ session_id (state r.2) = Some sid
  ∧ scenario (state r.2) = sc
  ∧ ramp_params (state r.2) = Some params
  ∧ events (state r.2) = []
  ∧ errors (state r.2) = []
  ∧ rtt_samples (state r.2) = []
  ∧ telemetry (state r.2) = session_telemetry
  ∧ dom default_telemetry ∖ dom (telemetry (state r.2)) = keys_dropped_by_start_session
  ∧ dom (telemetry (state r.2)) ∖ dom default_telemetry = {["laser_commanded_w"]}
  ∧ default_telemetry !! "gps_lat_deg" = Some VNone
  ∧ telemetry (state r.2) !! "gps_lat_deg" = None
  ∧ (∀ k v, telemetry (state r.2) !! k = Some v -> k ≠ "laser_commanded_w" ->
            default_telemetry !! k = Some v).
Proof.
  intros Hl r. subst r. rewrite start_session_run by done.
  cbn [fst snd state session_id scenario ramp_params events errors rtt_samples telemetry
       set_errors set_rtt_samples set_events set_telemetry set_session].
  repeat (split; [try done; by vm_compute|]).
  intros k v Hk Hne.
  assert (H : map_Forall
                (fun k v => k ≠ "laser_commanded_w" -> default_telemetry !! k = Some v)
                session_telemetry).
  { unfold session_telemetry.
    repeat (apply map_Forall_insert_2; [intros ?; try done; by vm_compute|]).
    apply map_Forall_empty. }
  by apply (H k v).
Qed.

Lemma start_session_resets_witness :
  lockfree demo_sys
  ∧ telemetry (state (start_session demo_env "20250101_000000" "Hover" ∅ demo_sys).2)
      !! "gps_lat_deg" = None.
Proof.
  split; [reflexivity|].
  apply (start_session_resets demo_env demo_sys "20250101_000000" "Hover" ∅).
  reflexivity.
Defined.

(** *** Claim C7 *)

Lemma Qfloor_unique (q : Q) (z : Z) :
  (inject_Z z <= q)%Q -> (q < inject_Z (z + 1))%Q -> Qfloor q = z.
Proof.
  intros H1 H2.
  assert (z ≤ Qfloor q)%Z.
  { rewrite <- (Qfloor_Z z). by apply Qfloor_resp_le. }
  assert (Qfloor q < z + 1)%Z.
  { rewrite Zlt_Qlt. eapply Qle_lt_trans; [apply Qfloor_le|done]. }
  lia.
Qed.

Lemma Qleb_rel_total : Total Qleb_rel.
Proof.
  intros x y. unfold Qleb_rel. rewrite !Is_true_true, !Qle_bool_iff.
  destruct (Qlt_le_dec x y) as [H|H]; [left; by apply Qlt_le_weak|by right].
Qed.

Lemma Sorted_Qle (l : list Q) : Sorted Qleb_rel l -> Sorted Qle l.
Proof.
  induction 1 as [|x l _ IH Hd]; constructor; [done|].
  destruct Hd as [|y l Hxy]; constructor.
  unfold Qleb_rel in Hxy. by rewrite Is_true_true, Qle_bool_iff in Hxy.
Qed.

(** [numpy]'s linear method and the closest-ranks formula agree whenever the
    virtual index lies inside the array and below its last position. *)
Lemma np_percentile_ranks (a : list Q) (p : Q) :
  let arr := merge_sort Qleb_rel a in
  let N := inject_Z (Z.of_nat (length arr)) in
  (0 <= p / 100 * (N - 1))%Q ->
  (p / 100 * (N - 1) < N - 1)%Q ->
  (np_percentile a p == percentile_between_closest_ranks arr p)%Q.
Proof.
  intros arr N Hlo Hhi.
  unfold np_percentile, percentile_between_closest_ranks.
  fold arr. fold N. set (vi := (p / 100 * (N - 1))%Q) in *.
  clearbody vi.
  set (prev := Qfloor vi).
  pose proof (Qfloor_le vi) as Hf1. pose proof (Qlt_floor vi) as Hf2.
  fold prev in Hf1, Hf2. rewrite inject_Z_plus in Hf2.
  change (inject_Z 1) with 1%Q in Hf2.
  assert (Hk : Qfloor (vi + 1) = (prev + 1)%Z).
  { apply Qfloor_unique; rewrite ?inject_Z_plus; change (inject_Z 1) with 1%Q; lra. }
  rewrite Hk. rewrite Qred_correct.
  assert (H0 : (0 ≤ prev)%Z).
  { subst prev. rewrite <- (Qfloor_Z 0). by apply Qfloor_resp_le. }
  assert (H1 : (prev + 1 ≤ Z.of_nat (length arr) - 1)%Z).
  { assert (prev < Z.of_nat (length arr) - 1)%Z; [|lia].
    rewrite Zlt_Qlt. unfold Z.sub. rewrite inject_Z_plus. fold N.
    change (inject_Z (- (1))) with (- (1))%Q. lra. }
  unfold rank_value, clip_index.
  replace (Z.to_nat (Z.max 0 (Z.min prev (Z.of_nat (length arr) - 1))))
    with (Z.to_nat (prev + 1 - 1)) by lia.
  replace (Z.to_nat (Z.max 0 (Z.min (prev + 1) (Z.of_nat (length arr) - 1))))
    with (Z.to_nat (prev + 1 + 1 - 1)) by lia.
  rewrite inject_Z_plus. change (inject_Z 1) with 1%Q.
  replace (prev + 1 - 1)%Z with prev by lia.
  replace (prev + 1 + 1 - 1)%Z with (prev + 1)%Z by lia.
  ring.
Qed.

(** C7.  With fewer than 10 samples buffered [calculate_rtt_percentiles]
    returns (0, 0) and changes nothing; with at least 10 it returns, for the
    buffer's samples in ascending order, the 95th and 99th percentile by
    linear interpolation between closest ranks. *)
Theorem rtt_percentiles (s : Sys) :
  let samples := rtt_samples (state s) in
  (length samples < 10 -> calculate_rtt_percentiles s = (Ok (0%Q, 0%Q), s))
  ∧ (10 ≤ length samples ->
       ∃ sorted p95 p99,
         calculate_rtt_percentiles s = (Ok (p95, p99), s)
         ∧ sorted ≡ₚ samples
         ∧ Sorted Qle sorted
         ∧ (p95 == percentile_between_closest_ranks sorted 95)%Q
         ∧ (p99 == percentile_between_closest_ranks sorted 99)%Q).
Proof.
  intros samples. unfold calculate_rtt_percentiles, bind, gets, ret. fold samples. split.
  - intros H. apply Nat.ltb_lt in H. by rewrite H.
  - intros H. assert (E : (length samples <? 10)%nat = false) by by apply Nat.ltb_ge.
    rewrite E.
    exists (merge_sort Qleb_rel samples), (np_percentile samples 95), (np_percentile samples 99).
    split; [done|]. split; [apply merge_sort_Permutation|].
    split; [apply Sorted_Qle, Sorted_merge_sort, Qleb_rel_total|].
    assert (Hn : (10 <= inject_Z (Z.of_nat (length (merge_sort Qleb_rel samples))))%Q).
    { rewrite (Permutation_length (merge_sort_Permutation Qleb_rel samples)).
      change 10%Q with (inject_Z 10). rewrite <- Zle_Qle. lia. }
    set (N := inject_Z _) in Hn.
    split; apply np_percentile_ranks; cbv zeta; fold N; clearbody N.
    all: unfold Qdiv; change (/ 100)%Q with (1 # 100)%Q; lra.
Qed.

(** *** Claim C8 *)

(** C8.  From a state whose lock is free, [add_event] returns normally
    whatever the hook does; the stored message is the first 200 characters of
    [msg]; the event is appended to the all-events buffer, and to the error
    buffer exactly when the level is WARN or ERROR; a hook that is set is
    called once, with the lock released, on [{type: "event", event: ...}]. *)
Theorem add_event_contract (env : Env) (s : Sys) (level src code msg : string) :
  lockfree s ->
  let ev := event_of env s level src code msg in
  let r := add_event env level src code msg s in
  r.1 = Ok tt
  ∧ (∃ rest, msg = ev_msg ev +:+ rest)
  ∧ py_len (ev_msg ev) = min 200 (py_len msg)
  ∧ events (state r.2) = deque_append 500 ev (events (state s))
  ∧ last (events (state r.2)) = Some ev
  ∧ ((level = "WARN" ∨ level = "ERROR") ->
       errors (state r.2) = deque_append 50 ev (errors (state s))
       ∧ last (errors (state r.2)) = Some ev)
  ∧ (¬ (level = "WARN" ∨ level = "ERROR") -> errors (state r.2) = errors (state s))
  ∧ (∀ h, ws_broadcast (state s) = Some h ->
       hook_calls (world r.2) = hook_calls (world s) ++ [(false, mkPayload "event" ev)])
  ∧ (ws_broadcast (state s) = None -> hook_calls (world r.2) = hook_calls (world s))
  ∧ lockfree r.2.
Proof.
  intros Hl ev r. subst r. rewrite (add_event_run env level src code msg s Hl).
  cbn [fst snd]. unfold after_add_event. cbn [state world events errors hook_calls
    set_errors set_events lock_held]. fold ev.
  split; [done|]. split; [apply py_prefix_split|]. split; [apply py_prefix_len|].
  split; [done|].
  split; [apply deque_append_last; unfold EVENTS_MAXLEN; lia|].
  split.
  { intros Hlev. apply level_is_error_iff in Hlev. rewrite Hlev.
    split; [done|]. apply deque_append_last. unfold ERRORS_MAXLEN. lia. }
  split.
  { intros Hlev. destruct (level_is_error level) eqn:E; [|done].
    apply level_is_error_iff in E. done. }
  split; [by intros h ->|].
  split; [intros ->; by rewrite app_nil_r|].
  exact Hl.
Qed.

Lemma add_event_contract_witness :
  lockfree (with_hook (Some failing_hook) demo_sys)
  ∧ (add_event demo_env "ERROR" "ground" "PROCESS_CRASH" "ground crashed with exit code 1"
       (with_hook (Some failing_hook) demo_sys)).1 = Ok tt.
Proof.
  split; [reflexivity|].
  apply (add_event_contract demo_env (with_hook (Some failing_hook) demo_sys)
           "ERROR" "ground" "PROCESS_CRASH" "ground crashed with exit code 1").
  reflexivity.
Defined.

(** *** Claim C9 *)

(** C9.  In every reachable state the three buffers are within their
    capacities (500, 50, 100); an append made by [add_event] or
    [update_telemetry] puts the entry at the end and, on a full buffer, drops
    exactly the oldest entry; after any run of [add_event] calls each event
    buffer holds the most recent entries in the order they were appended. *)
Theorem ring_buffers_bounded_fifo (env : Env) (s : Sys) :
  reachable env s ->
  buffers_bounded s
  ∧ (∀ level src code msg,
       let ev := event_of env s level src code msg in
       let s' := (add_event env level src code msg s).2 in
       ring_step 500 ev (events (state s)) (events (state s'))
       ∧ (level = "WARN" ∨ level = "ERROR" ->
            ring_step 50 ev (errors (state s)) (errors (state s'))))
  ∧ (∀ data v x,
       data !! "rtt_ms" = Some v -> value_num v = Some x -> Qltb 0 x = true ->
       ring_step 100 x (rtt_samples (state s))
                       (rtt_samples (state (update_telemetry env data s).2)))
  ∧ (∀ calls,
       let s' := (add_events env calls s).2 in
       let all := events (state s) ++ logged env s calls in
       let all_err := errors (state s)
                      ++ filter (fun ev => level_is_error (ev_level ev) = true)
                                (logged env s calls) in
       events (state s') = drop (length all - 500) all
       ∧ errors (state s') = drop (length all_err - 50) all_err).
Proof.
  intros Hreach. destruct (reachable_inv env s Hreach) as [Hl Hb].
  split; [exact Hb|]. split; [|split].
  - intros level src code msg ev s'. subst s'.
    rewrite add_event_run by done. unfold after_add_event. cbn [snd state events errors
      set_errors set_events]. fold ev. split.
    + apply ring_step_append. unfold EVENTS_MAXLEN. lia.
    + intros Hlev. apply level_is_error_iff in Hlev. rewrite Hlev.
      apply ring_step_append. unfold ERRORS_MAXLEN. lia.
  - intros data v x Hv Hx Hp.
    assert (Hgoal : rtt_samples (state (update_telemetry env data s).2)
                    = deque_append 100 x (rtt_samples (state s))).
    { revert Hl. unfold lockfree. destruct s as [w st sp]. destruct st, w. simpl. intros ->.
      unfold update_telemetry. run_m. rewrite Hv. run_m. rewrite Hx. run_m. rewrite Hp.
      reflexivity. }
    rewrite Hgoal. apply ring_step_append. lia.
  - intros calls s' all all_err. subst s' all all_err.
    destruct (add_events_run env calls s Hl) as (s' & Hrun & _ & He' & Hr').
    rewrite Hrun. cbn [snd]. rewrite He', Hr'.
    destruct Hb as (He & Hr & _).
    split; by apply deque_extend_suffix.
Qed.

Lemma ring_buffers_bounded_fifo_witness :
  reachable demo_env (run_call demo_env (CallAddEvent "WARN" "air" "DENY" "PX4 not OK") demo_sys)
  ∧ buffers_bounded
      (run_call demo_env (CallAddEvent "WARN" "air" "DENY" "PX4 not OK") demo_sys).
Proof.
  assert (H : reachable demo_env
                (run_call demo_env (CallAddEvent "WARN" "air" "DENY" "PX4 not OK") demo_sys)).
  { apply reach_call. apply (reach_init demo_env demo_world initial_supervisor None). }
  split; [exact H|].
  apply (ring_buffers_bounded_fifo demo_env _ H).
Defined.

(** *** Claim C10 *)

(** C10.  [get_recent_events(count)] changes nothing; for [count >= 1] it
    returns the last [min(count, stored)] events in append order, and for
    [count = 0] the whole buffer. *)
Theorem get_recent_events_slice (s : Sys) (count : Z) :
  lockfree s ->
  ∃ recent,
    get_recent_events count s = (Ok recent, s)
    ∧ ((1 ≤ count)%Z ->
         (∃ older, events (state s) = older ++ recent)
         ∧ Z.of_nat (length recent) = Z.min count (Z.of_nat (length (events (state s)))))
    ∧ (count = 0%Z -> recent = events (state s)).
Proof.
  intros Hl. eexists. split; [by apply get_recent_events_run|]. split.
  - intros Hc. destruct (slice_from_suffix count (events (state s)) Hc) as (older & H1 & H2).
    split; [by exists older|done].
  - intros ->. apply (slice_from_zero (events (state s))).
Qed.

Lemma get_recent_events_slice_witness :
  lockfree (run_call demo_env (CallAddEvent "WARN" "air" "DENY" "PX4 not OK") demo_sys)
  ∧ ∃ recent,
      get_recent_events 0
        (run_call demo_env (CallAddEvent "WARN" "air" "DENY" "PX4 not OK") demo_sys)
      = (Ok recent,
         run_call demo_env (CallAddEvent "WARN" "air" "DENY" "PX4 not OK") demo_sys)
      ∧ length recent = 1.
Proof.
  split; [reflexivity|].
  destruct (get_recent_events_slice
              (run_call demo_env (CallAddEvent "WARN" "air" "DENY" "PX4 not OK") demo_sys) 0)
    as (recent & Hrun & _ & Hzero); [reflexivity|].
  exists recent. split; [exact Hrun|]. by rewrite Hzero.
Defined.

(** ** Patterns and captures *)

Section ReFacts.
Import Re ReSpec.














End ReFacts.


(** ** The decoders *)

Section ParserFacts.
Context (env : Env).
Import Re ReSpec.






End ParserFacts.









(** *** Claim C5 *)




Lemma Qltb_lt (x y : Q) : Qltb x y = true ↔ (x < y)%Q.
Proof.
  unfold Qltb. rewrite negb_true_iff. split.
  - intros H. apply Qnot_le_lt. intros Hle. apply Qle_bool_iff in Hle. congruence.
  - intros H. destruct (Qle_bool y x) eqn:E; [|done].
    apply Qle_bool_iff in E. exfalso. by apply (Qlt_not_le x y).
Qed.


Section AirFacts.
Context (env : Env).

End AirFacts.

(** *** Claim C6 *)




(** ** The supervisor *)

Import Supervisor.

Section Effects.

Lemma deque_extend_app {A} n (xs ys : list A) d :
  deque_extend n (xs ++ ys) d = deque_extend n ys (deque_extend n xs d).
Proof. unfold deque_extend. by rewrite foldl_app. Qed.

Lemma effect_refl s : lockfree s -> effect 0 s s.
Proof.
  intros Hl. split; [done| | |done]; by exists [].
Qed.

Lemma effect_trans k1 k2 k s s1 s2 :
  effect k1 s s1 -> effect k2 s1 s2 -> k1 + k2 ≤ k -> effect k s s2.
Proof.
  intros [_ (n1 & L1 & E1) (m1 & M1 & R1) A1] [Hl (n2 & L2 & E2) (m2 & M2 & R2) A2] Hk.
  split; [done| | |congruence].
  - exists (n1 ++ n2). rewrite length_app, deque_extend_app, <- E1, <- E2. split; [lia|done].
  - exists (m1 ++ m2). rewrite length_app, deque_extend_app, <- R1, <- R2. split; [lia|done].
Qed.

Lemma effect_weaken k k' s s' : effect k s s' -> k ≤ k' -> effect k' s s'.
Proof.
  intros [Hl (n & L & E) (m & M0 & R0) A] Hk. split; [done| | |done].
  - exists n. split; [lia|done].
  - exists m. split; [lia|done].
Qed.

Lemma quiet_refl s : lockfree s -> quiet 0 s s.
Proof. intros Hl. split; [by apply effect_refl|done]. Qed.

Lemma quiet_trans k1 k2 k s s1 s2 :
  quiet k1 s s1 -> quiet k2 s1 s2 -> k1 + k2 ≤ k -> quiet k s s2.
Proof.
  intros (E1 & A1 & B1 & C1) (E2 & A2 & B2 & C2) Hk.
  split; [by eapply effect_trans|]. repeat split; congruence.
Qed.

Lemma quiet_weaken k k' s s' : quiet k s s' -> k ≤ k' -> quiet k' s s'.
Proof. intros (E & ?) Hk. split; [by eapply effect_weaken|done]. Qed.

Lemma quiet_lockfree k s s' : quiet k s s' -> lockfree s'.
Proof. by intros [[] _]. Qed.

(** A step that touches neither the store, nor the supervisor, nor the
    calls to the drone controller. *)
Lemma quiet_world s w' :
  lockfree s -> px4_calls w' = px4_calls (world s) ->
  quiet 0 s (mkSys w' (state s) (supervisor s)).
Proof.
  intros Hl Hp. split; [|done]. split; [done| | |].
  - by exists [].
  - by exists [].
  - unfold land_attempts. simpl. by rewrite Hp.
Qed.

(** A step that only rewrites the process table. *)
Lemma quiet_processes s v :
  lockfree s ->
  quiet 0 s (mkSys (world s) (state s) (set_processes v (supervisor s))).
Proof.
  intros Hl. split; [|done]. split; [done| | |done]; by exists [].
Qed.

Lemma quiet_add_event env level src code msg s :
  lockfree s -> quiet 1 s (after_add_event env level src code msg s).
Proof.
  intros Hl. split; [|done]. split.
  - by apply after_add_event_lockfree.
  - exists [event_of env s level src code msg]. split; [done|]. reflexivity.
  - unfold after_add_event. cbn [state errors set_errors].
    destruct (level_is_error level).
    + exists [event_of env s level src code msg]. split; [done|]. reflexivity.
    + exists []. split; [simpl; lia|reflexivity].
  - reflexivity.
Qed.

Lemma quiet_set_process_pid name p s :
  lockfree s -> quiet 0 s (after_set_process_pid name p s).
Proof.
  intros Hl. split; [|done]. split; [|by exists []|by exists []|done].
  unfold lockfree in *. by destruct s as [w [] sp].
Qed.


End Effects.

Section SupervisorFacts.
Context (env : Env).

Lemma world_step_refl s : world_step s s.
Proof. done. Qed.

Lemma world_step_trans s s1 s2 : world_step s s1 -> world_step s1 s2 -> world_step s s2.
Proof. intros (A1 & B1 & C1) (A2 & B2 & C2). repeat split; congruence. Qed.

Lemma world_step_quiet s s' : lockfree s -> world_step s s' -> quiet 0 s s'.
Proof.
  intros Hl (A & B & C). destruct s' as [w' st' sp']. simpl in *. subst.
  by apply quiet_world.
Qed.

Lemma world_step_slot s s' n : world_step s s' -> slot s' n = slot s n.
Proof. intros (A & B & C). unfold slot. by rewrite B. Qed.

Lemma slots_but_refl name s : slots_but name s s.
Proof. by intros n _. Qed.

Lemma slots_but_trans name s s1 s2 :
  slots_but name s s1 -> slots_but name s1 s2 -> slots_but name s s2.
Proof. intros H1 H2 n Hn. rewrite H2, H1; done. Qed.

Lemma slot_set_process s name v n :
  slot (mkSys (world s) (state s)
          (set_processes (<[name := v]> (processes (supervisor s))) (supervisor s))) n
  = if decide (n = name) then v else slot s n.
Proof.
  unfold slot. simpl. destruct (decide (n = name)) as [->|Hne].
  - by rewrite lookup_insert_eq.
  - by rewrite lookup_insert_ne.
Qed.

(** *** Primitives *)

Lemma poll_spec p s :
  wp (poll p) s (fun r s' => (∃ c, r = Ok c) ∧ world_step s s').
Proof.
  unfold wp, poll, world_step. run_m.
  destruct (pr_alive _); [|by eauto].
  destruct (pr_dying _) as [[|n]|]; simpl; by eauto.
Qed.


Lemma killpg_spec p sig s :
  wp (killpg env p sig) s (fun r s' => r ≠ Stuck ∧ world_step s s').
Proof.
  unfold wp, killpg, world_step. destruct (killpg_outcome env (pid p) sig); by run_m.
Qed.

Lemma sleep_spec d0 s : wp (sleep d0) s (fun r s' => r = Ok tt ∧ world_step s s').
Proof. done. Qed.

Lemma px4_spec c s :
  wp (px4 env c) s (fun r s' =>
    r ≠ Stuck ∧ state s' = state s ∧ supervisor s' = supervisor s
    ∧ px4_calls (world s') = px4_calls (world s) ++ [c]).
Proof.
  unfold wp, px4. run_m. destruct (px4_outcome env c _); by run_m.
Qed.

Lemma poll_until_exit_spec n p s :
  wp (poll_until_exit n p) s (fun r s' => r = Ok tt ∧ world_step s s').
Proof.
  revert s. induction n as [|n IH]; intros s; [done|].
  cbn [poll_until_exit]. apply wp_bind.
  eapply wp_mono; [apply poll_spec|]. intros r s1 ([c ->] & H1).
  destruct c as [c|]; [done|].
  apply wp_bind. eapply wp_mono; [apply sleep_spec|]. intros r s2 (-> & H2).
  eapply wp_mono; [apply IH|]. intros r s3 (-> & H3). split; [done|].
  eapply world_step_trans; [|exact H3]. by eapply world_step_trans.
Qed.

End SupervisorFacts.

Section SupervisorFacts2.
Context (env : Env).

Lemma wp_add_event level src code msg s (Q : Res unit -> Sys -> Prop) :
  lockfree s ->
  Q (Ok tt) (after_add_event env level src code msg s) ->
  wp (add_event env level src code msg) s Q.
Proof. intros Hl HQ. unfold wp. by rewrite add_event_run. Qed.

Lemma wp_set_status new_status s (Q : Res unit -> Sys -> Prop) :
  lockfree s ->
  Q (Ok tt) (after_set_status env new_status s) ->
  wp (set_status env new_status) s Q.
Proof. intros Hl HQ. unfold wp. by rewrite set_status_run. Qed.

Lemma wp_set_process_pid name p s (Q : Res unit -> Sys -> Prop) :
  lockfree s ->
  Q (Ok tt) (after_set_process_pid name p s) ->
  wp (set_process_pid name p) s Q.
Proof. intros Hl HQ. unfold wp. by rewrite set_process_pid_run. Qed.

Lemma slots_same_after_add_event level src code msg s n :
  slot (after_add_event env level src code msg s) n = slot s n.
Proof. done. Qed.

(** Clearing the slot of [name]. *)
Lemma clear_slot_facts name s :
  lockfree s ->
  let s' := mkSys (world s) (state s)
              (set_processes (<[name := None]> (processes (supervisor s))) (supervisor s)) in
  quiet 0 s s' ∧ slots_but name s s' ∧ slot s' name = None.
Proof.
  intros Hl s'. split; [by apply quiet_processes|]. split.
  - intros n Hn. subst s'. rewrite slot_set_process. by destruct (decide (n = name)).
  - subst s'. rewrite slot_set_process. by destruct (decide (name = name)).
Qed.

Lemma wait_graceful_spec n name p s :
  lockfree s ->
  wp (wait_graceful env n name p) s (fun r s' =>
    ∃ b, r = Ok b ∧ quiet 1 s s' ∧ slots_but name s s'
         ∧ (b = true -> slot s' name = None)).
Proof.
  revert s. induction n as [|n IH]; intros s Hl.
  - apply wp_ret. exists false. split; [done|].
    split; [eapply quiet_weaken; [by apply quiet_refl|lia]|].
    split; [apply slots_but_refl|done].
  - cbn [wait_graceful]. apply wp_bind.
    eapply wp_mono; [apply poll_spec|]. intros r s1 ([c ->] & H1).
    pose proof (world_step_quiet s s1 Hl H1) as Q1.
    pose proof (quiet_lockfree _ _ _ Q1) as Hl1.
    destruct c as [c|].
    + apply wp_bind. apply wp_add_event; [done|].
      apply wp_bind. apply wp_modify. apply wp_ret.
      set (s2 := after_add_event env _ _ _ _ s1).
      assert (Q2 : quiet 1 s1 s2) by by apply quiet_add_event.
      destruct (clear_slot_facts name s2 (quiet_lockfree _ _ _ Q2)) as (Q3 & S3 & N3).
      exists true. split; [done|]. split.
      { eapply (quiet_trans 0 1); [exact Q1|eapply (quiet_trans 1 0); [exact Q2|exact Q3|]|]; lia. }
      split; [|done].
      intros m Hm. rewrite (S3 m Hm). subst s2.
      rewrite slots_same_after_add_event. by apply world_step_slot.
    + apply wp_bind. eapply wp_mono; [apply sleep_spec|]. intros r s2 (-> & H2).
      pose proof (world_step_quiet s1 s2 Hl1 H2) as Q2.
      eapply wp_mono; [apply IH; by eapply quiet_lockfree|].
      intros r s3 (b & -> & Q3 & S3 & N3). exists b. split; [done|]. split.
      { eapply (quiet_trans 0 1); [exact Q1|eapply (quiet_trans 0 1); [exact Q2|exact Q3|]|]; lia. }
      split; [|done].
      intros m Hm. rewrite (S3 m Hm).
      rewrite (world_step_slot s1 s2 m H2). by apply world_step_slot.
Qed.

Lemma stop_process_spec name s :
  lockfree s ->
  wp (_stop_process env name) s (fun r s' =>
    r = Ok tt ∧ quiet 2 s s' ∧ slots_but name s s' ∧ slot s' name = None).
Proof.
  intros Hl. unfold _stop_process. apply wp_bind. apply wp_gets.
  fold (slot s name). destruct (slot s name) as [p|] eqn:Hp.
  2:{ apply wp_ret. split; [done|].
      split; [eapply quiet_weaken; [by apply quiet_refl|lia]|].
      split; [apply slots_but_refl|done]. }
  apply wp_bind. eapply wp_mono; [apply poll_spec|]. intros r s1 ([c ->] & H1).
  pose proof (world_step_quiet s s1 Hl H1) as Q1.
  pose proof (quiet_lockfree _ _ _ Q1) as Hl1.
  assert (S1 : ∀ m, slot s1 m = slot s m) by (intros m; by apply world_step_slot).
  destruct c as [c|].
  { apply wp_modify.
    destruct (clear_slot_facts name s1 Hl1) as (Q2 & S2 & N2).
    split; [done|].
    split; [eapply quiet_trans; [exact Q1|exact Q2|]; lia|].
    split; [|done]. intros m Hm. by rewrite (S2 m Hm). }
  (* the process is still running *)
  apply wp_try_finally.
  set (Post := fun (r : Res unit) (s' : Sys) =>
                 r = Ok tt ∧ quiet 2 s1 s' ∧ slots_but name s1 s').
  assert (Hbody : wp (try_except
             (killpg env p SIGTERM ;;
              stopped <- wait_graceful env 50 name p ;;
              if stopped : bool then ret tt else
              killpg env p SIGKILL ;;
              add_event env "WARN" name "PROCESS_KILL"
                (name +:+ " force killed (did not respond to SIGTERM)"))
             (fun e =>
                match e with
                | ProcessLookupError _ => ret tt
                | _ => add_event env "ERROR" "server" "STOP_ERROR"
                         ("Error stopping " +:+ name +:+ ": " +:+ exn_str e)
                end)) s1 Post).
  { assert (Hhandler : ∀ e s2, quiet 1 s1 s2 -> slots_but name s1 s2 ->
              wp (match e with
                  | ProcessLookupError _ => ret tt
                  | _ => add_event env "ERROR" "server" "STOP_ERROR"
                           ("Error stopping " +:+ name +:+ ": " +:+ exn_str e)
                  end) s2 Post).
    { intros e s2 Q2 S2. pose proof (quiet_lockfree _ _ _ Q2) as Hl2.
      assert (Hev : wp (add_event env "ERROR" "server" "STOP_ERROR"
                          ("Error stopping " +:+ name +:+ ": " +:+ exn_str e)) s2 Post).
      { apply wp_add_event; [done|]. split; [done|]. split; [|done].
        eapply quiet_trans; [exact Q2|by apply quiet_add_event|]. lia. }
      destruct e; try exact Hev.
      apply wp_ret. split; [done|]. split; [|done]. eapply quiet_weaken; [exact Q2|lia]. }
    apply wp_try_except. apply wp_bind.
    eapply wp_mono; [apply killpg_spec|]. intros r s2 (Hr & H2).
    pose proof (world_step_quiet s1 s2 Hl1 H2) as Q2.
    assert (S2 : slots_but name s1 s2) by (intros m _; by apply world_step_slot).
    destruct r as [[]|e|]; [| |done].
    2:{ apply Hhandler; [eapply quiet_weaken; [exact Q2|lia]|done]. }
    apply wp_bind.
    eapply wp_mono; [apply wait_graceful_spec; by eapply quiet_lockfree|].
    intros r s3 (b & -> & Q3 & S3 & N3).
    assert (Q13 : quiet 1 s1 s3) by (eapply quiet_trans; [exact Q2|exact Q3|]; lia).
    assert (S13 : slots_but name s1 s3) by by eapply slots_but_trans.
    destruct b.
    { apply wp_ret. split; [done|]. split; [|done]. eapply quiet_weaken; [exact Q13|lia]. }
    apply wp_bind. eapply wp_mono; [apply killpg_spec|]. intros r s4 (Hr4 & H4).
    pose proof (world_step_quiet s3 s4 (quiet_lockfree _ _ _ Q13) H4) as Q4.
    assert (Q14 : quiet 1 s1 s4) by (eapply quiet_trans; [exact Q13|exact Q4|]; lia).
    assert (S14 : slots_but name s1 s4).
    { eapply slots_but_trans; [exact S13|]. intros m _. by apply world_step_slot. }
    destruct r as [[]|e|]; [| |done].
    2:{ by apply Hhandler. }
    apply wp_add_event; [by eapply quiet_lockfree|].
    split; [done|]. split; [|done].
    eapply quiet_trans; [exact Q14|apply quiet_add_event; by eapply quiet_lockfree|]. lia. }
  eapply wp_mono; [exact Hbody|]. intros r s2 (Hr & Q2 & S2).
  assert (Hfin : wp (set_process name None ;; set_process_pid name None) s2
            (fun r2 s' => r2 = Ok tt ∧ quiet 2 s s' ∧ slots_but name s s'
                          ∧ slot s' name = None)).
  { apply wp_bind. apply wp_modify.
    destruct (clear_slot_facts name s2 (quiet_lockfree _ _ _ Q2)) as (Q3 & S3 & N3).
    set (s3 := mkSys _ _ _) in *.
    apply wp_set_process_pid; [by eapply quiet_lockfree|].
    split; [done|]. split.
    { eapply (quiet_trans 0 2); [exact Q1|eapply (quiet_trans 2 0); [exact Q2|
        eapply (quiet_trans 0 0); [exact Q3|apply quiet_set_process_pid;
                                       by eapply quiet_lockfree|]|]|]; lia. }
    split; [|exact N3].
    intros m Hm. change (slot s3 m = slot s m). by rewrite (S3 m Hm), (S2 m Hm). }
  subst r. eapply wp_mono; [exact Hfin|]. by intros r s3 (-> & ?).
Qed.
End SupervisorFacts2.

Section SupervisorFacts3.
Context (env : Env).

Lemma killpg_ok p sig s :
  killpg_outcome env (pid p) sig = None -> (killpg env p sig s).1 = Ok tt.
Proof. intros H. unfold killpg. by rewrite H. Qed.

Lemma killpg_spec' p sig s :
  wp (killpg env p sig) s (fun r s' =>
    r ≠ Stuck ∧ world_step s s' ∧ (killpg_never_raises env -> r = Ok tt)).
Proof.
  pose proof (killpg_spec env p sig s) as [H1 H2]. unfold wp.
  split; [done|]. split; [done|]. intros K. by apply killpg_ok.
Qed.

Lemma stop_link_spec s :
  lockfree s ->
  wp (_stop_virtual_elrs_link env) s (fun r s' =>
    r ≠ Stuck ∧ quiet 1 s s' ∧ slots_but "socat" s s'
    ∧ (killpg_never_raises env -> r = Ok tt)).
Proof.
  intros Hl. unfold _stop_virtual_elrs_link. apply wp_bind. apply wp_gets.
  fold (slot s "socat"). destruct (slot s "socat") as [p|].
  2:{ apply wp_ret. split; [done|].
      split; [eapply quiet_weaken; [by apply quiet_refl|lia]|].
      split; [apply slots_but_refl|done]. }
  apply wp_try_finally.
  set (Post := fun (r : Res unit) (s' : Sys) =>
         r ≠ Stuck ∧ quiet 1 s s' ∧ (∀ n, slot s' n = slot s n)
         ∧ (killpg_never_raises env -> r = Ok tt)).
  assert (Hfin : ∀ r s2, Post r s2 ->
    match r with
    | Stuck => False
    | _ => wp (set_process "socat" None) s2 (fun r2 s3 =>
             match r2 with
             | Ok _ => r ≠ Stuck ∧ quiet 1 s s3 ∧ slots_but "socat" s s3
                       ∧ (killpg_never_raises env -> r = Ok tt)
             | _ => False
             end)
    end).
  { intros r s2 (Hr & Q2 & S2 & K2).
    assert (wp (set_process "socat" None) s2 (fun r2 s3 =>
             match r2 with
             | Ok _ => r ≠ Stuck ∧ quiet 1 s s3 ∧ slots_but "socat" s s3
                       ∧ (killpg_never_raises env -> r = Ok tt)
             | _ => False
             end)).
    { apply wp_modify.
      destruct (clear_slot_facts "socat" s2 (quiet_lockfree _ _ _ Q2)) as (Q3 & S3 & _).
      split; [done|].
      split; [eapply (quiet_trans 1 0); [exact Q2|exact Q3|lia]|].
      split; [|done]. intros m Hm. by rewrite (S3 m Hm). }
    by destruct r. }
  assert (Hev : ∀ s2, quiet 0 s s2 -> (∀ n, slot s2 n = slot s n) ->
            wp (add_event env "INFO" "server" "SOCAT_STOP" "socat PTY bridge stopped")
               s2 Post).
  { intros s2 Q2 S2. apply wp_add_event; [by eapply quiet_lockfree|].
    split; [done|]. split; [|done].
    eapply (quiet_trans 0 1); [exact Q2|apply quiet_add_event; by eapply quiet_lockfree|lia]. }
  assert (Hraise : ∀ (r : Res unit) s2, r ≠ Stuck -> (killpg_never_raises env -> r = Ok tt) ->
            world_step s s2 -> ∀ e, r = Raise e -> Post (Raise e) s2).
  { intros r s2 Hr K W e ->. split; [done|].
    split; [eapply quiet_weaken; [by apply world_step_quiet|lia]|].
    split; [intros n; by apply world_step_slot|done]. }
  assert (Hbody : wp
    (c <- poll p ;;
     match c with
     | None =>
         killpg env p SIGTERM ;;
         poll_until_exit 50 p ;;
         c' <- poll p ;;
         when (bool_decide (c' = None)) (killpg env p SIGKILL)
     | Some _ => ret tt
     end ;;
     add_event env "INFO" "server" "SOCAT_STOP" "socat PTY bridge stopped") s Post).
  { apply wp_bind. eapply wp_mono; [apply poll_spec|]. intros r s1 ([c ->] & W1).
    apply wp_bind. destruct c as [c|].
    { apply wp_ret. apply Hev; [by apply world_step_quiet|].
      intros n; by apply world_step_slot. }
    apply wp_bind. eapply wp_mono; [apply killpg_spec'|]. intros r s2 (Hr & W2 & K2).
    assert (W02 : world_step s s2) by by eapply world_step_trans.
    destruct r as [[]|e|]; [|by eapply Hraise|done].
    apply wp_bind. eapply wp_mono; [apply poll_until_exit_spec|]. intros r s3 (-> & W3).
    assert (W03 : world_step s s3) by by eapply world_step_trans.
    apply wp_bind. eapply wp_mono; [apply poll_spec|]. intros r s4 ([c' ->] & W4).
    assert (W04 : world_step s s4) by by eapply world_step_trans.
    apply wp_when; intros _.
    2:{ apply Hev; [by apply world_step_quiet|]. intros n; by apply world_step_slot. }
    eapply wp_mono; [apply killpg_spec'|]. intros r s5 (Hr5 & W5 & K5).
    assert (W05 : world_step s s5) by by eapply world_step_trans.
    destruct r as [[]|e|]; [|by eapply Hraise|done].
    apply Hev; [by apply world_step_quiet|]. intros n; by apply world_step_slot. }
  eapply wp_mono; [exact Hbody|]. intros r s2 HP.
  pose proof (Hfin r s2 HP) as H.
  destruct r as [[]|e|]; [| |done].
  - eapply wp_mono; [exact H|]. by intros [[]|?|] s3.
  - eapply wp_mono; [exact H|]. intros [[]|?|] s3; [|done..].
    intros (_ & ? & ? & K). split; [done|]. split; [done|]. by split.
Qed.

Lemma land_attempts_app s s' c :
  px4_calls (world s') = px4_calls (world s) ++ [c] ->
  land_attempts s' = land_attempts s + (if decide (c = Px4Land) then 1 else 0).
Proof.
  intros H. unfold land_attempts. rewrite H, filter_app, length_app.
  f_equal. rewrite filter_cons, filter_nil. by destruct (decide (c = Px4Land)).
Qed.

Lemma px4_quiet c s :
  lockfree s -> c ≠ Px4Land ->
  wp (px4 env c) s (fun r s' =>
    r ≠ Stuck ∧ quiet 0 s s' ∧ ∀ n, slot s' n = slot s n).
Proof.
  intros Hl Hc. eapply wp_mono; [apply px4_spec|]. intros r s' (Hr & A & B & C).
  split; [done|]. split.
  - split; [|by rewrite A, B]. split.
    + unfold lockfree. by rewrite A.
    + exists []. by rewrite A.
    + exists []. by rewrite A.
    + rewrite (land_attempts_app s s' c C). destruct (decide (c = Px4Land)); [done|lia].
  - intros n. unfold slot. by rewrite B.
Qed.

Lemma effect_upd_sup s sp' : lockfree s -> effect 0 s (mkSys (world s) (state s) sp').
Proof. intros Hl. split; [done| | |done]; by exists []. Qed.

Lemma effect_set_status new_status s :
  lockfree s -> effect 1 s (after_set_status env new_status s).
Proof.
  intros Hl. unfold after_set_status.
  set (s0 := mkSys (world s) (set_status_field new_status (state s)) (supervisor s)).
  assert (Hl0 : lockfree s0).
  { unfold lockfree in *. subst s0. by destruct s as [w [] sp]. }
  assert (E0 : effect 0 s s0).
  { split; [done| | |done]; exists []; (split; [done|]); subst s0; by destruct s as [w [] sp]. }
  eapply (effect_trans 0 1); [exact E0|apply (quiet_add_event env _ _ _ _ s0 Hl0)|lia].
Qed.

Lemma status_after_set_status new_status s :
  status (state (after_set_status env new_status s)) = new_status.
Proof. by destruct s as [w [] sp]. Qed.

Lemma stopping_quiet k1 k2 k s0 s s' :
  stopping k1 s0 s -> quiet k2 s s' -> k1 + k2 ≤ k -> stopping k s0 s'.
Proof.
  intros (E & T & F & S) (E' & S' & F' & T') Hk.
  split; [by eapply effect_trans|]. repeat split; congruence.
Qed.

Lemma stopping_lockfree k s0 s : stopping k s0 s -> lockfree s.
Proof. by intros [[] _]. Qed.

Lemma stop_all_spec caller s :
  lockfree s ->
  wp (stop_all env caller) s (fun r s' =>
    effect 10 s s' ∧ roles_cleared s'
    ∧ (r = Ok tt -> status (state s') = "READY"
                    ∧ _shutting_down (supervisor s') = false)
    ∧ (r ≠ Ok tt -> status (state s') = "STOPPING"
                    ∧ _shutting_down (supervisor s') = true)
    ∧ (caller = None -> r ≠ Stuck)
    ∧ (killpg_never_raises env -> await_returns env caller s -> r = Ok tt)).
Proof.
  intros Hl. unfold stop_all.
  apply wp_bind. apply wp_modify.
  set (sa := mkSys (world s) (state s) (set_shutting_down true (supervisor s))).
  assert (Hla : lockfree sa) by done.
  apply wp_bind. apply wp_set_status; [done|].
  set (sb := after_set_status env "STOPPING" sa).
  assert (Hb : stopping 1 s sb).
  { split; [|by rewrite ?status_after_set_status].
    eapply (effect_trans 0 1 1 s sa); [by apply effect_upd_sup|
                                apply (effect_set_status "STOPPING" sa Hla)|lia]. }
  assert (Sb : ∀ n, slot sb n = slot s n) by done.
  clearbody sb. clear sa Hla.
  (* stopping the offboard mode *)
  apply wp_bind.
  set (Post1 := fun (r : Res unit) (s' : Sys) =>
         r = Ok tt ∧ stopping 2 s s' ∧ ∀ n, slot s' n = slot s n).
  assert (H1 : wp (try_except
      (px4_offboard_stop env ;;
       add_event env "INFO" "supervisor" "PX4_OFFBOARD_STOP" "PX4 offboard mode stopped" ;;
       print "[supervisor] PX4 offboard stopped")
      (fun e =>
         print "[supervisor] Failed to stop offboard" ;;
         add_event env "WARN" "supervisor" "PX4_OFFBOARD_STOP_FAIL"
           ("Failed to stop offboard: " +:+ exn_str e))) sb Post1).
  { apply wp_try_except. apply wp_bind.
    eapply wp_mono; [apply px4_quiet; [by eapply stopping_lockfree|done]|].
    intros r s1 (Hr & Q1 & S1).
    assert (Hev : ∀ level src code msg,
              wp (add_event env level src code msg) s1 Post1).
    { intros. apply wp_add_event; [by eapply quiet_lockfree|].
      split; [done|]. split; [|intros n; by rewrite <- Sb, <- S1].
      eapply (stopping_quiet 1 1); [exact Hb| |lia].
      eapply (quiet_trans 0 1); [exact Q1|
        apply quiet_add_event; by eapply quiet_lockfree|lia]. }
    destruct r as [[]|e|]; [| |done].
    - apply wp_bind. eapply wp_mono; [apply Hev|]. by intros r s2 (-> & ?).
    - apply wp_bind. apply wp_ret. apply Hev. }
  eapply wp_mono; [exact H1|]. intros r s1 (-> & St1 & S1). clear H1 Post1.
  (* the three roles *)
  apply wp_bind.
  eapply wp_mono; [apply stop_process_spec; by eapply stopping_lockfree|].
  intros r s2 (-> & Q2 & B2 & N2).
  assert (St2 : stopping 4 s s2) by (eapply (stopping_quiet 2 2); [exact St1|exact Q2|lia]).
  apply wp_bind.
  eapply wp_mono; [apply stop_process_spec; by eapply stopping_lockfree|].
  intros r s3 (-> & Q3 & B3 & N3).
  assert (St3 : stopping 6 s s3) by (eapply (stopping_quiet 4 2); [exact St2|exact Q3|lia]).
  apply wp_bind.
  eapply wp_mono; [apply stop_process_spec; by eapply stopping_lockfree|].
  intros r s4 (-> & Q4 & B4 & N4).
  assert (St4 : stopping 8 s s4) by (eapply (stopping_quiet 6 2); [exact St3|exact Q4|lia]).
  (* the bridge *)
  apply wp_bind.
  eapply wp_mono; [apply stop_link_spec; by eapply stopping_lockfree|].
  intros r s5 (Hr5 & Q5 & B5 & K5).
  assert (St5 : stopping 9 s s5) by (eapply (stopping_quiet 8 1); [exact St4|exact Q5|lia]).
  assert (R5 : roles_cleared s5).
  { repeat split.
    - rewrite B5, B4, B3 by done. exact N2.
    - rewrite B5, B4 by done. exact N3.
    - rewrite B5 by done. exact N4. }
  assert (Hfail : ∀ r : Res unit, r ≠ Ok tt ->
            (caller = None -> r ≠ Stuck) ->
            (killpg_never_raises env -> await_returns env caller s -> r = Ok tt) ->
            effect 10 s s5 ∧ roles_cleared s5
            ∧ (r = Ok tt -> status (state s5) = "READY"
                            ∧ _shutting_down (supervisor s5) = false)
            ∧ (r ≠ Ok tt -> status (state s5) = "STOPPING"
                            ∧ _shutting_down (supervisor s5) = true)
            ∧ (caller = None -> r ≠ Stuck)
            ∧ (killpg_never_raises env -> await_returns env caller s -> r = Ok tt)).
  { intros r' Hr' Hc Hk. destruct St5 as (E & T & F & S).
    split; [eapply effect_weaken; [exact E|lia]|].
    split; [exact R5|]. split; [done|]. split; [done|]. by split. }
  destruct r as [[]|e|]; [| |done].
  2:{ apply Hfail; [done|done|]. intros K _. by specialize (K5 K). }
  (* awaiting the monitor tasks *)
  apply wp_bind. unfold await_monitor_tasks. apply wp_bind. apply wp_gets.
  assert (Hrest : wp
    (upd_sup (set_monitor_tasks []) ;; sleep 0.5 ;; set_status env "READY" ;;
     upd_sup (set_shutting_down false)) s5 (fun r s' =>
       r = Ok tt ∧ effect 10 s s' ∧ roles_cleared s'
       ∧ status (state s') = "READY" ∧ _shutting_down (supervisor s') = false)).
  { apply wp_bind. apply wp_modify. apply wp_bind. apply wp_modify.
    apply wp_bind.
    match goal with |- wp _ ?x _ => set (s6 := x) end.
    assert (E6 : effect 0 s5 s6).
    { pose proof (stopping_lockfree _ _ _ St5).
      split; [done| | |done]; by exists []. }
    apply wp_set_status; [by destruct E6|].
    apply wp_modify. split; [done|].
    split.
    { destruct St5 as (E5 & _).
      eapply (effect_trans 9 1); [exact E5| |lia].
      eapply (effect_trans 0 1); [exact E6| |lia].
      eapply (effect_trans 1 0); [apply effect_set_status; by destruct E6| |lia].
      apply effect_upd_sup. apply after_set_status_lockfree. by destruct E6. }
    split; [exact R5|]. split; [|done].
    cbn [state]. apply status_after_set_status. }
  assert (Hok : wp (ret tt) s5 (fun r s' =>
    match r with
    | Ok _ => wp (upd_sup (set_monitor_tasks []) ;; sleep 0.5 ;; set_status env "READY" ;;
                  upd_sup (set_shutting_down false)) s' (fun r s' =>
        effect 10 s s' ∧ roles_cleared s'
        ∧ (r = Ok tt -> status (state s') = "READY"
                        ∧ _shutting_down (supervisor s') = false)
        ∧ (r ≠ Ok tt -> status (state s') = "STOPPING"
                        ∧ _shutting_down (supervisor s') = true)
        ∧ (caller = None -> r ≠ Stuck)
        ∧ (killpg_never_raises env -> await_returns env caller s -> r = Ok tt))
    | Raise e => False
    | Stuck => False
    end)).
  { apply wp_ret. eapply wp_mono; [exact Hrest|].
    intros r s' (-> & E & R & S & F).
    split; [done|]. split; [done|]. split; [done|]. split; [done|]. by split. }
  destruct caller as [name|]; [|eapply wp_mono; [exact Hok|]; by intros [[]|?|] ?].
  destruct (bool_decide (name ∈ _monitor_tasks (supervisor s5))
            && negb (gather_returns env)) eqn:Hg;
    [|eapply wp_mono; [exact Hok|]; by intros [[]|?|] ?].
  apply (Hfail Stuck); [done|done|].
  intros _ A. exfalso. apply andb_true_iff in Hg as [Hin Hgr].
  apply bool_decide_eq_true in Hin. destruct St5 as (_ & T & _).
  rewrite T in Hin. simpl in A. rewrite (A Hin) in Hgr. done.
Qed.
End SupervisorFacts3.

Section Safe.
Context {A B : Type}.

Lemma total_safe (m : M A) : total m -> safe m.
Proof.
  intros H s Hl. eapply wp_mono; [by apply H|]. intros r s' ([a ->] & ?). done.
Qed.

Lemma total_ret (a : A) : total (ret a).
Proof. intros s Hl. apply wp_ret. eauto. Qed.

Lemma safe_raise e : safe (raise e : M A).
Proof. intros s Hl. by apply wp_raise. Qed.

Lemma total_gets (f : Sys -> A) : total (gets f).
Proof. intros s Hl. apply wp_gets. eauto. Qed.

Lemma total_bind (m : M A) (k : A -> M B) :
  total m -> (∀ a, total (k a)) -> total (bind m k).
Proof.
  intros Hm Hk s Hl. apply wp_bind. eapply wp_mono; [by apply Hm|].
  intros r s' ([a ->] & Hl'). by apply Hk.
Qed.

Lemma safe_bind (m : M A) (k : A -> M B) :
  safe m -> (∀ a, safe (k a)) -> safe (bind m k).
Proof.
  intros Hm Hk s Hl. apply wp_bind. eapply wp_mono; [by apply Hm|].
  intros [a|e|] s' (Hr & Hl'); [by apply Hk|done|done].
Qed.

Lemma safe_try_except (m : M A) h :
  safe m -> (∀ e, safe (h e)) -> safe (try_except m h).
Proof.
  intros Hm Hh s Hl. apply wp_try_except. eapply wp_mono; [by apply Hm|].
  intros [a|e|] s' (Hr & Hl'); [done|by apply Hh|done].
Qed.

Lemma total_try_except (m : M A) h :
  safe m -> (∀ e, total (h e)) -> total (try_except m h).
Proof.
  intros Hm Hh s Hl. apply wp_try_except. eapply wp_mono; [by apply Hm|].
  intros [a|e|] s' (Hr & Hl'); [by eauto|by apply Hh|done].
Qed.

Lemma safe_try_finally (m : M A) (f : M unit) :
  safe m -> safe f -> safe (try_finally m f).
Proof.
  intros Hm Hf s Hl. apply wp_try_finally. eapply wp_mono; [by apply Hm|].
  intros r s' (Hr & Hl').
  assert (wp f s' (fun r2 s'' =>
            match r2 with
            | Ok _ => r ≠ Stuck ∧ lockfree s''
            | Raise e => Raise e ≠ (Stuck : Res A) ∧ lockfree s''
            | Stuck => (Stuck : Res A) ≠ Stuck ∧ lockfree s''
            end)).
  { eapply wp_mono; [by apply Hf|]. by intros [?|?|] s'' (? & ?). }
  by destruct r.
Qed.
End Safe.

Section SafeOps.
Context (env : Env).

Lemma total_modify f : (∀ s, lockfree s -> lockfree (f s)) -> total (modify f).
Proof. intros H s Hl. apply wp_modify. split; [by eexists|by apply H]. Qed.

Lemma total_upd_world f : total (upd_world f).
Proof. by apply total_modify. Qed.

Lemma total_upd_sup f : total (upd_sup f).
Proof. by apply total_modify. Qed.

Lemma safe_when (b : bool) m : safe m -> safe (when b m).
Proof. intros H. destruct b; [done|]. apply total_safe, total_ret. Qed.

Lemma total_when (b : bool) m : total m -> total (when b m).
Proof. intros H. destruct b; [done|]. apply total_ret. Qed.

Lemma total_add_event level src code msg : total (add_event env level src code msg).
Proof.
  intros s Hl. apply wp_add_event; [done|].
  split; [by eexists|by apply after_add_event_lockfree].
Qed.

Lemma total_set_status new_status : total (set_status env new_status).
Proof.
  intros s Hl. apply wp_set_status; [done|].
  split; [by eexists|by apply after_set_status_lockfree].
Qed.

Lemma total_set_process_pid name p : total (set_process_pid name p).
Proof.
  intros s Hl. apply wp_set_process_pid; [done|].
  split; [by eexists|]. by eapply quiet_lockfree, quiet_set_process_pid.
Qed.

Lemma total_start_session sid sc params : total (start_session env sid sc params).
Proof.
  intros s Hl. unfold wp. rewrite start_session_run by done.
  split; [by eexists|]. unfold lockfree in *. by destruct s as [w [] sp].
Qed.

Lemma total_sleep d0 : total (sleep d0).
Proof. apply total_upd_world. Qed.

Lemma total_print msg : total (print msg).
Proof. apply total_ret. Qed.

Lemma world_step_lockfree s s' : lockfree s -> world_step s s' -> lockfree s'.
Proof. intros Hl (A & _). unfold lockfree. by rewrite A. Qed.

Lemma total_poll p : total (poll p).
Proof.
  intros s Hl. eapply wp_mono; [apply poll_spec|]. intros r s' (? & W).
  split; [done|by eapply world_step_lockfree].
Qed.

Lemma safe_killpg p sig : safe (killpg env p sig).
Proof.
  intros s Hl. eapply wp_mono; [apply killpg_spec|]. intros r s' (? & W).
  split; [done|by eapply world_step_lockfree].
Qed.

Lemma safe_os_kill p : safe (os_kill env p).
Proof.
  unfold os_kill. destruct (os_kill_outcome env p); [apply safe_raise|].
  apply total_safe, total_upd_world.
Qed.

Lemma safe_popen role : safe (popen env role).
Proof.
  unfold popen. destruct (popen_outcome env role); [apply safe_raise|].
  apply total_safe. apply total_bind; [apply total_gets|]. intros np.
  apply total_bind; [apply total_upd_world|]. intros _. apply total_ret.
Qed.

Lemma safe_px4 c : safe (px4 env c).
Proof.
  intros s Hl. eapply wp_mono; [apply px4_spec|]. intros r s' (? & A & _).
  split; [done|]. unfold lockfree. by rewrite A.
Qed.

Lemma total_get_process name : total (get_process name).
Proof. apply total_gets. Qed.

Lemma total_set_process name v : total (set_process name v).
Proof. apply total_upd_sup. Qed.

Lemma total_stop_process name : total (_stop_process env name).
Proof.
  intros s Hl. eapply wp_mono; [by apply stop_process_spec|].
  intros r s' (-> & Q & _). split; [by eexists|by eapply quiet_lockfree].
Qed.

Lemma safe_stop_all_top : safe (stop_all env None).
Proof.
  intros s Hl. eapply wp_mono; [by apply stop_all_spec|].
  intros r s' ([] & _ & _ & _ & H & _). split; [by apply H|done].
Qed.

(** *** The start path *)

Lemma total_cleanup_except e : total (cleanup_except e).
Proof. destruct e; first [apply total_ret|apply total_print]. Qed.

Lemma total_cleanup_pids pattern pids killed_any :
  total (cleanup_pids env pattern pids killed_any).
Proof.
  revert killed_any. induction pids as [|pid_str rest IH]; intros killed_any;
    [apply total_ret|].
  cbn [cleanup_pids]. apply total_bind; [|intros b; apply IH].
  destruct (nonempty pid_str); [|apply total_ret].
  apply total_try_except.
  - destruct (py_int pid_str) as [p|]; [|apply safe_raise].
    destruct (bool_decide (p ≠ getpid env)); [|apply total_safe, total_ret].
    apply safe_bind; [apply total_safe, total_print|]. intros _.
    apply safe_bind; [apply safe_os_kill|]. intros _.
    apply safe_bind; [|intros _; apply total_safe, total_ret].
    apply safe_try_except; [apply total_safe, total_add_event|].
    intros e. apply total_safe, total_cleanup_except.
  - intros e. apply total_bind; [apply total_cleanup_except|]. intros _. apply total_ret.
Qed.

Lemma total_cleanup_patterns patterns killed_any :
  total (cleanup_patterns env patterns killed_any).
Proof.
  revert killed_any. induction patterns as [|pattern rest IH]; intros killed_any;
    [apply total_ret|].
  cbn [cleanup_patterns]. destruct (pgrep env pattern) as [e|rc out].
  - destruct e;
      first [ apply total_bind; [apply total_print|]; intros _; apply IH
            | apply total_bind; [apply total_print|]; intros _; apply total_ret ].
  - destruct (bool_decide (rc = 0%Z) && nonempty (py_strip out)); [|apply IH].
    apply total_bind; [apply total_cleanup_pids|]. intros b. apply IH.
Qed.

Lemma total_cleanup_old_processes : total (_cleanup_old_processes env).
Proof.
  unfold _cleanup_old_processes. apply total_bind; [apply total_cleanup_patterns|].
  intros [|]; [|apply total_print].
  apply total_bind; [apply total_sleep|]. intros _. apply total_print.
Qed.

Lemma total_start_prelude req : total (start_prelude env req).
Proof.
  unfold start_prelude.
  apply total_bind; [apply total_cleanup_old_processes|]. intros _.
  apply total_bind; [apply total_gets|]. intros sid.
  apply total_bind; [apply total_upd_sup|]. intros _.
  apply total_bind; [apply total_start_session|]. intros _.
  apply total_set_status.
Qed.

Lemma safe_start_link : safe (_start_virtual_elrs_link env).
Proof.
  unfold _start_virtual_elrs_link.
  apply safe_bind; [apply total_safe, total_get_process|]. intros proc.
  apply safe_bind.
  { destruct proc as [p|]; [|apply total_safe, total_ret].
    apply safe_bind; [apply total_safe, total_poll|]. intros c.
    apply total_safe, total_ret. }
  intros [|]; [apply total_safe, total_ret|].
  destruct (negb (which_socat env)).
  - apply safe_bind; [apply total_safe, total_add_event|]. intros _. apply safe_raise.
  - apply safe_bind; [apply safe_popen|]. intros p.
    apply safe_bind; [apply total_safe, total_set_process|]. intros _.
    apply total_safe, total_add_event.
Qed.

Lemma safe_start_role name label : safe (start_role env name label).
Proof.
  unfold start_role.
  apply safe_bind; [apply total_safe, total_get_process|]. intros proc.
  apply safe_bind; [apply safe_when, total_safe, total_stop_process|]. intros _.
  apply safe_bind; [apply safe_popen|]. intros p.
  apply safe_bind; [apply total_safe, total_set_process|]. intros _.
  apply safe_bind; [apply total_safe, total_set_process_pid|]. intros _.
  apply safe_bind; [apply total_safe, total_add_event|]. intros _.
  apply total_safe, total_upd_sup.
Qed.

Lemma safe_start_steps req : safe (start_steps env req).
Proof.
  unfold start_steps.
  apply safe_bind; [apply total_safe, total_add_event|]. intros _.
  apply safe_bind.
  { apply safe_try_except.
    - apply safe_bind; [apply safe_px4|]. intros _. apply total_safe, total_add_event.
    - intros e. apply total_safe, total_add_event. }
  intros _.
  apply safe_bind; [apply safe_start_link|]. intros _.
  apply safe_bind; [apply safe_start_role|]. intros _.
  apply safe_bind; [apply total_safe, total_sleep|]. intros _.
  apply safe_bind; [apply safe_start_role|]. intros _.
  apply safe_bind; [apply total_safe, total_sleep|]. intros _.
  apply safe_bind; [apply safe_start_role|]. intros _.
  apply safe_bind; [apply total_safe, total_sleep|]. intros _.
  apply safe_bind; [apply total_safe, total_set_status|]. intros _.
  apply safe_bind; [apply total_safe, total_gets|]. intros sid.
  apply total_safe, total_ret.
Qed.

Lemma safe_start_rollback e : safe (start_rollback env e).
Proof.
  unfold start_rollback.
  apply safe_bind; [apply total_safe, total_add_event|]. intros _.
  apply safe_bind; [apply safe_stop_all_top|]. intros _. apply safe_raise.
Qed.

Lemma safe_start_all req : safe (start_all env req).
Proof.
  unfold start_all.
  apply safe_bind; [apply total_safe, total_start_prelude|]. intros _.
  apply safe_try_except; [apply safe_start_steps|]. apply safe_start_rollback.
Qed.

(** *** [is_running] *)

Lemma role_running_spec name s :
  wp (role_running name) s (fun r s' => (∃ b, r = Ok b) ∧ world_step s s'
                                        ∧ next_pid (world s') = next_pid (world s)).
Proof.
  unfold role_running. apply wp_bind. apply wp_gets.
  destruct (default None _) as [p|];
    [|apply wp_ret; split; [by eauto|split; [apply world_step_refl|done]]].
  apply wp_bind. unfold wp, poll, world_step. run_m.
  destruct (pr_alive _); [|by eauto 10].
  destruct (pr_dying _) as [[|n]|]; simpl; by eauto 10.
Qed.

Lemma is_running_spec s :
  wp is_running s (fun r s' => (∃ b, r = Ok b) ∧ world_step s s'
                               ∧ next_pid (world s') = next_pid (world s)).
Proof.
  unfold is_running. apply wp_bind.
  eapply wp_mono; [apply role_running_spec|]. intros r s1 ([g ->] & W1 & N1).
  destruct g; [apply wp_ret; by eauto|].
  apply wp_bind.
  eapply wp_mono; [apply role_running_spec|]. intros r s2 ([a ->] & W2 & N2).
  assert (world_step s s2) by by eapply world_step_trans.
  destruct a; [apply wp_ret; split; [by eauto|split; [done|congruence]]|].
  eapply wp_mono; [apply role_running_spec|]. intros r s3 ([b ->] & W3 & N3).
  split; [by eauto|]. split; [by eapply world_step_trans|congruence].
Qed.

Lemma is_running_cleared s :
  roles_cleared s -> is_running s = (Ok false, s).
Proof.
  intros (G & A & R). unfold is_running, role_running, get_process, bind, gets, ret.
  fold (slot s "ground"). rewrite G. fold (slot s "air"). rewrite A.
  fold (slot s "relay"). by rewrite R.
Qed.
End SafeOps.

Section StartFacts.
Context (env : Env).

Lemma poll_eq p s :
  let pr := os_lookup (world s) (pid p) in
  poll p s =
    if pr_alive pr then
      match pr_dying pr with
      | Some O =>
          (Ok (Some (-15)%Z),
           mkSys (set_os_procs
                    (<[pid p := mkProc false (-15) (pr_output pr) (pr_term_delay pr) None]>
                       (os_procs (world s))) (world s))
                 (state s) (supervisor s))
      | Some (S n) =>
          (Ok None,
           mkSys (set_os_procs
                    (<[pid p := mkProc true (pr_exit_code pr) (pr_output pr)
                                       (pr_term_delay pr) (Some n)]>
                       (os_procs (world s))) (world s))
                 (state s) (supervisor s))
      | None => (Ok None, s)
      end
    else (Ok (Some (pr_exit_code pr)), s).
Proof.
  intros pr. subst pr. unfold poll, bind, gets.
  destruct (pr_alive _); [|done].
  by destruct (pr_dying _) as [[|n]|].
Qed.

Lemma role_running_eq name s :
  role_running name s =
    match slot s name with
    | None => (Ok false, s)
    | Some p =>
        (match (poll p s).1 with
         | Ok c => Ok (bool_decide (c = None))
         | Raise e => Raise e
         | Stuck => Stuck
         end, (poll p s).2)
    end.
Proof.
  unfold role_running, get_process. unfold bind at 1. unfold gets.
  fold (slot s name). destruct (slot s name) as [p|]; [|done].
  unfold bind. by destruct (poll p s) as [[c|e|] s'].
Qed.

Lemma role_alive_eq s name :
  role_alive s name =
    match slot s name with
    | Some p =>
        pr_alive (os_lookup (world s) (pid p))
        && negb (bool_decide (pr_dying (os_lookup (world s) (pid p)) = Some 0%nat))
    | None => false
    end.
Proof. done. Qed.

Lemma role_running_cases name s :
  (role_alive s name = true ∧ (role_running name s).1 = Ok true)
  ∨ (role_alive s name = false ∧ (role_running name s).1 = Ok false
     ∧ ∀ n, role_alive (role_running name s).2 n = role_alive s n).
Proof.
  rewrite role_running_eq, (role_alive_eq s name).
  destruct (slot s name) as [p|]; [|by right].
  rewrite poll_eq. cbv zeta.
  destruct (pr_alive (os_lookup (world s) (pid p))) eqn:Ha; [|by right].
  destruct (pr_dying (os_lookup (world s) (pid p))) as [[|n]|] eqn:Hd;
    [right|by left|by left].
  split; [done|]. split; [done|]. intros m. cbn [fst snd].
  rewrite !role_alive_eq. unfold slot. cbn [supervisor].
  destruct (default None (processes (supervisor s) !! m)) as [q|]; [|done].
  unfold os_lookup. cbn [world set_os_procs os_procs].
  destruct (decide (pid q = pid p)) as [->|Hne].
  - rewrite lookup_insert_eq. cbn [default pr_alive]. unfold os_lookup in Ha, Hd.
    by rewrite Hd, andb_false_r.
  - by rewrite lookup_insert_ne.
Qed.

Lemma is_running_active s : (is_running s).1 = Ok (run_active s).
Proof.
  unfold is_running, run_active, bind.
  destruct (role_running_cases "ground" s) as [(A & R)|(A & R & K)];
    destruct (role_running "ground" s) as [r s1]; simpl in R; subst r;
    rewrite A; [done|]. simpl in K.
  destruct (role_running_cases "air" s1) as [(A1 & R1)|(A1 & R1 & K1)];
    destruct (role_running "air" s1) as [r s2]; simpl in R1; subst r;
    rewrite <- (K "air"), A1; [done|]. simpl in K1.
  destruct (role_running_cases "relay" s2) as [(A2 & R2)|(A2 & R2 & _)];
    destruct (role_running "relay" s2) as [r s3]; simpl in R2; subst r;
    by rewrite <- (K "relay"), <- (K1 "relay"), A2.
Qed.
End StartFacts.

Section KeepsDead.
Context {A B : Type}.

Lemma keeps_dead_ret (a : A) : keeps_dead (ret a).
Proof. by intros s q H. Qed.

Lemma keeps_dead_raise e : keeps_dead (raise e : M A).
Proof. by intros s q H. Qed.

Lemma keeps_dead_gets (f : Sys -> A) : keeps_dead (gets f).
Proof. by intros s q H. Qed.

Lemma keeps_dead_bind (m : M A) (k : A -> M B) :
  keeps_dead m -> (∀ a, keeps_dead (k a)) -> keeps_dead (bind m k).
Proof.
  intros Hm Hk s q H. unfold bind. specialize (Hm s q H).
  destruct (m s) as [[a|e|] s1]; [by apply Hk|done|done].
Qed.

Lemma keeps_dead_try_except (m : M A) h :
  keeps_dead m -> (∀ e, keeps_dead (h e)) -> keeps_dead (try_except m h).
Proof.
  intros Hm Hh s q H. unfold try_except. specialize (Hm s q H).
  destruct (m s) as [[a|e|] s1]; [done|by apply Hh|done].
Qed.

Lemma keeps_dead_try_finally (m : M A) (f : M unit) :
  keeps_dead m -> keeps_dead f -> keeps_dead (try_finally m f).
Proof.
  intros Hm Hf s q H. unfold try_finally. specialize (Hm s q H).
  destruct (m s) as [r s1]. cbn [snd] in Hm. specialize (Hf s1 q Hm).
  destruct r as [a|e|]; [| |done]; by destruct (f s1) as [[[]|e'|] s2].
Qed.
End KeepsDead.

Section KeepsDeadOps.
Context (env : Env).

Lemma keeps_dead_modify f :
  (∀ s, os_procs (world (f s)) = os_procs (world s)) -> keeps_dead (modify f).
Proof. intros Hf s q H. unfold dead, os_lookup, modify. cbn [snd]. by rewrite Hf. Qed.

Lemma keeps_dead_upd_state f : keeps_dead (upd_state f).
Proof. by apply keeps_dead_modify. Qed.

Lemma keeps_dead_upd_sup f : keeps_dead (upd_sup f).
Proof. by apply keeps_dead_modify. Qed.

Lemma keeps_dead_when (b : bool) m : keeps_dead m -> keeps_dead (when b m).
Proof. intros H. destruct b; [done|apply keeps_dead_ret]. Qed.

Lemma keeps_dead_sleep d0 : keeps_dead (sleep d0).
Proof. by apply keeps_dead_modify. Qed.

Lemma keeps_dead_print msg : keeps_dead (print msg).
Proof. apply keeps_dead_ret. Qed.

Lemma keeps_dead_time_time : keeps_dead (time_time env).
Proof.
  apply keeps_dead_bind; [apply keeps_dead_gets|]. intros t.
  apply keeps_dead_bind; [by apply keeps_dead_modify|]. intros _. apply keeps_dead_ret.
Qed.

Lemma keeps_dead_call_hook h pl : keeps_dead (call_hook h pl).
Proof.
  apply keeps_dead_bind; [apply keeps_dead_gets|]. intros held.
  apply keeps_dead_bind; [by apply keeps_dead_modify|]. intros _.
  destruct (h pl); [apply keeps_dead_raise|apply keeps_dead_ret].
Qed.

Lemma keeps_dead_with_lock {A} (body : M A) : keeps_dead body -> keeps_dead (with_lock body).
Proof.
  intros Hb. apply keeps_dead_bind.
  - intros s q H. unfold acquire. destruct (lock_held (state s)); [done|].
    by apply keeps_dead_upd_state.
  - intros _. apply keeps_dead_try_finally; [done|apply keeps_dead_upd_state].
Qed.

Lemma keeps_dead_add_event level src code msg :
  keeps_dead (add_event env level src code msg).
Proof.
  apply keeps_dead_bind.
  - apply keeps_dead_with_lock.
    apply keeps_dead_bind; [apply keeps_dead_time_time|]. intros t.
    apply keeps_dead_bind; [apply keeps_dead_upd_state|]. intros _.
    apply keeps_dead_bind; [apply keeps_dead_when, keeps_dead_upd_state|]. intros _.
    apply keeps_dead_ret.
  - intros ev. apply keeps_dead_bind; [apply keeps_dead_gets|]. intros [h|].
    + apply keeps_dead_try_except; [apply keeps_dead_call_hook|].
      intros e. apply keeps_dead_print.
    + apply keeps_dead_ret.
Qed.

Lemma keeps_dead_set_status new_status : keeps_dead (set_status env new_status).
Proof.
  apply keeps_dead_bind; [|intros old; apply keeps_dead_add_event].
  apply keeps_dead_with_lock.
  apply keeps_dead_bind; [apply keeps_dead_gets|]. intros old.
  apply keeps_dead_bind; [apply keeps_dead_upd_state|]. intros _. apply keeps_dead_ret.
Qed.

Lemma keeps_dead_set_process_pid name v : keeps_dead (set_process_pid name v).
Proof. apply keeps_dead_with_lock, keeps_dead_upd_state. Qed.

Lemma keeps_dead_poll p : keeps_dead (poll p).
Proof.
  intros s q H. rewrite poll_eq. cbv zeta.
  destruct (pr_alive (os_lookup (world s) (pid p))) eqn:Ha; [|done].
  assert (q ≠ pid p) by (intros ->; unfold dead in H; congruence).
  destruct (pr_dying (os_lookup (world s) (pid p))) as [[|n]|]; [| |done];
    unfold dead, os_lookup; cbn [snd world set_os_procs os_procs];
    by rewrite lookup_insert_ne.
Qed.

Lemma deliver_dead sig pr : pr_alive pr = false -> pr_alive (deliver sig pr) = false.
Proof. intros H. unfold deliver. destruct sig; by rewrite H. Qed.

Lemma keeps_dead_killpg p sig : keeps_dead (killpg env p sig).
Proof.
  intros s q H. unfold killpg. destruct (killpg_outcome env (pid p) sig); [done|].
  unfold upd_world, modify, dead, os_lookup. cbn [snd world set_os_procs os_procs].
  destruct (decide (q = pid p)) as [->|Hne].
  - rewrite lookup_insert_eq. cbn [default]. by apply deliver_dead.
  - by rewrite lookup_insert_ne.
Qed.

Lemma keeps_dead_px4 c : keeps_dead (px4 env c).
Proof.
  apply keeps_dead_bind; [apply keeps_dead_gets|]. intros n.
  apply keeps_dead_bind; [by apply keeps_dead_modify|]. intros _.
  destruct (px4_outcome env c n); [apply keeps_dead_raise|apply keeps_dead_ret].
Qed.

Lemma keeps_dead_set_process name v : keeps_dead (set_process name v).
Proof. apply keeps_dead_upd_sup. Qed.

Lemma keeps_dead_poll_until_exit n p : keeps_dead (poll_until_exit n p).
Proof.
  induction n as [|n IH]; [apply keeps_dead_ret|]. cbn [poll_until_exit].
  apply keeps_dead_bind; [apply keeps_dead_poll|]. intros [c|]; [apply keeps_dead_ret|].
  apply keeps_dead_bind; [apply keeps_dead_sleep|]. by intros _.
Qed.

Lemma keeps_dead_wait_graceful n name p : keeps_dead (wait_graceful env n name p).
Proof.
  induction n as [|n IH]; [apply keeps_dead_ret|]. cbn [wait_graceful].
  apply keeps_dead_bind; [apply keeps_dead_poll|]. intros [c|].
  - apply keeps_dead_bind; [apply keeps_dead_add_event|]. intros _.
    apply keeps_dead_bind; [apply keeps_dead_set_process|]. intros _. apply keeps_dead_ret.
  - apply keeps_dead_bind; [apply keeps_dead_sleep|]. by intros _.
Qed.

Lemma keeps_dead_stop_process name : keeps_dead (_stop_process env name).
Proof.
  unfold _stop_process.
  apply keeps_dead_bind; [apply keeps_dead_gets|]. intros [p|]; [|apply keeps_dead_ret].
  apply keeps_dead_bind; [apply keeps_dead_poll|].
  intros [c|]; [apply keeps_dead_set_process|].
  apply keeps_dead_try_finally.
  - apply keeps_dead_try_except.
    + apply keeps_dead_bind; [apply keeps_dead_killpg|]. intros _.
      apply keeps_dead_bind; [apply keeps_dead_wait_graceful|].
      intros [|]; [apply keeps_dead_ret|].
      apply keeps_dead_bind; [apply keeps_dead_killpg|]. intros _.
      apply keeps_dead_add_event.
    + intros e. destruct e; first [apply keeps_dead_ret|apply keeps_dead_add_event].
  - apply keeps_dead_bind; [apply keeps_dead_set_process|]. intros _.
    apply keeps_dead_set_process_pid.
Qed.

Lemma keeps_dead_stop_link : keeps_dead (_stop_virtual_elrs_link env).
Proof.
  unfold _stop_virtual_elrs_link.
  apply keeps_dead_bind; [apply keeps_dead_gets|]. intros [p|]; [|apply keeps_dead_ret].
  apply keeps_dead_try_finally; [|apply keeps_dead_set_process].
  apply keeps_dead_bind; [apply keeps_dead_poll|]. intros c.
  apply keeps_dead_bind; [|intros _; apply keeps_dead_add_event].
  destruct c as [c|]; [apply keeps_dead_ret|].
  apply keeps_dead_bind; [apply keeps_dead_killpg|]. intros _.
  apply keeps_dead_bind; [apply keeps_dead_poll_until_exit|]. intros _.
  apply keeps_dead_bind; [apply keeps_dead_poll|]. intros c'.
  apply keeps_dead_when, keeps_dead_killpg.
Qed.

Lemma keeps_dead_await caller : keeps_dead (await_monitor_tasks env caller).
Proof.
  unfold await_monitor_tasks.
  apply keeps_dead_bind; [apply keeps_dead_gets|]. intros tasks.
  destruct caller as [name|]; [|apply keeps_dead_ret].
  destruct (_ && _); [by intros s q H|apply keeps_dead_ret].
Qed.

(** *** What a stop achieves *)

Lemma poll_some_dead p s c : (poll p s).1 = Ok (Some c) -> dead (poll p s).2 (pid p).
Proof.
  rewrite poll_eq. cbv zeta. unfold dead.
  destruct (pr_alive (os_lookup (world s) (pid p))) eqn:Ha; [|done].
  destruct (pr_dying (os_lookup (world s) (pid p))) as [[|n]|]; [|done|done].
  intros _. unfold os_lookup. cbn [snd world set_os_procs os_procs].
  by rewrite lookup_insert_eq.
Qed.

Lemma sigkill_dead p s :
  killpg_outcome env (pid p) SIGKILL = None -> dead (killpg env p SIGKILL s).2 (pid p).
Proof.
  intros K. unfold killpg. rewrite K.
  unfold upd_world, modify, dead, os_lookup. cbn [snd world set_os_procs os_procs].
  rewrite lookup_insert_eq. cbn [default deliver].
  destruct (pr_alive (default reaped (os_procs (world s) !! pid p))) eqn:E; [done|exact E].
Qed.

Lemma wait_graceful_dead n name p s :
  wp (wait_graceful env n name p) s (fun r s' => r = Ok true -> dead s' (pid p)).
Proof.
  revert s. induction n as [|n IH]; intros s; [done|]. cbn [wait_graceful].
  apply wp_bind. unfold wp at 1.
  pose proof (poll_some_dead p s) as Hp.
  destruct (poll p s) as [[[c|]|e|] s1]; cbn [fst snd] in *; [| |done|done].
  - specialize (Hp c eq_refl). intros _.
    assert (K : keeps_dead (add_event env "INFO" name "PROCESS_STOP"
                              (name +:+ " stopped gracefully") ;;
                            set_process name None ;; ret true)).
    { apply keeps_dead_bind; [apply keeps_dead_add_event|]. intros _.
      apply keeps_dead_bind; [apply keeps_dead_set_process|]. intros _.
      apply keeps_dead_ret. }
    by apply K.
  - apply wp_bind. unfold wp at 1. cbn [sleep upd_world modify fst snd]. apply IH.
Qed.

(** With signals that never fail, [_stop_process] leaves the process it
    found in the table dead. *)
Lemma stop_process_kills name p s :
  lockfree s -> killpg_never_raises env -> slot s name = Some p ->
  dead (_stop_process env name s).2 (pid p).
Proof.
  intros Hl K Hs.
  change (wp (_stop_process env name) s (fun _ s' => dead s' (pid p))).
  unfold _stop_process. apply wp_bind. apply wp_gets. fold (slot s name). rewrite Hs.
  apply wp_bind. unfold wp at 1.
  pose proof (poll_some_dead p s) as Hp.
  pose proof (total_poll p s Hl) as [[c0 Hc0] Hl1].
  destruct (poll p s) as [r s1]; cbn [fst snd] in *. subst r.
  destruct c0 as [c|].
  { specialize (Hp c eq_refl). by apply (keeps_dead_set_process name None s1). }
  clear Hp. apply wp_try_finally.
  assert (Hfin : ∀ (r : Res unit) s2, dead s2 (pid p) ->
            wp (set_process name None ;; set_process_pid name None) s2
               (fun r2 s3 => match r2 with
                             | Ok _ => dead s3 (pid p)
                             | Raise _ => dead s3 (pid p)
                             | Stuck => dead s3 (pid p)
                             end)).
  { intros _ s2 H2.
    assert (Kf : keeps_dead (set_process name None ;; set_process_pid name None)).
    { apply keeps_dead_bind; [apply keeps_dead_set_process|]. intros _.
      apply keeps_dead_set_process_pid. }
    specialize (Kf s2 (pid p) H2). unfold wp.
    by destruct ((set_process name None ;; set_process_pid name None) s2).1. }
  assert (Hbody : wp (try_except
             (killpg env p SIGTERM ;;
              stopped <- wait_graceful env 50 name p ;;
              if stopped : bool then ret tt else
              killpg env p SIGKILL ;;
              add_event env "WARN" name "PROCESS_KILL"
                (name +:+ " force killed (did not respond to SIGTERM)"))
             (fun e =>
                match e with
                | ProcessLookupError _ => ret tt
                | _ => add_event env "ERROR" "server" "STOP_ERROR"
                         ("Error stopping " +:+ name +:+ ": " +:+ exn_str e)
                end)) s1 (fun r s2 => r ≠ Stuck ∧ dead s2 (pid p))).
  { apply wp_try_except. apply wp_bind.
    pose proof (killpg_ok env p SIGTERM s1 (K _ _)) as Hk.
    pose proof (safe_killpg env p SIGTERM s1 Hl1) as [_ Hl2].
    unfold wp at 1. destruct (killpg env p SIGTERM s1) as [r s2]. cbn [fst snd] in *.
    subst r. apply wp_bind.
    pose proof (wait_graceful_dead 50 name p s2) as Hw.
    pose proof (wait_graceful_spec env 50 name p s2 Hl2) as (b & Hb & Q3 & _).
    unfold wp in Hw. unfold wp at 1.
    destruct (wait_graceful env 50 name p s2) as [r s3]. cbn [fst snd] in *. subst r.
    destruct b; [apply wp_ret; split; [done|by apply Hw]|].
    apply wp_bind.
    pose proof (killpg_ok env p SIGKILL s3 (K _ _)) as Hk'.
    pose proof (sigkill_dead p s3 (K _ _)) as Hd.
    pose proof (safe_killpg env p SIGKILL s3 (quiet_lockfree _ _ _ Q3)) as [_ Hl4].
    unfold wp at 1. destruct (killpg env p SIGKILL s3) as [r s4]. cbn [fst snd] in *.
    subst r. apply wp_add_event; [done|]. split; [done|]. exact Hd. }
  eapply wp_mono; [exact Hbody|]. intros r s2 (Hr & H2).
  pose proof (Hfin r s2 H2) as H.
  destruct r as [[]|e|]; [| |done]; eapply wp_mono; [exact H| |exact H|];
    by intros [[]|?|] s3.
Qed.


(** Everything a stop of one role guarantees. *)
Lemma stop_process_full name s :
  lockfree s ->
  wp (_stop_process env name) s (fun r s' =>
    r = Ok tt ∧ lockfree s' ∧ slots_but name s s'
    ∧ (∀ q, dead s q -> dead s' q)
    ∧ (killpg_never_raises env -> ∀ p, slot s name = Some p -> dead s' (pid p))).
Proof.
  intros Hl. pose proof (stop_process_spec env name s Hl) as (Hr & Q & S & _).
  split; [done|]. split; [by eapply quiet_lockfree|]. split; [done|].
  split; [intros q; apply keeps_dead_stop_process|].
  intros K p Hp. by apply stop_process_kills.
Qed.

(** [stop_all] with signals that never fail: every role process that was
    in the table has exited afterwards. *)
Lemma stop_all_kills caller s name p :
  lockfree s -> killpg_never_raises env ->
  name ∈ ["ground"; "air"; "relay"] -> slot s name = Some p ->
  dead (stop_all env caller s).2 (pid p).
Proof.
  intros Hl K Hname Hs.
  change (wp (stop_all env caller) s (fun _ s' => dead s' (pid p))).
  unfold stop_all.
  apply wp_bind. apply wp_modify.
  set (sa := mkSys (world s) (state s) (set_shutting_down true (supervisor s))).
  assert (Hla : lockfree sa) by done.
  apply wp_bind. apply wp_set_status; [done|].
  set (sb := after_set_status env "STOPPING" sa).
  assert (Hlb : lockfree sb) by by apply after_set_status_lockfree.
  assert (Sb : ∀ n, slot sb n = slot s n) by done.
  clearbody sb. clear sa Hla.
  apply wp_bind.
  assert (H1 : wp (try_except
      (px4_offboard_stop env ;;
       add_event env "INFO" "supervisor" "PX4_OFFBOARD_STOP" "PX4 offboard mode stopped" ;;
       print "[supervisor] PX4 offboard stopped")
      (fun e =>
         print "[supervisor] Failed to stop offboard" ;;
         add_event env "WARN" "supervisor" "PX4_OFFBOARD_STOP_FAIL"
           ("Failed to stop offboard: " +:+ exn_str e))) sb
      (fun r s' => r = Ok tt ∧ lockfree s' ∧ ∀ n, slot s' n = slot s n)).
  { apply wp_try_except. apply wp_bind.
    eapply wp_mono; [by apply px4_quiet|]. intros r s1 (Hr & Q1 & S1).
    assert (Hev : ∀ level src code msg,
              wp (add_event env level src code msg) s1
                 (fun r s' => r = Ok tt ∧ lockfree s' ∧ ∀ n, slot s' n = slot s n)).
    { intros. apply wp_add_event; [by eapply quiet_lockfree|].
      split; [done|]. split; [apply after_add_event_lockfree; by eapply quiet_lockfree|].
      intros n. by rewrite <- Sb, <- S1. }
    destruct r as [[]|e|]; [| |done].
    - apply wp_bind. eapply wp_mono; [apply Hev|]. by intros r s2 (-> & ?).
    - apply wp_bind. apply wp_ret. apply Hev. }
  eapply wp_mono; [exact H1|]. intros r s1 (-> & Hl1 & S1). clear H1.
  apply wp_bind. eapply wp_mono; [by apply stop_process_full|].
  intros r s2 (-> & Hl2 & B2 & M2 & K2).
  apply wp_bind. eapply wp_mono; [by apply stop_process_full|].
  intros r s3 (-> & Hl3 & B3 & M3 & K3).
  apply wp_bind. eapply wp_mono; [by apply stop_process_full|].
  intros r s4 (-> & Hl4 & B4 & M4 & K4).
  assert (H4 : dead s4 (pid p)).
  { rewrite !elem_of_cons in Hname. destruct Hname as [->|[->|[->|Hn]]].
    - apply M4, M3, (K2 K). by rewrite S1.
    - apply M4, (K3 K). by rewrite B2, S1.
    - apply (K4 K). by rewrite B3, B2, S1.
    - by apply elem_of_nil in Hn. }
  assert (Kt : keeps_dead (_stop_virtual_elrs_link env ;;
                           await_monitor_tasks env caller ;;
                           upd_sup (set_monitor_tasks []) ;;
                           sleep 0.5 ;;
                           set_status env "READY" ;;
                           upd_sup (set_shutting_down false))).
  { apply keeps_dead_bind; [apply keeps_dead_stop_link|]. intros _.
    apply keeps_dead_bind; [apply keeps_dead_await|]. intros _.
    apply keeps_dead_bind; [apply keeps_dead_upd_sup|]. intros _.
    apply keeps_dead_bind; [apply keeps_dead_sleep|]. intros _.
    apply keeps_dead_bind; [apply keeps_dead_set_status|]. intros _.
    apply keeps_dead_upd_sup. }
  by apply Kt.
Qed.
End KeepsDeadOps.

Section RollbackFacts.
Context (env : Env).

Lemma start_all_eq req s :
  start_all env req s =
    match (start_prelude env req s).1 with
    | Ok _ =>
        match (start_steps env req (start_prelude env req s).2).1 with
        | Raise e => start_rollback env e (start_steps env req (start_prelude env req s).2).2
        | Ok sid => (Ok sid, (start_steps env req (start_prelude env req s).2).2)
        | Stuck => (Stuck, (start_steps env req (start_prelude env req s).2).2)
        end
    | Raise e => (Raise e, (start_prelude env req s).2)
    | Stuck => (Stuck, (start_prelude env req s).2)
    end.
Proof.
  unfold start_all, bind, try_except.
  destruct (start_prelude env req s) as [[[]|e|] s1]; [|done..].
  cbn [fst snd]. by destruct (start_steps env req s1) as [[sid|e|] s2].
Qed.

Lemma start_rollback_eq e s :
  lockfree s ->
  let s3 := after_add_event env "ERROR" "server" "START_FAIL"
              ("Experiment start failed: " +:+ exn_str e) s in
  start_rollback env e s =
    (match (stop_all env None s3).1 with
     | Ok _ => Raise (RuntimeError ("Failed to start experiment: " +:+ exn_str e))
     | Raise e' => Raise e'
     | Stuck => Stuck
     end, (stop_all env None s3).2).
Proof.
  intros Hl s3. unfold start_rollback. unfold bind at 1. rewrite add_event_run by done.
  fold s3. unfold bind, raise. by destruct (stop_all env None s3) as [[[]|e'|] s4].
Qed.
Lemma rollback_facts e s :
  lockfree s ->
  let out := start_rollback env e s in
  (∃ e', out.1 = Raise e')
  ∧ out.2 = (stop_all env None
               (after_add_event env "ERROR" "server" "START_FAIL"
                  ("Experiment start failed: " +:+ exn_str e) s)).2
  ∧ roles_cleared out.2
  ∧ is_running out.2 = (Ok false, out.2)
  ∧ (killpg_never_raises env ->
       out.1 = Raise (RuntimeError ("Failed to start experiment: " +:+ exn_str e))
       ∧ status (state out.2) = "READY"
       ∧ _shutting_down (supervisor out.2) = false
       ∧ ∀ name p, name ∈ ["ground"; "air"; "relay"] -> slot s name = Some p ->
                   dead out.2 (pid p)).
Proof.
  intros Hl out. subst out. rewrite start_rollback_eq by done.
  set (s3 := after_add_event env "ERROR" "server" "START_FAIL"
               ("Experiment start failed: " +:+ exn_str e) s).
  assert (Hl3 : lockfree s3) by by apply after_add_event_lockfree.
  pose proof (stop_all_spec env None s3 Hl3) as (E & R & HOk & HNo & HSt & HK).
  assert (HD : killpg_never_raises env ->
               ∀ name p, name ∈ ["ground"; "air"; "relay"] -> slot s name = Some p ->
                         dead (stop_all env None s3).2 (pid p)).
  { intros K name p Hn Hs. by apply (stop_all_kills env None s3 name p). }
  clearbody s3. cbn [fst snd].
  split.
  { specialize (HSt eq_refl). destruct (stop_all env None s3).1 as [[]|e'|]; by eauto. }
  split; [done|]. split; [done|].
  split; [by apply is_running_cleared|].
  intros K. assert (HR : (stop_all env None s3).1 = Ok tt) by by apply HK.
  rewrite HR. split; [done|]. destruct (HOk HR) as [H1 H2].
  split; [done|]. split; [done|]. by apply HD.
Qed.
End RollbackFacts.

(** C4.  [POST /ramp/start] first asks [is_running], which answers whether
    some role process has not exited.  When it does, the request is refused
    with HTTP 400 "Ramp already in progress." and nothing else runs: the
    final state is the one the check left, with the process table, the
    store (session record, status, events) and the supervisor as before and
    no process spawned.  When no role process is alive, the request is not
    refused for that reason. *)
Theorem second_start_rejected (env : Env) (req : RampStartRequest) (s : Sys) :
  let chk := is_running s in
  let out := start_ramp env req s in
  chk.1 = Ok (run_active s)
  ∧ (run_active s = true ->
       out = (Raise already_running, chk.2)
       ∧ processes (supervisor out.2) = processes (supervisor s)
       ∧ supervisor out.2 = supervisor s
       ∧ state out.2 = state s
       ∧ next_pid (world out.2) = next_pid (world s)
       ∧ px4_calls (world out.2) = px4_calls (world s))
  ∧ (run_active s = false -> lockfree s ->
       out.1 ≠ Raise already_running ∧ out.1 ≠ Stuck).
Proof.
  intros chk out. subst chk out.
  pose proof (is_running_active s) as Hchk.
  pose proof (is_running_spec s) as (_ & (St & Sp & Px) & Np).
  unfold start_ramp, bind.
  destruct (is_running s) as [r s1]. cbn [fst snd] in *. subst r.
  split; [done|]. split.
  - intros Hact. rewrite Hact. cbn [fst snd raise]. by rewrite Sp.
  - intros Hact Hl. rewrite Hact.
    assert (Hl1 : lockfree s1) by (unfold lockfree; by rewrite St).
    destruct (Qltb MAX_POWER_W (max_power_w req)); [done|].
    assert (S : safe (try_except (start_all env req)
                (fun e =>
                   add_event env "ERROR" "server" "START_FAILED"
                     ("Failed to start ramp: " +:+ exn_str e) ;;
                   raise (HTTPException 500 (exn_str e))))).
    { apply safe_try_except; [apply safe_start_all|]. intros e.
      apply safe_bind; [apply total_safe, total_add_event|]. intros _. apply safe_raise. }
    split; [|by apply (S s1 Hl1)].
    unfold try_except.
    pose proof (safe_start_all env req s1 Hl1) as [Hr Hl2].
    destruct (start_all env req s1) as [[sid|e|] s2]; [done| |done].
    cbn [snd] in Hl2. unfold bind. rewrite add_event_run by done. done.
Qed.

Lemma second_start_rejected_witness :
  (start_ramp demo_env demo_request demo_sys).1 = Ok "20250101_000000"
  ∧ (start_ramp demo_env demo_request started_sys).1 = Raise already_running
  ∧ status (state (start_ramp demo_env demo_request started_sys).2) = "RAMPING".
Proof.
  destruct (second_start_rejected demo_env demo_request started_sys) as (_ & H & _).
  destruct H as (H1 & _ & _ & H2 & _); [by vm_compute|].
  split; [by vm_compute|]. split; [exact (f_equal fst H1)|].
  rewrite H2. by vm_compute.
Defined.

(** C2.  The steps before the [try] block (cleanup of stale processes,
    session reset, status CONNECTING) do not raise.  When a later step
    raises [e], [start_all] logs START_FAIL and runs [stop_all]: it never
    returns a session id but raises; its final state is the one [stop_all]
    leaves, in which no role has a process and [is_running] answers no.
    When signalling a process group never fails, the exception raised is the
    start failure built from [e], the status is READY, the shutting-down
    flag is clear, and every role process that had been started has
    exited. *)
Theorem start_all_rollback (env : Env) (req : RampStartRequest) (s : Sys) (e : exn) :
  lockfree s ->
  let s1 := (start_prelude env req s).2 in
  let s2 := (start_steps env req s1).2 in
  let out := start_all env req s in
  (start_steps env req s1).1 = Raise e ->
  (start_prelude env req s).1 = Ok tt
  ∧ out = start_rollback env e s2
  ∧ (∃ e', out.1 = Raise e')
  ∧ out.2 = (stop_all env None
               (after_add_event env "ERROR" "server" "START_FAIL"
                  ("Experiment start failed: " +:+ exn_str e) s2)).2
  ∧ roles_cleared out.2
  ∧ is_running out.2 = (Ok false, out.2)
  ∧ (killpg_never_raises env ->
       out.1 = Raise (RuntimeError ("Failed to start experiment: " +:+ exn_str e))
       ∧ status (state out.2) = "READY"
       ∧ _shutting_down (supervisor out.2) = false
       ∧ ∀ name p, name ∈ ["ground"; "air"; "relay"] -> slot s2 name = Some p ->
                   dead out.2 (pid p)).
Proof.
  intros Hl s1 s2 out Hsteps.
  pose proof (total_start_prelude env req s Hl) as Hpre.
  assert (Hp : (start_prelude env req s).1 = Ok tt).
  { destruct Hpre as [[[] Hp] _]. exact Hp. }
  assert (Hl1 : lockfree s1) by (destruct Hpre as [_ H]; exact H).
  assert (Hl2 : lockfree s2) by (destruct (safe_start_steps env req s1 Hl1) as [_ H]; exact H).
  assert (Hout : out = start_rollback env e s2).
  { unfold out. rewrite start_all_eq, Hp. fold s1. rewrite Hsteps. reflexivity. }
  split; [exact Hp|]. split; [exact Hout|].
  rewrite Hout. exact (rollback_facts env e s2 Hl2).
Qed.

Lemma start_all_rollback_witness :
  lockfree demo_sys
  ∧ (start_all noair_env demo_request demo_sys).1
    = Raise (RuntimeError "Failed to start experiment: python3")
  ∧ status (state (start_all noair_env demo_request demo_sys).2) = "READY"
  ∧ dead (start_all noair_env demo_request demo_sys).2 101.
Proof.
  split; [reflexivity|].
  destruct (start_all_rollback noair_env demo_request demo_sys
              (FileNotFoundError "python3")) as (_ & _ & _ & _ & _ & _ & H);
    [reflexivity|by vm_compute|].
  destruct H as (H1 & H2 & _ & H3); [done|]. split; [exact H1|]. split; [exact H2|].
  assert (Hin : "relay" ∈ ["ground"; "air"; "relay"]) by (by apply (bool_decide_unpack _)).
  assert (Hs : slot (start_steps noair_env demo_request
                       (start_prelude noair_env demo_request demo_sys).2).2 "relay"
               = Some (mkPopen 101)) by (by vm_compute).
  exact (H3 "relay" (mkPopen 101) Hin Hs).
Defined.

Section Grows.




Lemma grows_lockfree k s s' : grows k s s' -> lockfree s'.
Proof. by intros [? _]. Qed.
End Grows.

Section Px4Result.
Context (env : Env).

End Px4Result.

Section CrashFacts.
Context (env : Env) (p : Popen) (s : Sys) (c : Z).
Context (Hl : lockfree s).
Context (Hdead : pr_alive (os_lookup (world s) (pid p)) = false).
Context (Hcode : pr_exit_code (os_lookup (world s) (pid p)) = c).
Context (Hnz : c ≠ 0%Z).














End CrashFacts.

Section Calm.
Context {A B : Type}.

Lemma undisturbed_refl s : undisturbed s s.
Proof. done. Qed.

Lemma undisturbed_trans s s1 s2 :
  undisturbed s s1 -> undisturbed s1 s2 -> undisturbed s s2.
Proof.
  intros (A1 & B1 & C1 & D1) (A2 & B2 & C2 & D2).
  split; [congruence|]. split; [congruence|]. split; [congruence|].
  intros q. destruct (D1 q), (D2 q). split; congruence.
Qed.

Lemma calm_ret (a : A) : calm (ret a).
Proof. intros s. apply undisturbed_refl. Qed.

Lemma calm_raise e : calm (raise e : M A).
Proof. intros s. apply undisturbed_refl. Qed.

Lemma calm_gets (f : Sys -> A) : calm (gets f).
Proof. intros s. apply undisturbed_refl. Qed.

Lemma calm_bind (m : M A) (k : A -> M B) :
  calm m -> (∀ a, calm (k a)) -> calm (bind m k).
Proof.
  intros Hm Hk s. unfold bind. specialize (Hm s).
  destruct (m s) as [[a|e|] s1]; [|done|done].
  eapply undisturbed_trans; [exact Hm|apply Hk].
Qed.

Lemma calm_try_except (m : M A) h :
  calm m -> (∀ e, calm (h e)) -> calm (try_except m h).
Proof.
  intros Hm Hh s. unfold try_except. specialize (Hm s).
  destruct (m s) as [[a|e|] s1]; [done| |done].
  eapply undisturbed_trans; [exact Hm|apply Hh].
Qed.

Lemma calm_try_finally (m : M A) (f : M unit) :
  calm m -> calm f -> calm (try_finally m f).
Proof.
  intros Hm Hf s. unfold try_finally. specialize (Hm s).
  destruct (m s) as [r s1]. cbn [snd] in Hm. specialize (Hf s1).
  assert (undisturbed s (f s1).2) by by eapply undisturbed_trans.
  destruct r as [a|e|]; [| |done]; by destruct (f s1) as [[[]|e'|] s2].
Qed.
End Calm.

Section CalmOps.
Context (env : Env).

Lemma calm_modify f : (∀ s, undisturbed s (f s)) -> calm (modify f).
Proof. intros Hf s. apply Hf. Qed.

Lemma calm_upd_state f : (∀ st, status (f st) = status st) -> calm (upd_state f).
Proof.
  intros Hf. apply calm_modify. intros s.
  split; [done|]. split; [apply Hf|]. by split.
Qed.

Lemma calm_when (b : bool) m : calm m -> calm (when b m).
Proof. intros H. destruct b; [done|apply calm_ret]. Qed.


Lemma calm_print msg : calm (print msg).
Proof. apply calm_ret. Qed.

Lemma calm_time_time : calm (time_time env).
Proof.
  apply calm_bind; [apply calm_gets|]. intros t.
  apply calm_bind; [by apply calm_modify|]. intros _. apply calm_ret.
Qed.

Lemma calm_call_hook h pl : calm (call_hook h pl).
Proof.
  apply calm_bind; [apply calm_gets|]. intros held.
  apply calm_bind; [by apply calm_modify|]. intros _.
  destruct (h pl); [apply calm_raise|apply calm_ret].
Qed.

Lemma calm_with_lock {A} (body : M A) : calm body -> calm (with_lock body).
Proof.
  intros Hb. apply calm_bind.
  - intros s. unfold acquire. destruct (lock_held (state s)); [done|].
    apply calm_upd_state. by intros [].
  - intros _. apply calm_try_finally; [done|]. apply calm_upd_state. by intros [].
Qed.

Lemma calm_add_event level src code msg : calm (add_event env level src code msg).
Proof.
  apply calm_bind.
  - apply calm_with_lock.
    apply calm_bind; [apply calm_time_time|]. intros t.
    apply calm_bind; [apply calm_upd_state; by intros []|]. intros _.
    apply calm_bind; [apply calm_when, calm_upd_state; by intros []|]. intros _.
    apply calm_ret.
  - intros ev. apply calm_bind; [apply calm_gets|]. intros [h|].
    + apply calm_try_except; [apply calm_call_hook|]. intros e. apply calm_print.
    + apply calm_ret.
Qed.







(** *** The read loop of the ground monitor *)








End CalmOps.

Section MonitorFacts.
Context (env : Env).







Section Crash.
Context (p : Popen) (s : Sys) (c : Z).
Context (Hl : lockfree s).
Context (Hs : slot s "ground" = Some p).
Context (Hdead : pr_alive (os_lookup (world s) (pid p)) = false).
Context (Hcode : pr_exit_code (os_lookup (world s) (pid p)) = c).
Context (Hnz : c ≠ 0%Z).


End Crash.
End MonitorFacts.




(** ** Further properties of the code *)

(** X1.  [update_telemetry] overwrites the entries of [data] in the telemetry
    dictionary and keeps every other entry, stamps the update time, and
    appends the round-trip time to the sample buffer exactly when it is a
    positive number.  When [rtt_ms] is present but no number, the comparison
    raises a [TypeError] after the entries have been merged: the update is
    not undone, and the lock is free again. *)
Theorem update_telemetry_merge (env : Env) (s : Sys) (data : dict) :
  lockfree s ->
  let out := update_telemetry env data s in
  lockfree out.2
  ∧ (∀ k v, data !! k = Some v -> telemetry (state out.2) !! k = Some v)
  ∧ (∀ k, data !! k = None -> telemetry (state out.2) !! k = telemetry (state s) !! k)
  ∧ last_telemetry_ts (state out.2) = now env s
  ∧ events (state out.2) = events (state s)
  ∧ status (state out.2) = status (state s)
  ∧ match data !! "rtt_ms" with
    | None => out.1 = Ok tt ∧ rtt_samples (state out.2) = rtt_samples (state s)
    | Some v =>
        match value_num v with
        | None => (∃ msg, out.1 = Raise (TypeError msg))
                  ∧ rtt_samples (state out.2) = rtt_samples (state s)
        | Some x =>
            out.1 = Ok tt
            ∧ rtt_samples (state out.2)
              = if Qltb 0 x then deque_append RTT_MAXLEN x (rtt_samples (state s))
                else rtt_samples (state s)
        end
    end.
Proof.
  intros Hl out. subst out.
  assert (Ht : telemetry (state (update_telemetry env data s).2) = data ∪ telemetry (state s)).
  { by destruct (update_telemetry_cases env data s Hl) as (_ & _ & _ & H & _). }
  split; [by destruct (update_telemetry_cases env data s Hl)|].
  split; [intros k v Hk; rewrite Ht; by apply lookup_union_Some_l|].
  split; [intros k Hk; rewrite Ht; by apply lookup_union_r|].
  clear Ht. unfold lockfree, now in *. destruct s as [w st sp]. destruct st, w.
  simpl in Hl. subst. unfold update_telemetry. run_m.
  destruct (data !! "rtt_ms") as [v|]; run_m; [|done].
  destruct (value_num v) as [x|]; run_m; [|by eauto 10].
  destruct (Qltb 0 x); by run_m.
Qed.

Lemma update_telemetry_merge_witness :
  lockfree demo_sys
  ∧ telemetry (state (update_telemetry demo_env broken_reading demo_sys).2) !! "commanded_w"
    = Some (VFloat 225).
Proof.
  split; [reflexivity|].
  destruct (update_telemetry_merge demo_env demo_sys broken_reading) as (_ & H & _);
    [reflexivity|].
  apply H. by vm_compute.
Defined.

Section StoreMoreFacts.
Context (env : Env).

Lemma get_telemetry_snapshot_run s :
  lockfree s -> get_telemetry_snapshot s = (Ok (telemetry (state s)), s).
Proof.
  unfold lockfree. destruct s as [w st sp]. destruct st. simpl. intros ->. reflexivity.
Qed.

Lemma update_laser_telemetry_run laser_data s :
  lockfree s ->
  update_laser_telemetry laser_data s =
    match dict_get laser_data "status_flags" (VDict ∅) with
    | VDict status_flags =>
        (Ok tt,
         mkSys (world s)
           (set_telemetry
              (list_to_map [
                 ("laser_connected", dict_get laser_data "connected" (VBool false));
                 ("laser_avg_power_w", dict_get laser_data "avg_power_w" (VFloat 0));
                 ("laser_peak_power_w", dict_get laser_data "peak_power_w" (VFloat 0));
                 ("laser_commanded_w", dict_get laser_data "commanded_w" (VFloat 0));
                 ("laser_case_temperature_c",
                  dict_get laser_data "case_temperature_c" (VFloat 0));
                 ("laser_board_temperature_c",
                  dict_get laser_data "board_temperature_c" (VFloat 0));
                 ("laser_setpoint_pct", dict_get laser_data "setpoint_pct" (VFloat 0));
                 ("laser_status_flags", VDict status_flags);
                 ("laser_status_word", dict_get laser_data "status_word" (VInt 0));
                 ("laser_device_id", dict_get laser_data "device_id" (VStr "Unknown"));
                 ("laser_firmware_revision",
                  dict_get laser_data "firmware_revision" (VStr "Unknown"));
                 ("laser_emission_on", dict_get status_flags "emission_on" (VBool false));
                 ("laser_power_supply_on",
                  dict_get status_flags "power_supply_on" (VBool false));
                 ("laser_alarm_critical",
                  dict_get status_flags "alarm_critical" (VBool false));
                 ("laser_alarm_overheat",
                  dict_get status_flags "alarm_overheat" (VBool false));
                 ("laser_error", dict_get laser_data "error" VNone);
                 ("laser_output_power_w", dict_get laser_data "avg_power_w" (VFloat 0));
                 ("laser_temperature_c",
                  dict_get laser_data "case_temperature_c" (VFloat 0))]
               ∪ telemetry (state s)) (state s))
           (supervisor s))
    | _ => (Raise (AttributeError "object has no attribute 'get'"), s)
    end.
Proof.
  unfold lockfree. destruct s as [w st sp]. destruct st. simpl. intros ->.
  unfold update_laser_telemetry.
  by destruct (dict_get laser_data "status_flags" (VDict ∅)).
Qed.
End StoreMoreFacts.

(** The first matching entry of an association list wins in the dictionary
    built from it. *)
Ltac lookup_literal :=
  unfold list_to_map; cbn [foldr uncurry fst snd];
  repeat (rewrite lookup_insert_ne by done); by rewrite lookup_insert_eq.



Section StatusFacts.
Context (env : Env).

Lemma set_status_entry new_status s :
  status_entry
    (event_of env (mkSys (world s) (set_status_field new_status (state s)) (supervisor s))
       "INFO" "server" "STATUS_CHANGE"
       ("Status changed from " +:+ status (state s) +:+ " to " +:+ new_status))
    (status (state s)) new_status.
Proof. done. Qed.

Lemma set_status_chain news s :
  lockfree s ->
  let out := for_each news (set_status env) s in
  out.1 = Ok tt
  ∧ lockfree out.2
  ∧ status (state out.2) = default (status (state s)) (last news)
  ∧ errors (state out.2) = errors (state s)
  ∧ ∃ evs, events (state out.2) = deque_extend EVENTS_MAXLEN evs (events (state s))
           ∧ Forall2 (fun e t => status_entry e t.1 t.2) evs
                     (transitions (status (state s)) news).
Proof.
  revert s. induction news as [|new news IH]; intros s Hl.
  { cbn. split; [done|]. split; [done|]. split; [done|]. split; [done|].
    exists []. by split. }
  cbn [for_each]. unfold bind. rewrite set_status_run by done.
  set (s1 := after_set_status env new s).
  assert (Hl1 : lockfree s1) by by apply after_set_status_lockfree.
  assert (S1 : status (state s1) = new) by apply status_after_set_status.
  destruct (IH s1 Hl1) as (Hr & Hl' & Hs & He & evs & Hev & Hch).
  cbv zeta. split; [exact Hr|]. split; [exact Hl'|].
  split.
  { rewrite Hs, S1. destruct news as [|n' news']; [done|].
    rewrite last_cons_cons. destruct (last (n' :: news')) eqn:E; [done|].
    by apply last_None in E. }
  split; [rewrite He; subst s1; by destruct s as [w [] sp]|].
  exists (event_of env (mkSys (world s) (set_status_field new (state s)) (supervisor s))
            "INFO" "server" "STATUS_CHANGE"
            ("Status changed from " +:+ status (state s) +:+ " to " +:+ new) :: evs).
  split.
  - rewrite Hev. subst s1. by destruct s as [w [] sp].
  - cbn [transitions]. constructor; [apply set_status_entry|]. by rewrite <- S1.
Qed.
End StatusFacts.

(** X3.  Every status change is logged with the status it replaces: after
    any run of [set_status] calls the status is the last one set, and the
    entries appended to the event buffer are, in order, one INFO entry
    STATUS_CHANGE per call whose message names the previous and the new
    status (cut to 200 characters), so that each entry starts from the
    status the entry before it ended in.  The error buffer is untouched. *)
Theorem status_changes_chain (env : Env) (s : Sys) (news : list string) :
  lockfree s ->
  let out := for_each news (set_status env) s in
  out.1 = Ok tt
  ∧ status (state out.2) = default (status (state s)) (last news)
  ∧ errors (state out.2) = errors (state s)
  ∧ ∃ evs, events (state out.2) = deque_extend EVENTS_MAXLEN evs (events (state s))
           ∧ Forall2 (fun e t => status_entry e t.1 t.2) evs
                     (transitions (status (state s)) news).
Proof.
  intros Hl out.
  destruct (set_status_chain env news s Hl) as (H1 & _ & H2 & H3 & H4). done.
Qed.

Lemma status_changes_chain_witness :
  lockfree demo_sys
  ∧ status (state (for_each ["CONNECTING"; "RAMPING"] (set_status demo_env) demo_sys).2)
    = "RAMPING".
Proof.
  split; [reflexivity|].
  destruct (status_changes_chain demo_env demo_sys ["CONNECTING"; "RAMPING"])
    as (_ & H & _); [reflexivity|].
  exact H.
Defined.

Section DurationFacts.
Context (env : Env).

Lemma get_session_duration_run s :
  lockfree s ->
  get_session_duration env s =
    if Qeq_bool (session_start_time (state s)) 0 then (Ok 0%Q, s)
    else (Ok (now env s - session_start_time (state s))%Q,
          mkSys (mkWorld (S (ticks (world s))) (os_procs (world s)) (next_pid (world s))
                         (px4_calls (world s)) (hook_calls (world s)) (sleeps (world s)))
                (state s) (supervisor s)).
Proof.
  unfold lockfree, now. destruct s as [w st sp]. destruct st, w. simpl. intros ->.
  unfold get_session_duration. run_m.
  by destruct (Qeq_bool _ 0).
Qed.
End DurationFacts.

(** X4.  The session duration asked for right after [start_session] is the
    time the clock advanced between the two readings, hence never negative
    under a clock that does not run backwards; nothing but the clock is
    touched by the query.  A session whose start was stamped with clock
    reading 0 is taken for no session at all: its duration is reported as 0
    whatever the clock says. *)
Theorem session_duration_after_start (env : Env) (s : Sys) (sid sc : string) (params : dict) :
  lockfree s ->
  let t0 := time_at env (ticks (world s)) in
  let t1 := time_at env (S (ticks (world s))) in
  let started := (start_session env sid sc params s).2 in
  let out := (start_session env sid sc params ;; get_session_duration env) s in
  ∃ d, out.1 = Ok d
       ∧ state out.2 = state started
       ∧ (Qeq_bool t0 0 = false -> d = (t1 - t0)%Q)
       ∧ (Qeq_bool t0 0 = true -> d = 0%Q)
       ∧ (monotone_clock env -> (0 <= d)%Q).
Proof.
  intros Hl t0 t1 started out. subst out started. unfold bind.
  rewrite start_session_run by done.
  set (s1 := mkSys _ _ _).
  assert (Hl1 : lockfree s1).
  { subst s1. unfold lockfree in *. by destruct s as [w [] sp]. }
  assert (Ht : session_start_time (state s1) = t0).
  { subst s1 t0. unfold now. by destruct s as [w [] sp]. }
  rewrite get_session_duration_run by done. rewrite Ht.
  destruct (Qeq_bool t0 0) eqn:E.
  - exists 0%Q. cbn [fst snd]. split; [done|]. split; [done|].
    split; [done|]. split; [done|]. intros _. apply Qle_refl.
  - exists (t1 - t0)%Q. cbn [fst snd]. split; [done|]. split; [done|].
    split; [done|]. split; [done|].
    intros Hm. specialize (Hm (ticks (world s)) (S (ticks (world s)))).
    fold t0 t1 in Hm. assert (t0 <= t1)%Q by (apply Hm; lia). lra.
Qed.

Lemma session_duration_after_start_witness :
  lockfree demo_sys
  ∧ ((start_session demo_env "20250101_000000" "Hover" ∅ ;; get_session_duration demo_env)
       demo_sys).1 = Ok 1%Q.
Proof.
  split; [reflexivity|].
  destruct (session_duration_after_start demo_env demo_sys "20250101_000000" "Hover" ∅)
    as (d & H1 & _ & H2 & _); [reflexivity|].
  rewrite H1. f_equal. rewrite H2 by reflexivity. reflexivity.
Defined.

(** X5.  What [update_telemetry] has merged is what the next snapshot
    returns: when the update does not raise, the dictionary
    [get_telemetry_snapshot] hands out holds every entry of [data], keeps
    every other entry of the telemetry, and equals the stored telemetry. *)
Theorem telemetry_round_trip (env : Env) (s : Sys) (data : dict) :
  lockfree s ->
  (∀ v, data !! "rtt_ms" = Some v -> is_Some (value_num v)) ->
  let out := (update_telemetry env data ;; get_telemetry_snapshot) s in
  ∃ snap, out.1 = Ok snap
          ∧ (∀ k v, data !! k = Some v -> snap !! k = Some v)
          ∧ (∀ k, data !! k = None -> snap !! k = telemetry (state s) !! k)
          ∧ telemetry (state out.2) = snap.
Proof.
  intros Hl Hv out. subst out. unfold bind.
  rewrite update_telemetry_run by done.
  rewrite get_telemetry_snapshot_run by by apply after_update_telemetry_lockfree.
  exists (data ∪ telemetry (state s)). cbn [fst snd].
  split; [by rewrite telemetry_after_update|].
  split; [intros k v Hk; by apply lookup_union_Some_l|].
  split; [intros k Hk; by apply lookup_union_r|].
  apply telemetry_after_update.
Qed.

Lemma telemetry_round_trip_witness :
  lockfree demo_sys
  ∧ ∃ snap, ((update_telemetry demo_env sample_reading ;; get_telemetry_snapshot) demo_sys).1
            = Ok snap
            ∧ snap !! "rtt_ms" = Some (VFloat (69 # 2)).
Proof.
  split; [reflexivity|].
  destruct (telemetry_round_trip demo_env demo_sys sample_reading)
    as (snap & H1 & H2 & _); [reflexivity| |].
  - intros v Hv. apply (bool_decide_unpack _). revert Hv. by vm_compute; intros [= <-].
  - exists snap. split; [exact H1|]. apply H2. by vm_compute.
Defined.

Section DecoderFacts.
Import LaserStatusDecoder.

Lemma bit_testbit w n : (0 <= n)%Z -> bit w n = VBool (Z.testbit w n).
Proof.
  intros Hn. unfold bit. f_equal. rewrite Z.testbit_odd.
  change (Z.land (Z.shiftr w n) 1) with (Z.land (Z.shiftr w n) (Z.ones 1)).
  rewrite (Z.land_ones (Z.shiftr w n) 1) by lia.
  change (2 ^ 1)%Z with 2%Z. rewrite Zmod_odd.
  by destruct (Z.odd (Z.shiftr w n)).
Qed.

Lemma decode_table w :
  decode_status_word w
  = list_to_map ((fun kn : string * Z => (kn.1, VBool (Z.testbit w kn.2))) <$> flag_bits).
Proof.
  unfold decode_status_word, flag_bits. cbn [fmap list_fmap fst snd].
  by rewrite !bit_testbit by lia.
Qed.
End DecoderFacts.

Section DecoderFacts2.
Import LaserStatusDecoder.

Lemma flag_bits_nodup : NoDup flag_bits.*1.
Proof. apply (bool_decide_unpack _). by vm_compute. Qed.

Lemma flag_bits_nonneg k n : (k, n) ∈ flag_bits -> (0 <= n)%Z.
Proof.
  intros H. assert (Hall : Forall (fun kn : string * Z => (0 <= kn.2)%Z) flag_bits).
  { unfold flag_bits. repeat constructor; cbn; lia. }
  rewrite Forall_forall in Hall. by apply (Hall (k, n)).
Qed.

Lemma decode_lookup w k n :
  (k, n) ∈ flag_bits -> decode_status_word w !! k = Some (VBool (Z.testbit w n)).
Proof.
  intros H. rewrite decode_table. apply elem_of_list_to_map_1.
  - rewrite <- list_fmap_compose.
    replace (fst ∘ (fun kn : string * Z => (kn.1, VBool (Z.testbit w kn.2)))) with
      (fst : string * Z -> string) by done.
    apply flag_bits_nodup.
  - apply (list_elem_of_fmap_2 (fun kn : string * Z => (kn.1, VBool (Z.testbit w kn.2)))
             flag_bits (k, n) H).
Qed.

Lemma decode_lookup_None w k :
  k ∉ flag_bits.*1 -> decode_status_word w !! k = None.
Proof.
  intros H. rewrite decode_table. apply not_elem_of_list_to_map_1.
  rewrite <- list_fmap_compose.
  by replace (fst ∘ (fun kn : string * Z => (kn.1, VBool (Z.testbit w kn.2)))) with
    (fst : string * Z -> string) by done.
Qed.
End DecoderFacts2.

(** X6.  [decode_status_word] shows, for every integer (Python's integers
    are unbounded and may be negative), under each of its 25 flag names the
    bit of the status word the specification assigns to it, and has no
    other key. *)
Theorem decode_status_word_bits (w : Z) :
  (∀ k n, (k, n) ∈ flag_bits ->
          LaserStatusDecoder.decode_status_word w !! k = Some (VBool (Z.testbit w n)))
  ∧ (∀ k, k ∉ flag_bits.*1 -> LaserStatusDecoder.decode_status_word w !! k = None)
  ∧ length flag_bits = 25
  ∧ size (dom (LaserStatusDecoder.decode_status_word w)) = 25.
Proof.
  split; [intros k n; apply decode_lookup|].
  split; [apply decode_lookup_None|]. split; [done|].
  rewrite decode_table, dom_list_to_map_L, <- list_fmap_compose.
  replace (fst ∘ (fun kn : string * Z => (kn.1, VBool (Z.testbit w kn.2)))) with
    (fst : string * Z -> string) by done.
  by vm_compute.
Qed.

(** X7.  Two status words decode to the same flags exactly when they agree
    on the 25 bits that are shown.  So the decoder ignores everything above
    bit 31 (a word and its residue modulo 2^32 decode alike), and flipping
    one of the seven bits no flag shows (6, 13, 14, 15, 20, 21, 26) changes
    nothing. *)
Theorem decode_status_word_agree (w w' : Z) :
  (LaserStatusDecoder.decode_status_word w = LaserStatusDecoder.decode_status_word w'
   ↔ ∀ n, n ∈ flag_bits.*2 -> Z.testbit w n = Z.testbit w' n)
  ∧ LaserStatusDecoder.decode_status_word (w mod 2 ^ 32)
    = LaserStatusDecoder.decode_status_word w
  ∧ (∀ b, b ∈ unused_bits ->
          LaserStatusDecoder.decode_status_word (Z.lxor w (2 ^ b))
          = LaserStatusDecoder.decode_status_word w).
Proof.
  assert (Hagree : ∀ u v, (∀ n, n ∈ flag_bits.*2 -> Z.testbit u n = Z.testbit v n) ->
            LaserStatusDecoder.decode_status_word u = LaserStatusDecoder.decode_status_word v).
  { intros u v H. rewrite !decode_table. f_equal.
    apply list_fmap_ext. intros i [k n] Hi. cbn. do 2 f_equal.
    apply H. apply list_elem_of_fmap. exists (k, n). split; [done|].
    by eapply list_elem_of_lookup_2. }
  split; [split; [|apply Hagree]|split].
  - intros Heq n Hn. apply list_elem_of_fmap in Hn as ([k n'] & -> & Hin).
    pose proof (decode_lookup w k n' Hin) as H1.
    pose proof (decode_lookup w' k n' Hin) as H2.
    rewrite Heq in H1. rewrite H1 in H2. by injection H2.
  - apply Hagree. intros n Hn.
    assert (0 <= n < 32)%Z.
    { revert n Hn. apply Forall_forall. unfold flag_bits.
      repeat constructor; cbn; lia. }
    apply Z.mod_pow2_bits_low. lia.
  - intros b Hb. apply Hagree. intros n Hn.
    assert (0 <= n)%Z.
    { revert n Hn. apply Forall_forall. unfold flag_bits. repeat constructor; cbn; lia. }
    assert (0 <= b)%Z.
    { revert b Hb. apply Forall_forall. unfold unused_bits. repeat constructor; lia. }
    rewrite Z.lxor_spec, Z.pow2_bits_eqb by lia.
    assert (n ≠ b).
    { intros ->. revert Hn Hb. unfold flag_bits, unused_bits. cbn.
      rewrite !elem_of_cons, !elem_of_nil. lia. }
    replace (b =? n)%Z with false by (symmetry; apply Z.eqb_neq; lia).
    apply xorb_false_r.
Qed.

(** X8.  The status flags the decoder produces reach the telemetry as the
    polling task hands them over: after [update_laser_telemetry] on a
    reading whose [status_flags] entry is the decoded word [w], the four
    flags the store keeps as entries of their own are bits 2, 11, 29 and 1
    of [w]. *)
Theorem laser_flags_reach_telemetry (s : Sys) (laser_data : dict) (w : Z) :
  lockfree s ->
  laser_data !! "status_flags" = Some (VDict (LaserStatusDecoder.decode_status_word w)) ->
  let out := update_laser_telemetry laser_data s in
  let t := telemetry (state out.2) in
  out.1 = Ok tt
  ∧ t !! "laser_emission_on" = Some (VBool (Z.testbit w 2))
  ∧ t !! "laser_power_supply_on" = Some (VBool (Z.testbit w 11))
  ∧ t !! "laser_alarm_critical" = Some (VBool (Z.testbit w 29))
  ∧ t !! "laser_alarm_overheat" = Some (VBool (Z.testbit w 1)).
Proof.
  intros Hl Hf out t. subst t out. rewrite update_laser_telemetry_run by done.
  assert (Hsf : dict_get laser_data "status_flags" (VDict ∅)
                = VDict (LaserStatusDecoder.decode_status_word w)).
  { unfold dict_get. by rewrite Hf. }
  rewrite Hsf. cbn [fst snd state telemetry set_telemetry].
  split; [done|].
  match goal with |- context [list_to_map ?l ∪ _] => set (new := list_to_map l : dict) end.
  assert (Hnew : ∀ k v, new !! k = Some v -> (new ∪ telemetry (state s)) !! k = Some v).
  { intros k v. apply lookup_union_Some_l. }
  assert (Hbit : ∀ k n, (k, n) ∈ flag_bits ->
            dict_get (LaserStatusDecoder.decode_status_word w) k (VBool false)
            = VBool (Z.testbit w n)).
  { intros k n Hk. unfold dict_get. by rewrite (decode_lookup w k n). }
  rewrite <- (Hbit "emission_on" 2%Z) by (by apply (bool_decide_unpack _)).
  rewrite <- (Hbit "power_supply_on" 11%Z) by (by apply (bool_decide_unpack _)).
  rewrite <- (Hbit "alarm_critical" 29%Z) by (by apply (bool_decide_unpack _)).
  rewrite <- (Hbit "alarm_overheat" 1%Z) by (by apply (bool_decide_unpack _)).
  repeat (split; [apply Hnew; subst new; lookup_literal|]).
  apply Hnew; subst new; lookup_literal.
Qed.

Lemma laser_flags_reach_telemetry_witness :
  lockfree demo_sys
  ∧ telemetry (state (update_laser_telemetry (laser_reading 4) demo_sys).2)
      !! "laser_emission_on" = Some (VBool true).
Proof.
  split; [reflexivity|].
  destruct (laser_flags_reach_telemetry demo_sys (laser_reading 4) 4) as (_ & H & _);
    [reflexivity|reflexivity|].
  exact H.
Defined.

Section ModelFacts.
Import Models.

Lemma in_range_Z_iff lo hi x : in_range_Z lo hi x = true ↔ (lo ≤ x ≤ hi)%Z.
Proof. unfold in_range_Z. rewrite andb_true_iff, !Z.leb_le. done. Qed.

Lemma in_range_Q_iff lo hi x : in_range_Q lo hi x = true ↔ (lo <= x)%Q ∧ (x <= hi)%Q.
Proof. unfold in_range_Q. rewrite andb_true_iff, !Qle_bool_iff. done. Qed.


End ModelFacts.


(** X10.  A ramp request is accepted exactly when both power levels and the
    step lie between 1 and 100 percent with the upper level strictly above
    the lower one, the dwell time lies between 1 and 60 seconds, the power
    limit is not negative and the scenario is one of the five known names;
    the accepted request carries the fields unchanged, and the dictionary
    made of it for the session record gives each of them back. *)
Theorem ramp_request_accepted (min_pct max_pct step : Z) (dwell max_w : Q) (sc : string) :
  let r := mkRequest min_pct max_pct step dwell max_w sc in
  (Models.ramp_start_request min_pct max_pct step dwell max_w sc = Ok r
   ↔ (1 ≤ min_pct)%Z ∧ (min_pct < max_pct)%Z ∧ (max_pct ≤ 100)%Z
     ∧ (1 ≤ step ≤ 100)%Z ∧ (1 <= dwell)%Q ∧ (dwell <= 60)%Q ∧ (0 <= max_w)%Q
     ∧ sc ∈ Models.valid_scenarios)
  ∧ (∀ r', Models.ramp_start_request min_pct max_pct step dwell max_w sc = Ok r' -> r' = r)
  ∧ request_dict r !! "min_power_pct" = Some (VInt min_pct)
  ∧ request_dict r !! "max_power_pct" = Some (VInt max_pct)
  ∧ request_dict r !! "step_pct" = Some (VInt step)
  ∧ request_dict r !! "dwell_time_s" = Some (VFloat dwell)
  ∧ request_dict r !! "max_power_w" = Some (VFloat max_w)
  ∧ request_dict r !! "scenario" = Some (VStr sc).
Proof.
  intros r.
  assert (Hiff : ∀ r', Models.ramp_start_request min_pct max_pct step dwell max_w sc = Ok r'
                 ↔ r' = r
                   ∧ (1 ≤ min_pct)%Z ∧ (min_pct < max_pct)%Z ∧ (max_pct ≤ 100)%Z
                   ∧ (1 ≤ step ≤ 100)%Z ∧ (1 <= dwell)%Q ∧ (dwell <= 60)%Q ∧ (0 <= max_w)%Q
                   ∧ sc ∈ Models.valid_scenarios).
  { intros r'. unfold Models.ramp_start_request, Models.check_power_range.
    cbn [max_power_pct min_power_pct]. fold r.
    destruct (Models.in_range_Z 1 100 min_pct) eqn:E1; cbn [andb].
    2:{ split; [done|]. intros (_ & ? & ? & ? & _).
        assert (Models.in_range_Z 1 100 min_pct = true) by (apply in_range_Z_iff; lia).
        congruence. }
    destruct (Models.in_range_Z 1 100 max_pct) eqn:E2; cbn [andb].
    2:{ split; [done|]. intros (_ & ? & ? & ? & _).
        assert (Models.in_range_Z 1 100 max_pct = true) by (apply in_range_Z_iff; lia).
        congruence. }
    destruct (Models.in_range_Z 1 100 step) eqn:E3; cbn [andb].
    2:{ split; [done|]. intros (_ & _ & _ & _ & ? & _).
        assert (Models.in_range_Z 1 100 step = true) by by apply in_range_Z_iff.
        congruence. }
    destruct (Models.in_range_Q 1 60 dwell) eqn:E4; cbn [andb].
    2:{ split; [done|]. intros (_ & _ & _ & _ & _ & ? & ? & _).
        assert (Models.in_range_Q 1 60 dwell = true) by by apply in_range_Q_iff.
        congruence. }
    destruct (Qle_bool 0 max_w) eqn:E5; cbn [andb].
    2:{ split; [done|]. intros (_ & _ & _ & _ & _ & _ & _ & Hw & _).
        apply Qle_bool_iff in Hw. congruence. }
    apply in_range_Z_iff in E1, E2, E3. apply in_range_Q_iff in E4 as [? ?].
    apply Qle_bool_iff in E5.
    destruct (bool_decide (sc ∈ Models.valid_scenarios)) eqn:E6.
    2:{ split; [done|]. intros (_ & _ & _ & _ & _ & _ & _ & _ & Hsc).
        apply bool_decide_eq_false in E6. done. }
    apply bool_decide_eq_true in E6.
    destruct (max_pct <=? min_pct)%Z eqn:E7.
    - apply Z.leb_le in E7. split; [done|]. intros (_ & _ & ? & _). lia.
    - apply Z.leb_gt in E7. split; [intros [= <-]|intros (-> & _); done].
      repeat split; try done; lia. }
  split; [rewrite Hiff; split; [by intros (_ & ?)|done]|].
  split; [intros r' Hr'; by apply Hiff in Hr' as (-> & _)|].
  unfold request_dict, r. cbn [min_power_pct max_power_pct step_pct dwell_time_s
                              max_power_w req_scenario].
  repeat split; lookup_literal.
Qed.


(** X11.  [_stop_process] always returns normally, whatever signalling the
    process does: afterwards the role has no process in the table, the other
    entries, the status and the shutting-down flag are as before, no landing
    was requested, at most two events were logged and no process that had
    exited runs again.  When signalling never fails, the process that was in
    the table has exited. *)
Theorem stop_process_contract (env : Env) (name : string) (s : Sys) :
  lockfree s ->
  let out := _stop_process env name s in
  out.1 = Ok tt
  ∧ lockfree out.2
  ∧ slot out.2 name = None
  ∧ (∀ n, n ≠ name -> slot out.2 n = slot s n)
  ∧ status (state out.2) = status (state s)
  ∧ _shutting_down (supervisor out.2) = _shutting_down (supervisor s)
  ∧ land_attempts out.2 = land_attempts s
  ∧ (∃ new, length new ≤ 2
            ∧ events (state out.2) = deque_extend EVENTS_MAXLEN new (events (state s)))
  ∧ (∀ q, dead s q -> dead out.2 q)
  ∧ (killpg_never_raises env -> ∀ p, slot s name = Some p -> dead out.2 (pid p)).
Proof.
  intros Hl out.
  destruct (stop_process_spec env name s Hl) as (Hr & Q & S & N).
  destruct (stop_process_full env name s Hl) as (_ & Hl' & _ & D & K).
  destruct Q as ([_ E _ L] & St & F & _).
  split; [done|]. split; [done|]. split; [done|]. split; [done|].
  split; [done|]. split; [done|]. split; [done|]. split; [done|]. by split.
Qed.

Lemma stop_process_contract_witness :
  lockfree started_sys
  ∧ slot (_stop_process demo_env "air" started_sys).2 "air" = None
  ∧ dead (_stop_process demo_env "air" started_sys).2 102.
Proof.
  split; [reflexivity|].
  destruct (stop_process_contract demo_env "air" started_sys)
    as (_ & _ & H1 & _ & _ & _ & _ & _ & _ & H2); [reflexivity|].
  split; [exact H1|].
  apply (H2 (fun _ _ => eq_refl) (mkPopen 102)). by vm_compute.
Defined.

Section StopFacts.
Context (env : Env).

Lemma px4_run c s :
  px4 env c s =
    (match px4_outcome env c (length (px4_calls (world s))) with
     | Some e => Raise e
     | None => Ok tt
     end,
     mkSys (mkWorld (ticks (world s)) (os_procs (world s)) (next_pid (world s))
                    (px4_calls (world s) ++ [c]) (hook_calls (world s))
                    (sleeps (world s)))
           (state s) (supervisor s)).
Proof.
  unfold px4, bind, gets, upd_world, modify. cbn [fst snd].
  by destruct (px4_outcome env c (length (px4_calls (world s)))).
Qed.



End StopFacts.



(** X13.  [POST /ramp/start] with no run active and a power limit above the
    hardware's 500 W is refused with HTTP 400 before anything is started:
    the store and the supervisor are as before and no process was spawned.
    A limit of at most 500 W is never refused for that reason. *)
Theorem start_ramp_power_limit (env : Env) (req : RampStartRequest) (s : Sys) :
  run_active s = false ->
  let chk := is_running s in
  let out := start_ramp env req s in
  ((500 < max_power_w req)%Q ->
     out = (Raise over_limit, chk.2)
     ∧ state out.2 = state s
     ∧ supervisor out.2 = supervisor s
     ∧ next_pid (world out.2) = next_pid (world s)
     ∧ px4_calls (world out.2) = px4_calls (world s))
  ∧ ((max_power_w req <= 500)%Q -> lockfree s -> out.1 ≠ Raise over_limit).
Proof.
  intros Hact chk out. subst chk out.
  pose proof (is_running_active s) as Hchk. rewrite Hact in Hchk.
  pose proof (is_running_spec s) as (_ & (St & Sp & Px) & Np).
  unfold start_ramp, bind.
  destruct (is_running s) as [r s1]. cbn [fst snd] in *. subst r.
  split.
  - intros Hw. apply Qltb_lt in Hw. unfold MAX_POWER_W. rewrite Hw.
    cbn [fst snd raise]. by rewrite Sp.
  - intros Hw Hl. destruct (Qltb MAX_POWER_W (max_power_w req)) eqn:E.
    { apply Qltb_lt in E. unfold MAX_POWER_W in E. lra. }
    assert (Hl1 : lockfree s1) by (unfold lockfree; by rewrite St).
    unfold try_except.
    pose proof (safe_start_all env req s1 Hl1) as [Hr Hl2].
    destruct (start_all env req s1) as [[sid|e|] s2]; [done| |done].
    cbn [snd] in Hl2. unfold bind. rewrite add_event_run by done. done.
Qed.

Lemma start_ramp_power_limit_witness :
  run_active demo_sys = false
  ∧ (start_ramp demo_env greedy_request demo_sys).1 = Raise over_limit.
Proof.
  split; [reflexivity|].
  destruct (start_ramp_power_limit demo_env greedy_request demo_sys) as (H & _);
    [reflexivity|].
  destruct H as (H & _); [by vm_compute|]. exact (f_equal fst H).
Defined.


Section ParserFacts2.
Context (env : Env).
Import Re ReSpec.


Lemma event_of_is s level src code msg :
event_is (event_of env s level src code msg) level src code msg.
Proof. done. Qed.

Lemma events_after_add_event level src code msg s :
events (state (after_add_event env level src code msg s))
= deque_append EVENTS_MAXLEN (event_of env s level src code msg) (events (state s)).
Proof. reflexivity. Qed.


Lemma errors_after_add_error level src code msg s :
level_is_error level = true ->
errors (state (after_add_event env level src code msg s))
= deque_append ERRORS_MAXLEN (event_of env s level src code msg) (errors (state s)).
Proof.
intros H. unfold after_add_event. cbn [state errors set_errors]. by rewrite H.
Qed.




End ParserFacts2.










Section Gentle.
Context {A B : Type}.







End Gentle.

Section GentleOps.
Context (env : Env).















End GentleOps.




Section Keeps.
Context {A B : Type} (R : Sys -> Sys -> Prop).
Context (Rrefl : ∀ s, R s s) (Rtrans : ∀ s s1 s2, R s s1 -> R s1 s2 -> R s s2).

Lemma keeps_ret (a : A) : keeps R (ret a).
Proof using Rrefl. intros s. apply Rrefl. Qed.

Lemma keeps_raise e : keeps R (raise e : M A).
Proof using Rrefl. intros s. apply Rrefl. Qed.

Lemma keeps_gets (f : Sys -> A) : keeps R (gets f).
Proof using Rrefl. intros s. apply Rrefl. Qed.

Lemma keeps_bind (m : M A) (k : A -> M B) :
keeps R m -> (∀ a, keeps R (k a)) -> keeps R (bind m k).
Proof using Rtrans.
intros Hm Hk s. unfold bind. specialize (Hm s).
destruct (m s) as [[a|e|] s1]; [|done|done].
eapply Rtrans; [exact Hm|apply Hk].
Qed.

Lemma keeps_try_except (m : M A) h :
keeps R m -> (∀ e, keeps R (h e)) -> keeps R (try_except m h).
Proof using Rtrans.
intros Hm Hh s. unfold try_except. specialize (Hm s).
destruct (m s) as [[a|e|] s1]; [done| |done].
eapply Rtrans; [exact Hm|apply Hh].
Qed.
End Keeps.

Section StartFacts2.
Context (env : Env).

Lemma table_kept_refl s : table_kept s s.
Proof. done. Qed.

Lemma table_kept_trans s s1 s2 : table_kept s s1 -> table_kept s1 s2 -> table_kept s s2.
Proof.
intros (A1 & B1 & C1 & D1 & E1 & F1) (A2 & B2 & C2 & D2 & E2 & F2).
split; [congruence|]. split; [congruence|]. split; [congruence|].
split; [congruence|]. split; congruence.
Qed.

Lemma kept_print msg : keeps table_kept (print msg).
Proof. by intros s. Qed.

Lemma kept_sleep d0 : keeps table_kept (sleep d0).
Proof. by intros s. Qed.

Lemma kept_os_kill p : keeps table_kept (os_kill env p).
Proof.
intros s. unfold os_kill. destruct (os_kill_outcome env p); [done|].
unfold upd_world, modify. cbn [snd world].
by destruct (os_procs (world s) !! p).
Qed.

Lemma kept_add_event level src code msg : keeps table_kept (add_event env level src code msg).
Proof.
intros s. destruct (calm_add_event env level src code msg s) as (Sp & _ & Px & _).
assert (N : next_pid (world (add_event env level src code msg s).2) = next_pid (world s)
            ∧ process_pids (state (add_event env level src code msg s).2)
              = process_pids (state s)).
{ destruct s as [w st sp]. destruct st as [wsb ? ? ? ? ? ? ? ? ? ? ? ? lk], w.
  unfold add_event. destruct lk; [done|]. run_m.
  destruct (level_is_error level); run_m.
  all: destruct wsb as [h|]; run_m; [|done].
  all: match goal with |- context [match ?x with Some _ => _ | None => _ end] =>
              destruct x end; done. }
destruct N as [N P]. unfold table_kept. rewrite Sp, Px, N, P. done.
Qed.

Lemma kept_cleanup_except e : keeps table_kept (cleanup_except e).
Proof. destruct e; first [apply (keeps_ret _ table_kept_refl)|apply kept_print]. Qed.

Lemma kept_cleanup_pids pattern pids killed_any :
keeps table_kept (cleanup_pids env pattern pids killed_any).
Proof.
pose proof table_kept_refl as Hr. pose proof table_kept_trans as Ht.
revert killed_any. induction pids as [|pid_str rest IH]; intros killed_any;
  [by apply keeps_ret|].
cbn [cleanup_pids]. apply keeps_bind; [done| |intros b; apply IH].
destruct (nonempty pid_str); [|by apply keeps_ret].
apply keeps_try_except; [done| |].
- destruct (py_int pid_str) as [p|]; [|by apply keeps_raise].
  destruct (bool_decide (p ≠ getpid env)); [|by apply keeps_ret].
  apply keeps_bind; [done|apply kept_print|]. intros _.
  apply keeps_bind; [done|apply kept_os_kill|]. intros _.
  apply keeps_bind; [done| |intros _; by apply keeps_ret].
  apply keeps_try_except; [done|apply kept_add_event|].
  intros e. apply kept_cleanup_except.
- intros e. apply keeps_bind; [done|apply kept_cleanup_except|].
  intros _. by apply keeps_ret.
Qed.

Lemma kept_cleanup_patterns patterns killed_any :
keeps table_kept (cleanup_patterns env patterns killed_any).
Proof.
pose proof table_kept_refl as Hr. pose proof table_kept_trans as Ht.
revert killed_any. induction patterns as [|pattern rest IH]; intros killed_any;
  [by apply keeps_ret|].
cbn [cleanup_patterns]. destruct (pgrep env pattern) as [e|rc out].
- destruct e;
    first [ apply keeps_bind; [done|apply kept_print|]; intros _; apply IH
          | apply keeps_bind; [done|apply kept_print|]; intros _; by apply keeps_ret ].
- destruct (bool_decide (rc = 0%Z) && nonempty (py_strip out)); [|apply IH].
  apply keeps_bind; [done|apply kept_cleanup_pids|]. intros b. apply IH.
Qed.

Lemma kept_cleanup_old_processes : keeps table_kept (_cleanup_old_processes env).
Proof.
pose proof table_kept_refl as Hr. pose proof table_kept_trans as Ht.
unfold _cleanup_old_processes. apply keeps_bind; [done|apply kept_cleanup_patterns|].
intros [|]; [|apply kept_print].
apply keeps_bind; [done|apply kept_sleep|]. intros _. apply kept_print.
Qed.



Lemma paused_refl s : lockfree s -> paused s s.
Proof. done. Qed.









Lemma paused_trans s s1 s2 : paused s s1 -> paused s1 s2 -> paused s s2.
Proof.
intros (K1 & L1 & O1 & I1 & J1) (K2 & L2 & O2 & I2 & J2).
split; [by eapply table_kept_trans|]. split; [done|].
split; [congruence|]. split; congruence.
Qed.


End StartFacts2.




Section StopRamp.
Context (env : Env).

(** The suppressed landing request of [POST /ramp/stop]. *)
Lemma landing_suppressed (drone : bool) s :
lockfree s ->
wp (when drone (try_except (px4_land env ;; sleep 3) (fun _ => ret tt))) s
   (fun r s' =>
      r = Ok tt ∧ lockfree s' ∧ state s' = state s ∧ supervisor s' = supervisor s
      ∧ px4_calls (world s')
        = px4_calls (world s) ++ (if drone then [Px4Land] else [])).
Proof.
intros Hl. destruct drone; [|apply wp_ret; by rewrite app_nil_r].
unfold when. apply wp_try_except. apply wp_bind.
unfold wp at 1, px4_land. rewrite px4_run. cbn [fst snd].
destruct (px4_outcome env Px4Land (length (px4_calls (world s)))) as [e|].
- by apply wp_ret.
- by apply wp_modify.
Qed.

Lemma stop_ramp_running (drone : bool) s :
lockfree s ->
wp (try_except
      (when drone (try_except (px4_land env ;; sleep 3) (fun _ => ret tt)) ;;
       stop_all env None ;;
       ret "stopped")
      (fun e =>
         add_event env "ERROR" "server" "STOP_FAILED"
           ("Failed to stop ramp: " +:+ exn_str e) ;;
         raise (HTTPException 500 (exn_str e)))) s
   (fun r s' =>
      (r = Ok "stopped" ∨ ∃ msg, r = Raise (HTTPException 500 msg))
      ∧ lockfree s'
      ∧ roles_cleared s'
      ∧ land_attempts s' = land_attempts s + (if drone then 1 else 0)
      ∧ (r = Ok "stopped" -> status (state s') = "READY"
                             ∧ _shutting_down (supervisor s') = false)
      ∧ (killpg_never_raises env ->
           r = Ok "stopped"
           ∧ ∀ name p, name ∈ ["ground"; "air"; "relay"] -> slot s name = Some p ->
                       dead s' (pid p))).
Proof.
intros Hl. apply wp_try_except. apply wp_bind.
eapply wp_mono; [by apply landing_suppressed|].
intros r s1 (-> & Hl1 & St1 & Sp1 & Px1).
assert (La : land_attempts s1 = land_attempts s + (if drone then 1 else 0)).
{ destruct drone.
  - rewrite (land_attempts_app s s1 Px4Land Px1). by destruct (decide _).
  - rewrite app_nil_r in Px1. unfold land_attempts. rewrite Px1. lia. }
apply wp_bind.
pose proof (stop_all_spec env None s1 Hl1) as ([Hl2 _ _ L2] & R2 & HOk & _ & HSt & HK).
assert (HD : killpg_never_raises env ->
             ∀ name p, name ∈ ["ground"; "air"; "relay"] -> slot s name = Some p ->
                       dead (stop_all env None s1).2 (pid p)).
{ intros K name p Hn Hs. apply (stop_all_kills env None s1 name p); [done|done|done|].
  unfold slot. by rewrite Sp1. }
specialize (HSt eq_refl).
unfold wp at 1. unfold wp in R2, HOk, HK.
destruct (stop_all env None s1) as [r2 s2]. cbn [fst snd] in *.
destruct r2 as [[]|e|]; [| |done].
- apply wp_ret. split; [by left|]. split; [done|]. split; [done|].
  split; [congruence|]. split; [by intros _; apply HOk|].
  intros K. split; [done|]. by apply HD.
- apply wp_bind. apply wp_add_event; [done|]. apply wp_raise.
  split; [right; by eexists|]. split; [by apply after_add_event_lockfree|].
  split; [done|]. split; [unfold land_attempts in *; cbn; congruence|].
  split; [done|]. intros K. by specialize (HK K I).
Qed.

Lemma stop_ramp_eq (drone : bool) s :
stop_ramp env drone s =
  if run_active s
  then try_except
         (when drone (try_except (px4_land env ;; sleep 3) (fun _ => ret tt)) ;;
          stop_all env None ;;
          ret "stopped")
         (fun e =>
            add_event env "ERROR" "server" "STOP_FAILED"
              ("Failed to stop ramp: " +:+ exn_str e) ;;
            raise (HTTPException 500 (exn_str e))) (is_running s).2
  else (Raise not_running, (is_running s).2).
Proof.
pose proof (is_running_active s) as Hchk. unfold stop_ramp. unfold bind at 1.
destruct (is_running s) as [r s1]. cbn [fst snd] in *. subst r.
by destruct (run_active s).
Qed.

Lemma cleared_not_active s : roles_cleared s -> run_active s = false.
Proof.
intros H. pose proof (is_running_active s) as Hchk.
rewrite is_running_cleared in Hchk by done. cbn [fst] in Hchk. congruence.
Qed.
End StopRamp.

(** X20.  [POST /ramp/stop] with no run active is refused with HTTP 400
    "No ramp running" and changes neither the store nor the supervisor.
    With a run active it always comes back, with "stopped" or with HTTP 500:
    either way no role has a process in the table afterwards and a second
    stop would be refused; a landing is requested exactly when a drone is
    connected, and its failure does not keep the processes from being
    stopped.  When it answers "stopped" the status is READY and the
    shutting-down flag is clear; when signalling never fails it does answer
    "stopped" and every role process of the run has exited. *)
Theorem stop_ramp_contract (env : Env) (drone : bool) (s : Sys) :
  lockfree s ->
  let chk := is_running s in
  let out := stop_ramp env drone s in
  (run_active s = false ->
     out = (Raise not_running, chk.2)
     ∧ state out.2 = state s
     ∧ supervisor out.2 = supervisor s
     ∧ px4_calls (world out.2) = px4_calls (world s))
  ∧ (run_active s = true ->
       (out.1 = Ok "stopped" ∨ ∃ msg, out.1 = Raise (HTTPException 500 msg))
       ∧ roles_cleared out.2
       ∧ (stop_ramp env drone out.2).1 = Raise not_running
       ∧ land_attempts out.2 = land_attempts s + (if drone then 1 else 0)
       ∧ (out.1 = Ok "stopped" -> status (state out.2) = "READY"
                                  ∧ _shutting_down (supervisor out.2) = false)
       ∧ (killpg_never_raises env ->
            out.1 = Ok "stopped"
            ∧ ∀ name p, name ∈ ["ground"; "air"; "relay"] -> slot s name = Some p ->
                        dead out.2 (pid p))).
Proof.
  intros Hl chk out. subst chk out.
  pose proof (is_running_spec s) as (_ & (St & Sp & Px) & Np).
  rewrite stop_ramp_eq.
  split; intros Hact; rewrite Hact.
  { split; [done|]. by split. }
  assert (Hl1 : lockfree (is_running s).2) by (unfold lockfree; by rewrite St).
  pose proof (stop_ramp_running env drone (is_running s).2 Hl1) as H. unfold wp in H.
  destruct H as (Hr & Hl2 & R2 & La & HOk & HK).
  split; [done|]. split; [done|].
  split.
  { rewrite stop_ramp_eq. by rewrite cleared_not_active. }
  split; [unfold land_attempts in *; by rewrite La, Px|].
  split; [done|]. intros K. destruct (HK K) as [H1 H2]. split; [done|].
  intros name p Hn Hs. apply (H2 name p Hn). unfold slot. by rewrite Sp.
Qed.

Lemma stop_ramp_contract_witness :
  lockfree started_sys
  ∧ run_active started_sys = true
  ∧ (stop_ramp demo_env true started_sys).1 = Ok "stopped"
  ∧ dead (stop_ramp demo_env true started_sys).2 103.
Proof.
  split; [reflexivity|].
  assert (Hl : lockfree started_sys) by reflexivity.
  assert (Ha : run_active started_sys = true) by (by vm_compute).
  split; [exact Ha|].
  destruct (stop_ramp_contract demo_env true started_sys Hl) as [_ H].
  destruct (H Ha) as (_ & _ & _ & _ & _ & HK).
  destruct HK as [H1 H2]; [intros ? ?; reflexivity|].
  split; [exact H1|].
  assert (Hin : "ground" ∈ ["ground"; "air"; "relay"]) by (by apply (bool_decide_unpack _)).
  assert (Hs : slot started_sys "ground" = Some (mkPopen 103)) by (by vm_compute).
  exact (H2 "ground" (mkPopen 103) Hin Hs).
Defined.


Section CleanupFacts.
Context (env : Env).

Lemma self_kept_refl s : self_kept env s s.
Proof. done. Qed.

Lemma self_kept_trans s s1 s2 :
self_kept env s s1 -> self_kept env s1 s2 -> self_kept env s s2.
Proof. intros [A1 B1] [A2 B2]. split; congruence. Qed.

Lemma add_event_os_procs level src code msg s :
os_procs (world (add_event env level src code msg s).2) = os_procs (world s).
Proof.
destruct s as [w st sp]. destruct st as [wsb ? ? ? ? ? ? ? ? ? ? ? ? lk], w.
unfold add_event. destruct lk; [done|]. run_m.
destruct (level_is_error level); run_m.
all: destruct wsb as [h|]; run_m; [|done].
all: match goal with |- context [match ?x with Some _ => _ | None => _ end] =>
            destruct x end; done.
Qed.

Lemma self_add_event level src code msg :
keeps (self_kept env) (add_event env level src code msg).
Proof.
intros s. destruct (calm_add_event env level src code msg s) as (_ & St & _).
split; [done|]. by rewrite add_event_os_procs.
Qed.

Lemma self_print msg : keeps (self_kept env) (print msg).
Proof. by intros s. Qed.

Lemma self_sleep d0 : keeps (self_kept env) (sleep d0).
Proof. by intros s. Qed.

Lemma self_os_kill p : p ≠ getpid env -> keeps (self_kept env) (os_kill env p).
Proof.
intros Hp s. unfold os_kill. destruct (os_kill_outcome env p); [done|].
unfold upd_world, modify. cbn [snd world]. split; [done|].
destruct (os_procs (world s) !! p); [|done].
cbn. by rewrite lookup_insert_ne.
Qed.

Lemma self_cleanup_except e : keeps (self_kept env) (cleanup_except e).
Proof.
destruct e; first [apply (keeps_ret _ (self_kept_refl))|apply self_print].
Qed.

Lemma self_cleanup_pids pattern pids killed_any :
keeps (self_kept env) (cleanup_pids env pattern pids killed_any).
Proof.
pose proof self_kept_refl as Hr. pose proof self_kept_trans as Ht.
revert killed_any. induction pids as [|pid_str rest IH]; intros killed_any;
  [by apply keeps_ret|].
cbn [cleanup_pids]. apply keeps_bind; [done| |intros b; apply IH].
destruct (nonempty pid_str); [|by apply keeps_ret].
apply keeps_try_except; [done| |].
- destruct (py_int pid_str) as [p|]; [|by apply keeps_raise].
  case_bool_decide as Hp; [|by apply keeps_ret].
  apply keeps_bind; [done|apply self_print|]. intros _.
  apply keeps_bind; [done|by apply self_os_kill|]. intros _.
  apply keeps_bind; [done| |intros _; by apply keeps_ret].
  apply keeps_try_except; [done|apply self_add_event|].
  intros e. apply self_cleanup_except.
- intros e. apply keeps_bind; [done|apply self_cleanup_except|].
  intros _. by apply keeps_ret.
Qed.

Lemma self_cleanup_patterns patterns killed_any :
keeps (self_kept env) (cleanup_patterns env patterns killed_any).
Proof.
pose proof self_kept_refl as Hr. pose proof self_kept_trans as Ht.
revert killed_any. induction patterns as [|pattern rest IH]; intros killed_any;
  [by apply keeps_ret|].
cbn [cleanup_patterns]. destruct (pgrep env pattern) as [e|rc out].
- destruct e;
    first [ apply keeps_bind; [done|apply self_print|]; intros _; apply IH
          | apply keeps_bind; [done|apply self_print|]; intros _; by apply keeps_ret ].
- destruct (bool_decide (rc = 0%Z) && nonempty (py_strip out)); [|apply IH].
  apply keeps_bind; [done|apply self_cleanup_pids|]. intros b. apply IH.
Qed.

Lemma self_cleanup_old_processes : keeps (self_kept env) (_cleanup_old_processes env).
Proof.
pose proof self_kept_refl as Hr. pose proof self_kept_trans as Ht.
unfold _cleanup_old_processes. apply keeps_bind; [done|apply self_cleanup_patterns|].
intros [|]; [|apply self_print].
apply keeps_bind; [done|apply self_sleep|]. intros _. apply self_print.
Qed.

Lemma cleanup_patterns_nothing patterns killed_any s :
nothing_stale env ->
cleanup_patterns env patterns killed_any s = (Ok killed_any, s).
Proof.
intros Hn. induction patterns as [|pattern rest IH]; [done|].
cbn [cleanup_patterns]. destruct (Hn pattern) as (rc & out & -> & Hrc).
by rewrite bool_decide_eq_false_2.
Qed.
End CleanupFacts.

(** X21.  [_cleanup_old_processes] never raises, whatever [pgrep] and
    [os.kill] do: afterwards the process table, the monitor tasks, the
    published pids, the status and the calls to the drone controller are as
    before and nothing was spawned; the server's own process is never
    signalled, even when [pgrep] lists it.  When [pgrep] finds nothing for
    any pattern, nothing changes at all. *)
Theorem cleanup_old_processes_contract (env : Env) (s : Sys) :
  lockfree s ->
  let out := _cleanup_old_processes env s in
  out.1 = Ok tt
  ∧ lockfree out.2
  ∧ table_kept s out.2
  ∧ status (state out.2) = status (state s)
  ∧ os_procs (world out.2) !! getpid env = os_procs (world s) !! getpid env
  ∧ (nothing_stale env -> out.2 = s).
Proof.
  intros Hl out. subst out.
  pose proof (total_cleanup_old_processes env s Hl) as [[[] Hr] Hl'].
  pose proof (kept_cleanup_old_processes env s) as K.
  pose proof (self_cleanup_old_processes env s) as [St Own].
  split; [done|]. split; [done|]. split; [done|]. split; [done|]. split; [done|].
  intros Hn. unfold _cleanup_old_processes, bind.
  by rewrite cleanup_patterns_nothing.
Qed.

Lemma cleanup_old_processes_contract_witness :
  lockfree stale_sys
  ∧ (_cleanup_old_processes stale_env stale_sys).1 = Ok tt
  ∧ os_procs (world (_cleanup_old_processes stale_env stale_sys).2) !! 7%Z
    = Some (mkProc true 0 [] (Some 0) None)
  ∧ pr_dying (os_lookup (world (_cleanup_old_processes stale_env stale_sys).2) 41)
    = Some 0.
Proof.
  split; [reflexivity|].
  assert (Hl : lockfree stale_sys) by reflexivity.
  destruct (cleanup_old_processes_contract stale_env stale_sys Hl)
    as (H1 & _ & _ & _ & H2 & _).
  split; [exact H1|]. split; [|by vm_compute].
  etransitivity; [exact H2|]. by vm_compute.
Defined.







Section LinkFacts.
Context (env : Env).

Lemma dead_after_add_event level src code msg s q :
dead s q -> dead (after_add_event env level src code msg s) q.
Proof. done. Qed.

(** The [try] block of [_stop_virtual_elrs_link] for the bridge [p]. *)
Lemma stop_link_body p s :
lockfree s ->
wp (c <- poll p ;;
    match c with
    | None =>
        killpg env p SIGTERM ;;
        poll_until_exit 50 p ;;
        c' <- poll p ;;
        when (bool_decide (c' = None)) (killpg env p SIGKILL)
    | Some _ => ret tt
    end ;;
    add_event env "INFO" "server" "SOCAT_STOP" "socat PTY bridge stopped") s
   (fun r s' => r ≠ Stuck ∧ (killpg_never_raises env -> dead s' (pid p))).
Proof.
intros Hl. apply wp_bind. unfold wp at 1.
pose proof (poll_some_dead p s) as Hp.
pose proof (total_poll p s Hl) as [[c0 Hc0] Hl1].
destruct (poll p s) as [r s1]; cbn [fst snd] in *. subst r.
destruct c0 as [c|].
{ specialize (Hp c eq_refl). apply wp_bind. apply wp_ret.
  apply wp_add_event; [done|]. split; [done|]. intros _.
  by apply dead_after_add_event. }
clear Hp. apply wp_bind. apply wp_bind.
pose proof (killpg_ok env p SIGTERM s1) as Hk.
pose proof (safe_killpg env p SIGTERM s1 Hl1) as [Hr2 Hl2].
unfold wp at 1. destruct (killpg env p SIGTERM s1) as [r s2]. cbn [fst snd] in *.
destruct r as [[]|e|]; [| |done].
2:{ split; [done|]. intros K. by specialize (Hk (K _ _)). }
apply wp_bind.
eapply wp_mono; [apply poll_until_exit_spec|]. intros r s3 (-> & W3).
assert (Hl3 : lockfree s3) by by eapply world_step_lockfree.
apply wp_bind. unfold wp at 1.
pose proof (poll_some_dead p s3) as Hp.
pose proof (total_poll p s3 Hl3) as [[c1 Hc1] Hl4].
destruct (poll p s3) as [r s4]; cbn [fst snd] in *. subst r.
destruct c1 as [c|].
{ specialize (Hp c eq_refl). rewrite bool_decide_eq_false_2 by done.
  apply wp_ret. apply wp_add_event; [done|]. split; [done|]. intros _.
  by apply dead_after_add_event. }
rewrite bool_decide_eq_true_2 by done. unfold when.
pose proof (killpg_ok env p SIGKILL s4) as Hk'.
pose proof (sigkill_dead env p s4) as Hd.
pose proof (safe_killpg env p SIGKILL s4 Hl4) as [Hr5 Hl5].
unfold wp at 1. destruct (killpg env p SIGKILL s4) as [r s5]. cbn [fst snd] in *.
destruct r as [[]|e|]; [| |done].
2:{ split; [done|]. intros K. by specialize (Hk' (K _ _)). }
apply wp_add_event; [done|]. split; [done|]. intros K.
apply dead_after_add_event. by apply Hd.
Qed.

Lemma stop_link_clears s :
lockfree s ->
wp (_stop_virtual_elrs_link env) s (fun r s' =>
  slot s' "socat" = None
  ∧ (killpg_never_raises env -> ∀ p, slot s "socat" = Some p -> dead s' (pid p))).
Proof.
intros Hl. unfold _stop_virtual_elrs_link. apply wp_bind. apply wp_gets.
fold (slot s "socat"). destruct (slot s "socat") as [p|] eqn:E.
2:{ apply wp_ret. by split. }
apply wp_try_finally. eapply wp_mono; [by apply stop_link_body|].
intros r s1 (Hr & Hd).
assert (H : wp (set_process "socat" None) s1 (fun r2 s2 =>
          r2 = Ok tt ∧ slot s2 "socat" = None
          ∧ (killpg_never_raises env -> ∀ p0, Some p = Some p0 -> dead s2 (pid p0)))).
{ apply wp_modify. split; [done|]. split.
  - rewrite slot_set_process. by destruct (decide ("socat" = "socat")).
  - intros K p0 [= <-]. by apply Hd. }
unfold wp in *.
destruct (set_process "socat" None s1) as [r2 s2]. cbn [fst snd] in *.
destruct H as (-> & H1 & H2). by destruct r as [[]|e|].
Qed.
End LinkFacts.

(** X24.  [_stop_virtual_elrs_link] always comes back (it returns, or
    raises when signalling fails), and either way the bridge's entry in the
    process table is cleared; the other entries, the status and the
    shutting-down flag are kept, at most one event is logged, no landing is
    requested and no process that had exited runs again.  When signalling
    never fails it returns, and the bridge that was in the table has
    exited. *)
Theorem stop_link_contract (env : Env) (s : Sys) :
  lockfree s ->
  let out := _stop_virtual_elrs_link env s in
  out.1 ≠ Stuck
  ∧ lockfree out.2
  ∧ slot out.2 "socat" = None
  ∧ (∀ n, n ≠ "socat" -> slot out.2 n = slot s n)
  ∧ status (state out.2) = status (state s)
  ∧ _shutting_down (supervisor out.2) = _shutting_down (supervisor s)
  ∧ land_attempts out.2 = land_attempts s
  ∧ (∃ new, length new ≤ 1
            ∧ events (state out.2) = deque_extend EVENTS_MAXLEN new (events (state s)))
  ∧ (∀ q, dead s q -> dead out.2 q)
  ∧ (killpg_never_raises env ->
       out.1 = Ok tt ∧ ∀ p, slot s "socat" = Some p -> dead out.2 (pid p)).
Proof.
  intros Hl out.
  destruct (stop_link_spec env s Hl) as (Hr & Q & S & HK).
  destruct (stop_link_clears env s Hl) as (C & D).
  destruct Q as ([Hl' E _ L] & St & F & _).
  split; [done|]. split; [done|]. split; [done|]. split; [done|].
  split; [done|]. split; [done|]. split; [done|]. split; [done|].
  split; [intros q; apply keeps_dead_stop_link|].
  intros K. split; [by apply HK|by apply D].
Qed.

Lemma stop_link_contract_witness :
  lockfree started_sys
  ∧ slot started_sys "socat" = Some (mkPopen 100)
  ∧ slot (_stop_virtual_elrs_link demo_env started_sys).2 "socat" = None
  ∧ dead (_stop_virtual_elrs_link demo_env started_sys).2 100.
Proof.
  split; [reflexivity|].
  assert (Hl : lockfree started_sys) by reflexivity.
  assert (Hs : slot started_sys "socat" = Some (mkPopen 100)) by (by vm_compute).
  split; [exact Hs|].
  destruct (stop_link_contract demo_env started_sys Hl)
    as (_ & _ & H1 & _ & _ & _ & _ & _ & _ & H2).
  split; [exact H1|].
  destruct H2 as [_ H2]; [intros ? ?; reflexivity|].
  exact (H2 (mkPopen 100) Hs).
Defined.


Section LinkStart.
Context (env : Env).

Lemma start_link_eq s :
_start_virtual_elrs_link env s =
  (running <- role_running "socat" ;;
   if running : bool then ret tt else
   if negb (which_socat env) then
     add_event env "ERROR" "server" "SOCAT_NOT_FOUND"
       "socat not found. Install with: brew install socat" ;;
     raise (RuntimeError "socat not found")
   else
     p <- popen env "socat" ;;
     set_process "socat" (Some p) ;;
     add_event env "INFO" "server" "SOCAT_START"
       ("socat PTY bridge started (PID " +:+ pretty (pid p) +:+ ")")) s.
Proof.
unfold _start_virtual_elrs_link, role_running, bind, get_process, gets.
destruct (default None (processes (supervisor s) !! "socat")) as [p|]; [|reflexivity].
destruct (poll p s) as [[c|e|] s1]; reflexivity.
Qed.
End LinkStart.

(** X25.  [_start_virtual_elrs_link] does nothing when the bridge in the
    process table has not exited: nothing is spawned or logged.  Otherwise,
    when the bridge program is not installed, it logs the ERROR event
    SOCAT_NOT_FOUND and raises RuntimeError "socat not found", again without
    spawning anything or touching the process table. *)
Theorem start_link_guard (env : Env) (s : Sys) :
  lockfree s ->
  let out := _start_virtual_elrs_link env s in
  (role_alive s "socat" = true ->
     out.1 = Ok tt
     ∧ state out.2 = state s
     ∧ supervisor out.2 = supervisor s
     ∧ next_pid (world out.2) = next_pid (world s))
  ∧ (role_alive s "socat" = false -> which_socat env = false ->
       out.1 = Raise socat_missing
       ∧ supervisor out.2 = supervisor s
       ∧ next_pid (world out.2) = next_pid (world s)
       ∧ ∃ e, last (events (state out.2)) = Some e
              ∧ last (errors (state out.2)) = Some e
              ∧ event_is e "ERROR" "server" "SOCAT_NOT_FOUND"
                  "socat not found. Install with: brew install socat").
Proof.
  intros Hl out. subst out. rewrite start_link_eq.
  pose proof (role_running_spec "socat" s) as (_ & (St & Sp & Px) & Np).
  pose proof (role_running_cases "socat" s) as Hc.
  match goal with |- context [(bind ?m ?k s).1] =>
    assert (Hrun : bind m k s = match (m s).1 with
                                | Ok a => k a (m s).2
                                | Raise e => (Raise e, (m s).2)
                                | Stuck => (Stuck, (m s).2)
                                end)
      by (unfold bind; by destruct (m s) as [[?|?|] ?]);
    rewrite Hrun; clear Hrun
  end.
  destruct (role_running "socat" s) as [r s1]. cbn [fst snd] in *.
  split.
  - intros Ha. destruct Hc as [(_ & ->)|(Hf & _)]; [|congruence].
    split; [done|]. split; [done|]. by split.
  - intros Ha Hw. destruct Hc as [(Ht & _)|(_ & -> & _)]; [congruence|].
    rewrite Hw. cbn [negb]. unfold bind.
    assert (Hl1 : lockfree s1) by (unfold lockfree; by rewrite St).
    rewrite add_event_run by done. cbn [fst snd raise].
    split; [done|]. split; [done|]. split; [done|].
    eexists. split; [|split; [|apply event_of_is]].
    + rewrite events_after_add_event. apply deque_append_last. unfold EVENTS_MAXLEN. lia.
    + rewrite errors_after_add_error by (by vm_compute).
      apply deque_append_last. unfold ERRORS_MAXLEN. lia.
Qed.

Lemma start_link_guard_witness :
  lockfree demo_sys
  ∧ role_alive demo_sys "socat" = false
  ∧ which_socat nosocat_env = false
  ∧ (_start_virtual_elrs_link nosocat_env demo_sys).1 = Raise socat_missing.
Proof.
  split; [reflexivity|].
  assert (Hl : lockfree demo_sys) by reflexivity.
  assert (Ha : role_alive demo_sys "socat" = false) by (by vm_compute).
  assert (Hw : which_socat nosocat_env = false) by reflexivity.
  split; [exact Ha|]. split; [exact Hw|].
  destruct (start_link_guard nosocat_env demo_sys Hl) as [_ H].
  destruct (H Ha Hw) as (H1 & _). exact H1.
Defined.
